(** * ORKG reproducibility-score evaluation: classifier, scorer, aggregator
      and balanced collector

    A shallow embedding of [collect_orkg_data.py] and
    [evaluate_reproducibility.py].

    Conventions of the embedding:
    - Python [str] is [string]; characters are 8-bit, so the case mapping,
      the whitespace test and the regular-expression classes are the ASCII
      restrictions of the Python ones.
    - Python [int] is [Z]; [len] is [Z.of_nat (length _)].
    - A float is the rational it denotes ([Q], compared with [==]).  The
      scores are [0.0] and [100.0]; [statistics.mean] sums its data exactly
      as fractions, divides by the count and converts the quotient to the
      nearest double: [mean] and [calc_mean] give the exact quotient,
      [to_float] is the conversion, and the means stored in a result are
      converted ([mean_float], [calc_mean_float]).
    - Network calls are answers of an explicit environment; the evaluator
      additionally records every call it makes in a log. *)

From Stdlib Require Import List Bool Arith ZArith QArith Lia Lqa String Ascii.
From Stdlib Require Import Qround Permutation Sorted DecimalString.
Import ListNotations.

Open Scope string_scope.
Open Scope Z_scope.

(* ================================================================== *)
(** ** Python string primitives *)

Module PyStr.

Definition nl : ascii := ascii_of_nat 10.

(** [str.isspace] on one ASCII character: TAB..CR, FS..US and space. *)
Definition is_space (c : ascii) : bool :=
  let n := nat_of_ascii c in
  ((9 <=? n) && (n <=? 13) || (28 <=? n) && (n <=? 32))%nat.

Definition lower_char (c : ascii) : ascii :=
  let n := nat_of_ascii c in
  if ((65 <=? n) && (n <=? 90))%nat then ascii_of_nat (n + 32) else c.

(** [s.lower()] *)
Fixpoint lower (s : string) : string :=
  match s with
  | EmptyString => EmptyString
  | String c s' => String (lower_char c) (lower s')
  end.

(** [s[:n]] for [n >= 0] *)
Fixpoint take (n : nat) (s : string) : string :=
  match n, s with
  | O, _ => EmptyString
  | S _, EmptyString => EmptyString
  | S n', String c s' => String c (take n' s')
  end.

(** [s[n:]] for [n >= 0] *)
Fixpoint drop (n : nat) (s : string) : string :=
  match n, s with
  | O, _ => s
  | S _, EmptyString => EmptyString
  | S n', String _ s' => drop n' s'
  end.

(** [s.startswith(p)] *)
Fixpoint startswith (p s : string) : bool :=
  match p, s with
  | EmptyString, _ => true
  | String _ _, EmptyString => false
  | String a p', String b s' => Ascii.eqb a b && startswith p' s'
  end.

(** [needle in s] *)
Fixpoint contains (needle s : string) : bool :=
  startswith needle s ||
  match s with
  | EmptyString => false
  | String _ s' => contains needle s'
  end.

Fixpoint lstrip (s : string) : string :=
  match s with
  | EmptyString => EmptyString
  | String c s' => if is_space c then lstrip s' else s
  end.

(** [rstrip]: a character is kept iff something non-blank follows or it is
    itself non-blank. *)
Fixpoint rstrip (s : string) : string :=
  match s with
  | EmptyString => EmptyString
  | String c s' =>
      match rstrip s' with
      | EmptyString => if is_space c then EmptyString else String c EmptyString
      | r => String c r
      end
  end.

(** [s.strip()] *)
Definition strip (s : string) : string := rstrip (lstrip s).

(** Truthiness of a string. *)
Definition truthy (s : string) : bool :=
  match s with EmptyString => false | _ => true end.

(** [s in l] for a list of strings *)
Definition in_list (s : string) (l : list string) : bool :=
  existsb (String.eqb s) l.

(** [str(x)] of an optional string read from JSON: [None] prints as
    the four letters of its name. *)
Definition str_of (o : option string) : string :=
  match o with Some s => s | None => "None" end.

End PyStr.

(* ================================================================== *)
(** ** The fragment of [re] used by [REPO_PATTERNS] *)

Module Re.
Import PyStr.

(** Character classes of the patterns. *)
Inductive cls : Type :=
| NotSlash      (* [^/]        *)
| NameChar      (* [^/\s\?#]   *)
| Digit.        (* \d          *)

Definition in_cls (k : cls) (c : ascii) : bool :=
  match k with
  | NotSlash => negb (Ascii.eqb c "/")
  | NameChar =>
      negb (Ascii.eqb c "/" || is_space c || Ascii.eqb c "?" || Ascii.eqb c "#")
  | Digit => let n := nat_of_ascii c in ((48 <=? n) && (n <=? 57))%nat
  end.

(** A pattern is a sequence of literal texts and capturing groups
    [(k+)]. *)
Inductive item : Type :=
| Lit (s : string)
| Grp (k : cls).

Definition pattern := list item.

(** Number of capturing groups of a pattern. *)
Fixpoint groups_of (p : pattern) : nat :=
  match p with
  | [] => O
  | Lit _ :: r => groups_of r
  | Grp _ :: r => S (groups_of r)
  end.

(** Length of the longest prefix of [s] inside the class. *)
Fixpoint run (k : cls) (s : string) : nat :=
  match s with
  | EmptyString => O
  | String c s' => if in_cls k c then S (run k s') else O
  end.

(** Literal text under [re.IGNORECASE]. *)
Definition lit_matches (l s : string) : bool :=
  String.eqb (lower l) (lower (take (String.length l) s)).

(** Match the pattern at the start of [s]; a group is greedy and gives
    characters back one at a time, down to one character. *)
Fixpoint match_here (p : pattern) (s : string) : option (list string) :=
  match p with
  | [] => Some []
  | Lit l :: r =>
      if lit_matches l s then match_here r (drop (String.length l) s) else None
  | Grp k :: r =>
      (fix back (n : nat) : option (list string) :=
         match n with
         | O => None
         | S n' =>
             match match_here r (drop n s) with
             | Some gs => Some (take n s :: gs)
             | None => back n'
             end
         end) (run k s)
  end.

(** [re.search]: the leftmost start position that matches. *)
Fixpoint search (p : pattern) (s : string) : option (list string) :=
  match match_here p s with
  | Some gs => Some gs
  | None =>
      match s with
      | EmptyString => None
      | String _ s' => search p s'
      end
  end.

(** [match.group(i)], [i >= 1] *)
Definition group (i : nat) (gs : list string) : string :=
  nth (i - 1) gs "".

(** [re.sub(r'\.git$', '', s)]: [$] matches at the end of the text and
    just before a final newline. *)
Fixpoint sub_dot_git (s : string) : string :=
  match s with
  | EmptyString => EmptyString
  | String c s' =>
      if String.eqb s ".git" then EmptyString
      else if String.eqb s (".git" ++ String nl EmptyString) then String nl EmptyString
      else String c (sub_dot_git s')
  end.

End Re.

(* ================================================================== *)
(** ** [collect_orkg_data.py]: the classifier *)

Module Collect.
Import PyStr Re.

Definition host_owner_name (host : string) : pattern :=
  [Lit (host ++ "/"); Grp NotSlash; Lit "/"; Grp NameChar].

Definition REPO_PATTERNS : list (pattern * string) :=
  [ (host_owner_name "github.com", "github");
    (host_owner_name "gitlab.com", "gitlab");
    (host_owner_name "bitbucket.org", "bitbucket");
    ([Lit "zenodo.org/record/"; Grp Digit], "zenodo");
    ([Lit "doi.org/10.5281/zenodo."; Grp Digit], "zenodo");
    (host_owner_name "huggingface.co", "huggingface") ].

Definition ONTOLOGY_PREFIXES : list (string * string) :=
  [ ("wikidata:", "wikidata"); ("wd:", "wikidata");
    ("http://www.wikidata.org/", "wikidata"); ("https://www.wikidata.org/", "wikidata");
    ("http://purl.org/", "purl"); ("https://purl.org/", "purl");
    ("http://www.w3.org/", "w3"); ("https://www.w3.org/", "w3");
    ("http://schema.org/", "schema.org"); ("https://schema.org/", "schema.org");
    ("http://dbpedia.org/", "dbpedia"); ("https://dbpedia.org/", "dbpedia");
    ("doi:", "doi"); ("orcid:", "orcid") ].

Definition REPRO_KEYWORDS : list string :=
  [ "source code"; "code"; "implementation"; "repository"; "github";
    "dataset"; "data"; "benchmark"; "model"; "method"; "url";
    "download"; "license"; "software"; "script"; "notebook";
    "framework"; "library"; "tool"; "approach"; "technique"; "algorithm" ].

(** The [for pattern, repo_type in REPO_PATTERNS] loop up to its first
    match. *)
Fixpoint first_match (pats : list (pattern * string)) (url : string)
  : option (string * list string) :=
  match pats with
  | [] => None
  | (p, ty) :: rest =>
      match search p url with
      | Some gs => Some (ty, gs)
      | None => first_match rest url
      end
  end.

(** The tuple returned for a match. *)
Definition repo_tuple (ty : string) (gs : list string) : string * string * string :=
  if String.eqb ty "zenodo" then (ty, "zenodo", group 1 gs)
  else (ty, group 1 gs, sub_dot_git (group 2 gs)).

Definition extract_repo_info (url : string) : option (string * string * string) :=
  if negb (truthy url) then None
  else
    match first_match REPO_PATTERNS url with
    | Some (ty, gs) => Some (repo_tuple ty gs)
    | None => None
    end.

Fixpoint get_ontology_source_from (prefixes : list (string * string))
         (obj_id value : string) : option string :=
  match prefixes with
  | [] => None
  | (prefix, source) :: rest =>
      if contains (lower prefix) (lower obj_id) || contains (lower prefix) (lower value)
      then Some source
      else get_ontology_source_from rest obj_id value
  end.

Definition get_ontology_source : string -> string -> option string :=
  get_ontology_source_from ONTOLOGY_PREFIXES.

Definition is_repro_relevant (label : string) : bool :=
  existsb (fun kw => contains kw (lower label)) REPRO_KEYWORDS.

(** A raw statement of a bundle; [None] is an absent key. *)
Record Statement : Type := mkStatement {
  st_predicate_id : option string;
  st_predicate_label : option string;
  st_object_label : option string;
  st_object_id : option string;
  st_object_class : option string
}.

Definition get_or (o : option string) (d : string) : string :=
  match o with Some s => s | None => d end.

(** The dictionary built by [process_property]. *)
Record Property : Type := mkProperty {
  predicate_id : option string;
  predicate_label : string;
  object_id : string;
  object_class : string;
  property_type : string;
  value : string;
  is_url : bool;
  is_repo_url : bool;
  repo_type : option string;
  repo_owner : option string;
  repo_name : option string;
  is_resource : bool;
  is_ontology_linked : bool;
  ontology_source : option string;
  is_literal : bool;
  reproducibility_relevant : bool
}.

Definition is_some {A} (o : option A) : bool :=
  match o with Some _ => true | None => false end.

Definition process_property (stmt : Statement) : Property :=
  let pred_label := get_or (st_predicate_label stmt) "" in
  let value := get_or (st_object_label stmt) "" in
  let obj_id := get_or (st_object_id stmt) "" in
  let obj_class := get_or (st_object_class stmt) "literal" in
  let is_url := startswith "http://" value || startswith "https://" value in
  let '(prop_type, repo_info, is_repo, onto_source) :=
    if is_url then
      let repo_info := extract_repo_info value in
      ("url", repo_info, is_some repo_info, None)
    else if String.eqb obj_class "resource" then
      ("resource", None, false, get_ontology_source obj_id value)
    else
      ("literal", None, false, None) in
  {| predicate_id := st_predicate_id stmt;
     predicate_label := pred_label;
     object_id := obj_id;
     object_class := obj_class;
     property_type := prop_type;
     value := value;
     is_url := is_url;
     is_repo_url := is_repo;
     repo_type := option_map (fun t => fst (fst t)) repo_info;
     repo_owner := option_map (fun t => snd (fst t)) repo_info;
     repo_name := option_map (fun t => snd t) repo_info;
     is_resource := String.eqb prop_type "resource";
     is_ontology_linked := is_some onto_source;
     ontology_source := onto_source;
     is_literal := String.eqb prop_type "literal";
     reproducibility_relevant := is_repro_relevant pred_label |}.

(* ---------------------------------------------------------------- *)
(** *** The balanced collector *)

Definition get_property_category (prop : Property) : string :=
  if String.eqb (property_type prop) "url" then
    if is_repo_url prop then "url_repo" else "url_other"
  else if String.eqb (property_type prop) "resource" then
    if is_ontology_linked prop then "resource_onto" else "resource_internal"
  else "literal".

(** A dictionary with the five category keys, in insertion order. *)
Definition Counts := list (string * Z).

Definition zero_counts : Counts :=
  [("url_repo", 0); ("url_other", 0); ("resource_onto", 0);
   ("resource_internal", 0); ("literal", 0)].

(** [counts[cat] += n] *)
Fixpoint add_count (cat : string) (n : Z) (counts : Counts) : Counts :=
  match counts with
  | [] => []
  | (k, v) :: rest =>
      if String.eqb k cat then (k, v + n) :: rest
      else (k, v) :: add_count cat n rest
  end.

(** [counts.get(cat, 0)] *)
Fixpoint get_count (cat : string) (counts : Counts) : Z :=
  match counts with
  | [] => 0
  | (k, v) :: rest => if String.eqb k cat then v else get_count cat rest
  end.

Definition count_contribution_types (repro_props : list Property) : Counts :=
  fold_left (fun counts p => add_count (get_property_category p) 1 counts)
            repro_props zero_counts.

Definition is_balanced (type_counts : Counts) (min_per_type : Z) : bool :=
  forallb (fun kv => min_per_type <=? snd kv) type_counts.

Definition get_needed_types (type_counts : Counts) (min_per_type : Z)
  : list string :=
  map fst (filter (fun kv => snd kv <? min_per_type) type_counts).

Definition contribution_helps_balance (contrib_types type_counts : Counts)
    (min_per_type : Z) : bool :=
  existsb (fun t => 0 <? get_count t contrib_types)
          (get_needed_types type_counts min_per_type).

(** A contribution entry of a paper, a paper of a page. *)
Record ContribRef : Type := mkContribRef {
  ref_id : string;
  ref_label : option string
}.

Record Paper : Type := mkPaper {
  paper_ident : string;
  paper_title_opt : option string;
  paper_contributions : list ContribRef;
  paper_dois : list string
}.

(** The dictionary appended to [contributions]. *)
Record Contribution : Type := mkContribution {
  contribution_id : string;
  contribution_label : string;
  paper_id : string;
  paper_title : string;
  paper_doi : option string;
  all_properties : list Property;
  reproducibility_properties : list Property;
  collected_at : string
}.

(** The answers of [make_request]: [None] is a failed (or empty) response.
    [clock n] is the time read when the list holds [n] contributions. *)
Record World : Type := mkWorld {
  get_page : Z -> option (list Paper);
  get_bundle : string -> option (list Statement);
  clock : nat -> string
}.

Inductive Request : Type :=
| PageRequest (page : Z)
| BundleRequest (contrib_id : string).

Definition is_page_request (r : Request) : bool :=
  match r with PageRequest _ => true | BundleRequest _ => false end.

(** Number of page iterations recorded in a list of requests. *)
Definition page_requests (l : list Request) : nat :=
  List.length (filter is_page_request l).

(** The variables of [collect_contributions] and the requests sent. *)
Record State : Type := mkState {
  contributions : list Contribution;
  type_counts : Counts;
  page : Z;
  requests : list Request
}.

Definition max_pages : Z := 1000.

Definition len {A} (l : list A) : Z := Z.of_nat (List.length l).

Section Loop.
Variable w : World.
Variables min_per_type max_contributions : Z.

Definition sent (r : Request) (st : State) : State :=
  {| contributions := contributions st; type_counts := type_counts st;
     page := page st; requests := (requests st ++ [r])%list |}.

(** The test that leaves both [for] loops. *)
Definition must_stop (st : State) : bool :=
  is_balanced (type_counts st) min_per_type
  || (max_contributions <=? len (contributions st)).

Definition accept (paper : Paper) (contrib : ContribRef)
    (all_props repro_props : list Property) (contrib_types : Counts)
    (st : State) : State :=
  {| contributions :=
       (contributions st ++
        [ {| contribution_id := ref_id contrib;
             contribution_label := get_or (ref_label contrib) "Contribution";
             paper_id := paper_ident paper;
             paper_title := get_or (paper_title_opt paper) "Unknown";
             paper_doi := hd_error (paper_dois paper);
             all_properties := all_props;
             reproducibility_properties := repro_props;
             collected_at := clock w (List.length (contributions st)) |} ])%list;
     type_counts :=
       fold_left (fun tc kv => add_count (fst kv) (snd kv) tc)
                 contrib_types (type_counts st);
     page := page st;
     requests := requests st |}.

(** The body of [for contrib in ...] after its stop test. *)
Definition visit (paper : Paper) (contrib : ContribRef) (st : State) : State :=
  let st := sent (BundleRequest (ref_id contrib)) st in
  let statements :=
    match get_bundle w (ref_id contrib) with
    | Some l => l
    | None => []
    end in
  match statements with
  | [] => st
  | _ =>
      let all_props := map process_property statements in
      let repro_props := filter reproducibility_relevant all_props in
      match repro_props with
      | [] => st
      | _ =>
          let contrib_types := count_contribution_types repro_props in
          if negb (is_balanced (type_counts st) min_per_type)
             && negb (contribution_helps_balance contrib_types
                        (type_counts st) min_per_type)
             && (50 <? len (contributions st))
          then st
          else accept paper contrib all_props repro_props contrib_types st
      end
  end.

Fixpoint scan_contribs (paper : Paper) (cs : list ContribRef) (st : State)
  : State :=
  match cs with
  | [] => st
  | c :: rest =>
      if must_stop st then st
      else scan_contribs paper rest (visit paper c st)
  end.

Fixpoint scan_papers (papers : list Paper) (st : State) : State :=
  match papers with
  | [] => st
  | p :: rest =>
      if must_stop st then st
      else scan_papers rest (scan_contribs p (paper_contributions p) st)
  end.

Definition next_page (st : State) : State :=
  {| contributions := contributions st; type_counts := type_counts st;
     page := page st + 1; requests := requests st |}.

(** How the [while] loop was left. *)
Inductive Exit : Type :=
| ConditionFalse
| FailedPage
| NoMorePapers
| OutOfFuel.

Definition while_condition (st : State) : bool :=
  negb (is_balanced (type_counts st) min_per_type)
  && (page st <? max_pages)
  && (len (contributions st) <? max_contributions).

Fixpoint while_loop (fuel : nat) (st : State) : State * Exit :=
  if while_condition st then
    match fuel with
    | O => (st, OutOfFuel)
    | S fuel' =>
        let st := sent (PageRequest (page st)) st in
        match get_page w (page st) with
        | None => (st, FailedPage)
        | Some [] => (st, NoMorePapers)
        | Some papers => while_loop fuel' (next_page (scan_papers papers st))
        end
    end
  else (st, ConditionFalse).

Definition init : State :=
  {| contributions := []; type_counts := zero_counts; page := 0;
     requests := [] |}.

(** The run of [collect_contributions]; one unit of fuel per page. *)
Definition run_collect : State * Exit :=
  while_loop (Z.to_nat max_pages) init.

Definition collect_contributions : list Contribution :=
  contributions (fst run_collect).

End Loop.

End Collect.

(* ================================================================== *)
(** ** [evaluate_reproducibility.py]: scorer and aggregator *)

Module Evaluate.
Import PyStr.

Record PropertyEval : Type := mkPropertyEval {
  contribution_id : string;
  paper_id : string;
  paper_title : string;
  predicate_id : option string;
  predicate_label : string;
  object_id : string;
  property_type : string;
  value : string;
  availability : Q;
  availability_reason : string;
  accessibility : Q;
  accessibility_reason : string;
  linkability : Q;
  linkability_reason : string;
  license : Q;
  license_reason : string;
  repo_type : option string;
  ontology_source : option string;
  license_name : string
}.

Record ContributionEval : Type := mkContributionEval {
  ce_contribution_id : string;
  ce_paper_id : string;
  ce_paper_title : string;
  num_properties : Z;
  ce_availability : Q;
  ce_accessibility : Q;
  ce_linkability : Q;
  ce_license : Q;
  overall : Q;
  tier : string;
  properties : list PropertyEval
}.

(** What leaves the process while a contribution is evaluated. *)
Inductive Call : Type :=
| HttpProbe (url : string)              (* check_url *)
| GithubLookup (owner repo : string)    (* check_github *)
| ZenodoLookup (record_id : string)     (* check_zenodo *)
| Sleep.                                (* time.sleep(0.2) *)

(** The answers of the remote services. *)
Record Live : Type := mkLive {
  check_url : string -> bool * string;
  check_github : string -> string -> bool * string * string;
  check_zenodo : string -> bool * string * string
}.

Definition eqb_opt (o : option string) (s : string) : bool :=
  match o with Some x => String.eqb x s | None => false end.

Definition check_license (live : Live) (repo_type owner repo : option string)
  : (bool * string * string) * list Call :=
  if eqb_opt repo_type "github" then
    (check_github live (str_of owner) (str_of repo),
     [GithubLookup (str_of owner) (str_of repo)])
  else if eqb_opt repo_type "zenodo" then
    (check_zenodo live (str_of repo), [ZenodoLookup (str_of repo)])
  else ((false, "", "Unsupported: " ++ str_of repo_type), []).

Definition get_tier (score : Q) : string :=
  if Qle_bool 80 score then "Excellent"
  else if Qle_bool 60 score then "Good"
  else if Qle_bool 40 score then "Fair"
  else "Poor".

(** The availability test on the raw value. *)
Definition has_value (value : string) : bool :=
  truthy value && truthy (strip value)
  && negb (in_list (lower value) ["n/a"; "none"; "null"]).

(** One iteration of [for p in props]: the evaluation record and the calls
    made. *)
Definition score_property (live : Live) (check_access check_lic : bool)
    (cid pid ptitle : string) (p : Collect.Property)
  : PropertyEval * list Call :=
  let value := Collect.value p in
  let ptype := Collect.property_type p in
  let '(avail, avail_r) :=
    if has_value value then (100%Q, "Valid: has value")
    else (0%Q, "Not Valid: empty/null") in
  let '(access, access_r, calls1) :=
    if String.eqb ptype "url" then
      if check_access then
        let '(ok, reason) := check_url live value in
        (if ok then 100%Q else 0%Q,
         if ok then "Valid: " ++ reason else "Not Valid: " ++ reason,
         [HttpProbe value])
      else (100%Q, "Skipped", [])
    else (100%Q, "Inapplicable (not URL)", []) in
  let '(link, link_r) :=
    if String.eqb ptype "resource" then
      if Collect.is_ontology_linked p then
        (100%Q, "Valid: linked to " ++ str_of (Collect.ontology_source p))
      else
        (0%Q, "Not Valid: internal ORKG resource " ++ Collect.object_id p)
    else (100%Q, "Inapplicable (not resource)") in
  let '(lic, lic_r, lic_name, calls2) :=
    if String.eqb ptype "url" && Collect.is_repo_url p then
      if check_lic then
        let '((has_lic, name, reason), cs) :=
          check_license live (Collect.repo_type p) (Collect.repo_owner p)
                        (Collect.repo_name p) in
        (if has_lic then 100%Q else 0%Q,
         if has_lic then "Valid: " ++ reason else "Not Valid: " ++ reason,
         name, (cs ++ [Sleep])%list)
      else (100%Q, "Skipped", "", [])
    else (100%Q, "Inapplicable (not repo URL)", "", []) in
  ({| contribution_id := cid; paper_id := pid; paper_title := ptitle;
      predicate_id := Collect.predicate_id p;
      predicate_label := Collect.predicate_label p;
      object_id := Collect.object_id p;
      property_type := ptype;
      value := take 150 value;
      availability := avail; availability_reason := avail_r;
      accessibility := access; accessibility_reason := access_r;
      linkability := link; linkability_reason := link_r;
      license := lic; license_reason := lic_r;
      repo_type := Collect.repo_type p;
      ontology_source := Collect.ontology_source p;
      license_name := lic_name |},
   (calls1 ++ calls2)%list).

(** The five lists filled by the loop, and the log. *)
Record Acc : Type := mkAcc {
  avail_scores : list Q;
  access_scores : list Q;
  link_scores : list Q;
  lic_scores : list Q;
  evals : list PropertyEval;
  log : list Call
}.

Definition acc0 : Acc := mkAcc [] [] [] [] [] [].

Definition loop_body (live : Live) (check_access check_lic : bool)
    (cid pid ptitle : string) (a : Acc) (p : Collect.Property) : Acc :=
  let '(e, cs) := score_property live check_access check_lic cid pid ptitle p in
  {| avail_scores := (avail_scores a ++ [availability e])%list;
     access_scores := (access_scores a ++ [accessibility e])%list;
     link_scores := (link_scores a ++ [linkability e])%list;
     lic_scores := (lic_scores a ++ [license e])%list;
     evals := (evals a ++ [e])%list;
     log := (log a ++ cs)%list |}.

Definition sum (l : list Q) : Q := fold_right Qplus 0%Q l.

(** [statistics.mean]; the empty list raises [StatisticsError]. *)
Definition mean (data : list Q) : option Q :=
  match data with
  | [] => None
  | _ => Some (sum data / inject_Z (Z.of_nat (List.length data)))%Q
  end.

Fixpoint insert (x : Q) (l : list Q) : list Q :=
  match l with
  | [] => [x]
  | y :: l' => if Qle_bool x y then x :: l else y :: insert x l'
  end.

(** [sorted(l)]: ascending and stable. *)
Fixpoint sorted (l : list Q) : list Q :=
  match l with
  | [] => []
  | x :: l' => insert x (sorted l')
  end.

(** [l[1:-1]] *)
Definition slice_1_m1 {A} (l : list A) : list A :=
  firstn (List.length l - 1 - 1) (skipn 1 l).

Definition calc_mean (scores : list Q) : option Q :=
  match scores with
  | [] => Some 100%Q
  | _ =>
      if 4 <=? Z.of_nat (List.length scores) then mean (slice_1_m1 (sorted scores))
      else mean scores
  end.

Definition bind {A B} (o : option A) (f : A -> option B) : option B :=
  match o with Some a => f a | None => None end.

Notation "x <- c ;; k" := (bind c (fun x => k))
  (at level 61, c at next level, right associativity).

(** [round(x)] to the nearest integer, ties to the even one. *)
Definition round_half_even (x : Q) : Z :=
  let f := Qfloor x in
  match (x - inject_Z f ?= 1 # 2)%Q with
  | Lt => f
  | Gt => f + 1
  | Eq => if Z.even f then f else f + 1
  end.

(** [x * 2^k] *)
Definition scale2 (x : Q) (k : Z) : Q :=
  if 0 <=? k then (x * inject_Z (2 ^ k))%Q else (x / inject_Z (2 ^ (- k)))%Q.

(** The binary exponent of a positive rational [n / d]: the [e] with
    [2^e <= n / d < 2^(e+1)], which is the difference of the bit lengths or
    one less. *)
Definition exponent (x : Q) : Z :=
  let e0 := Z.log2 (Qnum x) - Z.log2 (Z.pos (Qden x)) in
  if Qle_bool (scale2 1 e0) x then e0 else e0 - 1.

(** The double nearest to a positive rational: 53 significant bits, ties to
    the even significand; below [2^-1022] the spacing stays [2^-1074].
    Overflow is not modelled (no mean of scores exceeds 100). *)
Definition nearest_double (x : Q) : Q :=
  let k := Z.min (52 - exponent x) 1074 in
  scale2 (inject_Z (round_half_even (scale2 x k))) (- k).

(** [float(q)] for a fraction [q], the last step of [statistics.mean]. *)
Definition to_float (x : Q) : Q :=
  let x := Qred x in
  match Qnum x with
  | Z0 => 0%Q
  | Zpos _ => nearest_double x
  | Zneg _ => (- nearest_double (- x))%Q
  end.

(** [statistics.mean] and [calc_mean] with their results as the doubles the
    program stores: the exact fraction, then its conversion. *)
Definition mean_float (data : list Q) : option Q :=
  option_map to_float (mean data).

Definition calc_mean_float (scores : list Q) : option Q :=
  option_map to_float (calc_mean scores).

(** The result, or [None] when a mean raises, together with the calls
    made.  The four pillar means are doubles, and the overall score is the
    double nearest to the exact mean of these four doubles. *)
Definition evaluate_contribution (live : Live) (contrib : Collect.Contribution)
    (check_access check_lic : bool) : option ContributionEval * list Call :=
  let props := Collect.reproducibility_properties contrib in
  let cid := Collect.contribution_id contrib in
  let pid := Collect.paper_id contrib in
  let ptitle := Collect.paper_title contrib in
  let a := fold_left (loop_body live check_access check_lic cid pid ptitle)
                     props acc0 in
  (avail_mean <- calc_mean_float (avail_scores a) ;;
   access_mean <- calc_mean_float (access_scores a) ;;
   link_mean <- calc_mean_float (link_scores a) ;;
   lic_mean <- calc_mean_float (lic_scores a) ;;
   overall <- mean_float [avail_mean; access_mean; link_mean; lic_mean] ;;
   Some {| ce_contribution_id := cid; ce_paper_id := pid;
           ce_paper_title := ptitle;
           num_properties := Z.of_nat (List.length props);
           ce_availability := avail_mean; ce_accessibility := access_mean;
           ce_linkability := link_mean; ce_license := lic_mean;
           overall := overall; tier := get_tier overall;
           properties := evals a |},
   log a).

(** [f"{x:.0f}"] for a score [x >= 0]. *)
Definition fmt_0f (x : Q) : string :=
  NilZero.string_of_int (Z.to_int (round_half_even x)).

(** A cell of [csv.writer]: [None] is written as the empty text. *)
Definition csv_cell (o : option string) : string :=
  match o with Some s => s | None => "" end.

(** The row written by [export_detailed] for one property. *)
Definition detailed_row (p : PropertyEval) : list string :=
  [ contribution_id p; paper_id p; take 50 (paper_title p);
    csv_cell (predicate_id p); predicate_label p;
    object_id p; property_type p; take 80 (value p);
    fmt_0f (availability p); availability_reason p;
    fmt_0f (accessibility p); accessibility_reason p;
    fmt_0f (linkability p); linkability_reason p;
    fmt_0f (license p); license_reason p;
    csv_cell (repo_type p); csv_cell (ontology_source p);
    license_name p ].

(** The rows of [export_detailed] below the header. *)
Definition export_detailed (results : list ContributionEval) : list (list string) :=
  flat_map (fun r => map detailed_row (properties r)) results.

End Evaluate.

(* ================================================================== *)
(** ** The trimmed mean as the specification words it *)

Module TrimSpec.

Definition smaller (x y : Q) : Q := if Qle_bool x y then x else y.
Definition larger (x y : Q) : Q := if Qle_bool x y then y else x.

(** A minimum and a maximum of a list ([0] for the empty list). *)
Definition minimum (l : list Q) : Q :=
  match l with
  | [] => 0%Q
  | x :: r => fold_right smaller x r
  end.

Definition maximum (l : list Q) : Q :=
  match l with
  | [] => 0%Q
  | x :: r => fold_right larger x r
  end.

(** Remove one occurrence of the value [x], the first one. *)
Fixpoint remove_one (x : Q) (l : list Q) : list Q :=
  match l with
  | [] => []
  | y :: r => if Qeq_bool x y then r else y :: remove_one x r
  end.

(** The sorted list without one minimum and one maximum. *)
Definition trimmed (l : list Q) : list Q :=
  remove_one (maximum l) (remove_one (minimum l) (Evaluate.sorted l)).

Definition trimmed_mean (l : list Q) : option Q := Evaluate.mean (trimmed l).

(** A score between 0 and 100. *)
Definition in_range (x : Q) : Prop := (0 <= x /\ x <= 100)%Q.

End TrimSpec.

(* ================================================================== *)
(** ** [collect_orkg_data.py]: the metadata of [save_contributions] *)

Module Save.
Import PyStr Collect.

(** [h[key] = h.get(key, 0) + 1] on a dictionary in insertion order. *)
Fixpoint bump (key : string) (h : list (string * Z)) : list (string * Z) :=
  match h with
  | [] => [(key, 1)]
  | (k, v) :: rest =>
      if String.eqb k key then (k, v + 1) :: rest else (k, v) :: bump key rest
  end.

(** [if p.get(field): h[field value] += 1] *)
Definition bump_if_set (field : option string) (h : list (string * Z))
  : list (string * Z) :=
  match field with
  | Some t => if truthy t then bump t h else h
  | None => h
  end.

(** The three dictionaries filled by the two nested loops. *)
Record Tally : Type := mkTally {
  t_type_counts : Counts;
  t_repo_types : list (string * Z);
  t_onto_sources : list (string * Z)
}.

Definition tally_property (t : Tally) (p : Property) : Tally :=
  {| t_type_counts := add_count (get_property_category p) 1 (t_type_counts t);
     t_repo_types := bump_if_set (repo_type p) (t_repo_types t);
     t_onto_sources := bump_if_set (ontology_source p) (t_onto_sources t) |}.

Definition tally_contribution (t : Tally) (c : Contribution) : Tally :=
  fold_left tally_property (reproducibility_properties c) t.

Definition tally (contributions : list Contribution) : Tally :=
  fold_left tally_contribution contributions (mkTally zero_counts [] []).

(** [sum(counts.values())] *)
Definition total_of (counts : Counts) : Z :=
  fold_right (fun kv acc => snd kv + acc) 0 counts.

Record Metadata : Type := mkMetadata {
  m_collected_at : string;
  total_contributions : Z;
  total_properties : Z;
  property_distribution : Counts;
  property_percentages : list (string * Q);
  repo_types : list (string * Z);
  ontology_sources : list (string * Z);
  source : string
}.

Section Document.
(** [round(x, 1)] on the quotient computed in floating point, and the time
    of the call. *)
Variable round1 : Q -> Q.
Variable now : string.

Definition percentages (counts : Counts) (total : Z) : list (string * Q) :=
  map (fun kv =>
         (fst kv,
          if 0 <? total
          then round1 (inject_Z (100 * snd kv) / inject_Z total)
          else 0%Q))
      counts.

(** The document handed to [json.dump]. *)
Definition save_contributions (contributions : list Contribution)
  : Metadata * list Contribution :=
  let t := tally contributions in
  let total := total_of (t_type_counts t) in
  ({| m_collected_at := now;
      total_contributions := len contributions;
      total_properties := total;
      property_distribution := t_type_counts t;
      property_percentages := percentages (t_type_counts t) total;
      repo_types := t_repo_types t;
      ontology_sources := t_onto_sources t;
      source := "ORKG API" |},
   contributions).

End Document.

End Save.

(* ================================================================== *)
(** ** [evaluate_reproducibility.py]: [run_evaluation] and [calc_stats] *)

Module Stats.
Import PyStr Evaluate.

(** [min(vals)] and [max(vals)]: the first least and the first greatest
    element; the empty list raises [ValueError]. *)
Definition py_min (vals : list Q) : option Q :=
  match vals with
  | [] => None
  | x :: r => Some (fold_left (fun m y => if Qle_bool m y then m else y) r x)
  end.

Definition py_max (vals : list Q) : option Q :=
  match vals with
  | [] => None
  | x :: r => Some (fold_left (fun m y => if Qle_bool y m then m else y) r x)
  end.

(** [statistics.median]; the empty list raises [StatisticsError].  For an
    even length the two middle doubles are added and the sum is halved, each
    operation rounded to a double. *)
Definition median (data : list Q) : option Q :=
  let data := sorted data in
  let n := List.length data in
  match n with
  | O => None
  | _ =>
      if Nat.odd n then Some (nth (n / 2) data 0%Q)
      else
        let i := (n / 2)%nat in
        Some (to_float (to_float (nth (i - 1) data 0 + nth i data 0) / 2))%Q
  end.

Record Summary : Type := mkSummary {
  s_mean : Q;
  s_std : Q;
  s_median : Q;
  s_min : Q;
  s_max : Q
}.

Record PassRate : Type := mkPassRate {
  r_total : Z;
  r_passed : Z;
  r_rate : Q
}.

(** The dictionary returned by [calc_stats]. *)
Record Statistics : Type := mkStatistics {
  total_contributions : Z;
  timestamp : string;
  p_availability : Summary;
  p_accessibility : Summary;
  p_linkability : Summary;
  p_license : Summary;
  p_overall : Summary;
  t_excellent : Z;
  t_good : Z;
  t_fair : Z;
  t_poor : Z;
  n_total : Z;
  n_urls : Z;
  n_resources : Z;
  n_literals : Z;
  n_repos : Z;
  url_accessibility : PassRate;
  resource_linkability : PassRate;
  repo_license : PassRate;
  license_types : list (string * Z)
}.

(** [sum(1 for x in l if f x)] *)
Definition count {A} (f : A -> bool) (l : list A) : Z :=
  Z.of_nat (List.length (filter f l)).

Definition has_type (ty : string) (p : PropertyEval) : bool :=
  String.eqb (property_type p) ty.

Definition has_repo_type (p : PropertyEval) : bool :=
  match repo_type p with Some t => truthy t | None => false end.

Definition has_tier (name : string) (r : ContributionEval) : bool :=
  String.eqb (tier r) name.

Definition is_100 (x : Q) : bool := Qeq_bool x 100.

Section Floats.
(** The operations left abstract: [round(x, 1)] and [statistics.stdev] on
    doubles; and the time of the call. *)
Variable round1 : Q -> Q.
Variable stdev : list Q -> Q.
Variable now : string.

(** The inner function [stats]; the entries are evaluated in the order of
    the dictionary display. *)
Definition stats (vals : list Q) : option Summary :=
  m <- mean_float vals ;;
  let sd := if (1 <? Z.of_nat (List.length vals)) then round1 (stdev vals) else 0%Q in
  md <- median vals ;;
  lo <- py_min vals ;;
  hi <- py_max vals ;;
  Some {| s_mean := round1 m; s_std := sd; s_median := round1 md;
          s_min := round1 lo; s_max := round1 hi |}.

Definition rate (passed total : Z) : Q :=
  if 0 <? total then round1 (to_float (inject_Z (100 * passed) / inject_Z total))
  else 100%Q.

(** [lic_types[p.license_name] += 1] for the repositories with a name. *)
Definition license_histogram (repos : list PropertyEval) : list (string * Z) :=
  fold_left (fun h p => if truthy (license_name p)
                        then Save.bump (license_name p) h else h)
            repos [].

Definition calc_stats (results : list ContributionEval) : option Statistics :=
  let all_props := flat_map properties results in
  let urls := filter (has_type "url") all_props in
  let resources := filter (has_type "resource") all_props in
  let literals := filter (has_type "literal") all_props in
  let repos := filter has_repo_type urls in
  let url_ok := count (fun p => is_100 (accessibility p)) urls in
  let res_ok := count (fun p => is_100 (linkability p)) resources in
  let lic_ok := count (fun p => is_100 (license p)) repos in
  let lic_types := license_histogram repos in
  s1 <- stats (map ce_availability results) ;;
  s2 <- stats (map ce_accessibility results) ;;
  s3 <- stats (map ce_linkability results) ;;
  s4 <- stats (map ce_license results) ;;
  s5 <- stats (map overall results) ;;
  Some {| total_contributions := Collect.len results;
          timestamp := now;
          p_availability := s1; p_accessibility := s2; p_linkability := s3;
          p_license := s4; p_overall := s5;
          t_excellent := count (has_tier "Excellent") results;
          t_good := count (has_tier "Good") results;
          t_fair := count (has_tier "Fair") results;
          t_poor := count (has_tier "Poor") results;
          n_total := Collect.len all_props;
          n_urls := Collect.len urls;
          n_resources := Collect.len resources;
          n_literals := Collect.len literals;
          n_repos := Collect.len repos;
          url_accessibility :=
            {| r_total := Collect.len urls; r_passed := url_ok;
               r_rate := rate url_ok (Collect.len urls) |};
          resource_linkability :=
            {| r_total := Collect.len resources; r_passed := res_ok;
               r_rate := rate res_ok (Collect.len resources) |};
          repo_license :=
            {| r_total := Collect.len repos; r_passed := lic_ok;
               r_rate := rate lic_ok (Collect.len repos) |};
          license_types := lic_types |}.

(** The loop of [run_evaluation]: the results in order, or [None] when an
    evaluation raises, and the calls made. *)
Fixpoint evaluate_all (live : Live) (contribs : list Collect.Contribution)
         (check_access check_lic : bool)
  : option (list ContributionEval) * list Call :=
  match contribs with
  | [] => (Some [], [])
  | c :: rest =>
      match evaluate_contribution live c check_access check_lic with
      | (None, calls) => (None, calls)
      | (Some r, calls) =>
          let '(rs, calls') := evaluate_all live rest check_access check_lic in
          (option_map (cons r) rs, (calls ++ calls')%list)
      end
  end.

Definition run_evaluation (live : Live) (contribs : list Collect.Contribution)
           (check_access check_lic : bool)
  : option (list ContributionEval * Statistics) * list Call :=
  let '(rs, calls) := evaluate_all live contribs check_access check_lic in
  (results <- rs ;;
   s <- calc_stats results ;;
   Some (results, s),
   calls).

End Floats.

(** The header row of [export_detailed]. *)
Definition detailed_header : list string :=
  [ "Contribution_ID"; "Paper_ID"; "Paper_Title";
    "Predicate_ID"; "Predicate_Label"; "Object_ID"; "Property_Type"; "Value";
    "Availability%"; "Avail_Reason";
    "Accessibility%"; "Access_Reason";
    "Linkability%"; "Link_Reason";
    "License%"; "Lic_Reason";
    "Repo_Type"; "Ontology_Source"; "License_Name" ].

End Stats.

(* ================================================================== *)
(** ** The four pillar rules of [evaluate_contribution], one by one *)

Module Pillars.
Import PyStr Evaluate.

(** Lines 183-187. *)
Definition availability_part (p : Collect.Property) : Q * string :=
  if has_value (Collect.value p) then (100%Q, "Valid: has value")
  else (0%Q, "Not Valid: empty/null").

(** Lines 189-196. *)
Definition accessibility_part (live : Live) (check_access : bool)
           (p : Collect.Property) : Q * string * list Call :=
  if String.eqb (Collect.property_type p) "url" then
    if check_access then
      let '(ok, reason) := check_url live (Collect.value p) in
      (if ok then 100%Q else 0%Q,
       if ok then "Valid: " ++ reason else "Not Valid: " ++ reason,
       [HttpProbe (Collect.value p)])
    else (100%Q, "Skipped", [])
  else (100%Q, "Inapplicable (not URL)", []).

(** Lines 198-205. *)
Definition linkability_part (p : Collect.Property) : Q * string :=
  if String.eqb (Collect.property_type p) "resource" then
    if Collect.is_ontology_linked p then
      (100%Q, "Valid: linked to " ++ str_of (Collect.ontology_source p))
    else
      (0%Q, "Not Valid: internal ORKG resource " ++ Collect.object_id p)
  else (100%Q, "Inapplicable (not resource)").

(** Lines 207-220. *)
Definition license_part (live : Live) (check_lic : bool) (p : Collect.Property)
  : Q * string * string * list Call :=
  if String.eqb (Collect.property_type p) "url" && Collect.is_repo_url p then
    if check_lic then
      let '((has_lic, name, reason), cs) :=
        check_license live (Collect.repo_type p) (Collect.repo_owner p)
                      (Collect.repo_name p) in
      (if has_lic then 100%Q else 0%Q,
       if has_lic then "Valid: " ++ reason else "Not Valid: " ++ reason,
       name, (cs ++ [Sleep])%list)
    else (100%Q, "Skipped", "", [])
  else (100%Q, "Inapplicable (not repo URL)", "", []).

(** The iteration put together from the four rules. *)
Definition assemble (live : Live) (check_access check_lic : bool)
    (cid pid ptitle : string) (p : Collect.Property)
  : PropertyEval * list Call :=
  let '(avail, avail_r) := availability_part p in
  let '(access, access_r, calls1) := accessibility_part live check_access p in
  let '(link, link_r) := linkability_part p in
  let '(lic, lic_r, lic_name, calls2) := license_part live check_lic p in
  ({| contribution_id := cid; paper_id := pid; paper_title := ptitle;
      predicate_id := Collect.predicate_id p;
      predicate_label := Collect.predicate_label p;
      object_id := Collect.object_id p;
      property_type := Collect.property_type p;
      value := take 150 (Collect.value p);
      availability := avail; availability_reason := avail_r;
      accessibility := access; accessibility_reason := access_r;
      linkability := link; linkability_reason := link_r;
      license := lic; license_reason := lic_r;
      repo_type := Collect.repo_type p;
      ontology_source := Collect.ontology_source p;
      license_name := lic_name |},
   (calls1 ++ calls2)%list).

End Pillars.

(* ================================================================== *)
(** ** Notions used to state properties *)

Module Shape.
Import PyStr.

(** Every character of the text passes the test. *)
Fixpoint all_chars (f : ascii -> bool) (s : string) : bool :=
  match s with
  | EmptyString => true
  | String c s' => f c && all_chars f s'
  end.

(** The groups of a match, class by class. *)
Fixpoint groups_in (p : Re.pattern) (gs : list string) : Prop :=
  match p, gs with
  | [], [] => True
  | Re.Lit _ :: r, _ => groups_in r gs
  | Re.Grp k :: r, g :: gs' => all_chars (Re.in_cls k) g = true /\ groups_in r gs'
  | _, _ => False
  end.

Definition repo_kinds : list string :=
  ["github"; "gitlab"; "bitbucket"; "zenodo"; "huggingface"].

Definition category_keys : list string :=
  ["url_repo"; "url_other"; "resource_onto"; "resource_internal"; "literal"].

(** Order of the tiers, from worst to best. *)
Definition tier_rank (t : string) : Z :=
  if String.eqb t "Excellent" then 3
  else if String.eqb t "Good" then 2
  else if String.eqb t "Fair" then 1
  else 0.

(** A collected contribution as the loop builds it: its properties classify
    a non-empty bundle served for its id, and its reproducibility properties
    are the relevant ones among them, at least one. *)
Definition well_collected (w : Collect.World) (c : Collect.Contribution) : Prop :=
  exists statements,
    Collect.get_bundle w (Collect.contribution_id c) = Some statements
    /\ statements <> []
    /\ Collect.all_properties c = map Collect.process_property statements
    /\ Collect.reproducibility_properties c
       = filter Collect.reproducibility_relevant (Collect.all_properties c)
    /\ Collect.reproducibility_properties c <> [].

(** Number of properties of a category. *)
Definition category_count (cat : string) (props : list Collect.Property) : Z :=
  Z.of_nat (List.length
              (filter (fun p => String.eqb (Collect.get_property_category p) cat)
                      props)).

(** All reproducibility properties of a list of contributions. *)
Definition collected_properties (cs : list Collect.Contribution)
  : list Collect.Property :=
  flat_map Collect.reproducibility_properties cs.

(** One property counted into a dictionary of counters. *)
Definition step (tc : Collect.Counts) (p : Collect.Property) : Collect.Counts :=
  Collect.add_count (Collect.get_property_category p) 1 tc.

(** The running counters are the count of the collected properties. *)
Definition counters_agree (st : Collect.State) : Prop :=
  Collect.type_counts st
  = fold_left step (collected_properties (Collect.contributions st))
              Collect.zero_counts.

(** A property as the classifier builds it. *)
Definition classified (p : Collect.Property) : Prop :=
  exists stmt, p = Collect.process_property stmt.

End Shape.

(* ================================================================== *)
(** ** Concrete inputs used below *)

Module Samples.
Import PyStr Collect.

(** The scheme test of [process_property]. *)
Definition webby (v : string) : bool :=
  startswith "http://" v || startswith "https://" v.

Definition dot_git_statement : Statement :=
  {| st_predicate_id := Some "P1"; st_predicate_label := Some "source code";
     st_object_label := Some "https://github.com/foo/.git";
     st_object_id := Some "L1"; st_object_class := Some "literal" |}.

Definition scores_statement : Statement :=
  {| st_predicate_id := Some "P1"; st_predicate_label := Some "source code";
     st_object_label := Some "https://GitHub.com/orkg/scores.git?tab=readme";
     st_object_id := Some "L2"; st_object_class := Some "literal" |}.

Definition statement_of (label kind : string) : Statement :=
  {| st_predicate_id := Some "P30"; st_predicate_label := Some "dataset";
     st_object_label := Some label;
     st_object_id := Some "R123"; st_object_class := Some kind |}.

(** A value that is the token [n/a] after a leading blank. *)
Definition padded_null_property : Property :=
  process_property (statement_of " n/a" "literal").

Definition literal_property : Property :=
  process_property (statement_of "v1.0" "literal").

(** Services that answer every call with a failure. *)
Definition offline : Evaluate.Live :=
  {| Evaluate.check_url := fun _ => (false, "Error: timed out");
     Evaluate.check_github := fun _ _ => (false, "", "API failed");
     Evaluate.check_zenodo := fun _ => (false, "", "API failed") |}.

(** Services that answer every call with a success. *)
Definition online : Evaluate.Live :=
  {| Evaluate.check_url := fun _ => (true, "HTTP 200");
     Evaluate.check_github := fun _ _ => (true, "MIT License", "License: MIT License");
     Evaluate.check_zenodo := fun _ => (true, "cc-by-4.0", "License: cc-by-4.0") |}.

Fixpoint blanks (n : nat) : string :=
  match n with
  | O => ""
  | S n' => String " " (blanks n')
  end.

(** 150 blanks followed by a letter. *)
Definition late_text : string := blanks 150 ++ "x".

(** Five scores with both extreme values repeated. *)
Definition repeated_extremes : list Q := [0; 100; 100; 0; 100]%Q.

Definition repo_property : Property :=
  process_property (statement_of "https://github.com/orkg/orkg-backend" "literal").

Definition internal_resource : Property :=
  process_property (statement_of "Transformer" "resource").

(** A contribution with a repository url, an internal resource, a literal
    and a padded null token. *)
Definition sample_contribution : Contribution :=
  {| contribution_id := "R1000"; contribution_label := "Contribution 1";
     paper_id := "R999"; paper_title := "A paper"; paper_doi := None;
     all_properties := [repo_property; internal_resource; literal_property];
     reproducibility_properties :=
       [repo_property; internal_resource; literal_property];
     collected_at := "2026-01-01T00:00:00" |}.

(** A resource and a literal whose value is a null token. *)
Definition null_resource : Property :=
  process_property (statement_of "none" "resource").

Definition null_literal : Property :=
  process_property (statement_of "n/a" "literal").

(** 37 properties: 13 internal resources and 8 literals without a value,
    13 repository urls and 3 literals with a value.  With the services
    failing, the columns hold 21, 13, 13 and 13 zeros. *)
Definition boundary_contribution : Contribution :=
  {| contribution_id := "R2000"; contribution_label := "Contribution 1";
     paper_id := "R1999"; paper_title := "A paper"; paper_doi := None;
     all_properties := [];
     reproducibility_properties :=
       (List.repeat null_resource 13 ++ List.repeat null_literal 8
        ++ List.repeat repo_property 13 ++ List.repeat literal_property 3)%list;
     collected_at := "2026-01-01T00:00:00" |}.

Definition code_statement : Statement :=
  {| st_predicate_id := Some "P1"; st_predicate_label := Some "source code";
     st_object_label := Some "https://github.com/orkg/orkg-backend";
     st_object_id := Some "L10"; st_object_class := Some "literal" |}.

Definition paper_one : Paper :=
  {| paper_ident := "R1"; paper_title_opt := Some "First paper";
     paper_contributions :=
       [ {| ref_id := "C-lost"; ref_label := Some "Contribution 1" |};
         {| ref_id := "C-good"; ref_label := None |} ];
     paper_dois := ["10.1000/1"] |}.

(** Bundles: only [C-good] answers. *)
Definition bundles (contrib_id : string) : option (list Statement) :=
  if String.eqb contrib_id "C-good" then Some [code_statement] else None.

(** One page of papers, then empty pages. *)
Definition one_page_world : World :=
  {| get_page := fun n => if n =? 0 then Some [paper_one] else Some [];
     get_bundle := bundles;
     clock := fun _ => "2026-01-01T00:00:00" |}.

(** The first page fails, the second page holds a paper. *)
Definition failing_first_page_world : World :=
  {| get_page := fun n => if n =? 0 then None
                          else if n =? 1 then Some [paper_one] else Some [];
     get_bundle := bundles;
     clock := fun _ => "2026-01-01T00:00:00" |}.

Definition dummy_contribution : Contribution :=
  {| contribution_id := "R0"; contribution_label := "Contribution";
     paper_id := "R0"; paper_title := "Unknown"; paper_doi := None;
     all_properties := [literal_property];
     reproducibility_properties := [literal_property];
     collected_at := "2026-01-01T00:00:00" |}.

(** A state past the bootstrap threshold: 51 contributions with one literal
    each. *)
Definition late_state : State :=
  {| contributions := repeat dummy_contribution 51;
     type_counts := [("url_repo", 0); ("url_other", 0); ("resource_onto", 0);
                     ("resource_internal", 0); ("literal", 51)];
     page := 1; requests := [] |}.

Definition gitlab_property : Property :=
  process_property (statement_of "https://gitlab.com/orkg/orkg-frontend" "literal").

Definition wikidata_resource : Property :=
  process_property
    {| st_predicate_id := Some "P31"; st_predicate_label := Some "method";
       st_object_label := Some "Transformer";
       st_object_id := Some "wikidata:Q85810444";
       st_object_class := Some "resource" |}.

(** A contribution without any url: a linked resource and a literal. *)
Definition offline_contribution : Contribution :=
  {| contribution_id := "R2000"; contribution_label := "Contribution 1";
     paper_id := "R1999"; paper_title := "Another paper"; paper_doi := None;
     all_properties := [wikidata_resource; literal_property];
     reproducibility_properties := [wikidata_resource; literal_property];
     collected_at := "2026-01-01T00:00:00" |}.

End Samples.

(* ================================================================== *)
(** ** Facts about the string primitives and the pattern matcher *)

Section StringFacts.
Import PyStr Re.

Lemma take_drop (n : nat) (s : string) : take n s ++ drop n s = s.
Proof.
  revert s; induction n as [|n IH]; intros [|c s]; simpl; try reflexivity.
  now rewrite IH.
Qed.

Lemma take_length_le (n : nat) (s : string) : (String.length (take n s) <= n)%nat.
Proof.
  revert s; induction n as [|n IH]; intros [|c s]; simpl; try lia.
  specialize (IH s); lia.
Qed.

Lemma take_take (n m : nat) (s : string) :
  (n <= m)%nat -> take n (take m s) = take n s.
Proof.
  revert m s; induction n as [|n IH]; intros m s Hle; [reflexivity|].
  destruct m as [|m]; [lia|].
  destruct s as [|c s]; simpl; [reflexivity|].
  rewrite IH by lia; reflexivity.
Qed.

Lemma run_nonempty (k : cls) (n : nat) (s : string) :
  (S n <= run k s)%nat -> take (S n) s <> "".
Proof.
  destruct s as [|c s]; simpl; [lia | discriminate].
Qed.

Lemma app_length_str (a b : string) :
  String.length (a ++ b) = (String.length a + String.length b)%nat.
Proof. induction a as [|c a IH]; simpl; [reflexivity | now rewrite IH]. Qed.

(** A final [.git] is removed, whatever precedes it. *)
Lemma sub_dot_git_suffix (x : string) : sub_dot_git (x ++ ".git") = x.
Proof.
  induction x as [|c x IH]; [reflexivity|].
  change (String c x ++ ".git") with (String c (x ++ ".git")).
  cbn [sub_dot_git].
  destruct (String.eqb_spec (String c (x ++ ".git")) ".git") as [E|_].
  - exfalso. apply (f_equal String.length) in E.
    simpl in E. rewrite app_length_str in E. simpl in E. lia.
  - destruct (String.eqb_spec (String c (x ++ ".git"))
                              (".git" ++ String nl "")) as [E|_].
    + exfalso. injection E as _ E.
      destruct x as [|d x]; [discriminate E|].
      apply (f_equal String.length) in E.
      simpl in E. rewrite app_length_str in E. simpl in E. lia.
    + now rewrite IH.
Qed.

Lemma sub_dot_git_empty (s : string) :
  sub_dot_git s = "" <-> s = "" \/ s = ".git".
Proof.
  split.
  - destruct s as [|c s]; [now left|].
    cbn [sub_dot_git].
    destruct (String.eqb_spec (String c s) ".git") as [E|_]; [now right|].
    destruct (String.eqb (String c s) (".git" ++ String nl "")); discriminate.
  - intros [->| ->]; reflexivity.
Qed.

Lemma match_here_groups (p : pattern) :
  forall s gs, match_here p s = Some gs ->
               List.length gs = groups_of p /\ Forall (fun g => g <> "") gs.
Proof.
  induction p as [|[l|k] r IH]; intros s gs H; simpl in H.
  - injection H as <-. split; [reflexivity | constructor].
  - destruct (lit_matches l s); [|discriminate]. exact (IH _ _ H).
  - assert (G : forall n, (n <= run k s)%nat ->
                (fix back (n : nat) : option (list string) :=
                   match n with
                   | O => None
                   | S n' =>
                       match match_here r (drop n s) with
                       | Some gs => Some (take n s :: gs)
                       | None => back n'
                       end
                   end) n = Some gs ->
                List.length gs = groups_of (Grp k :: r)
                /\ Forall (fun g => g <> "") gs).
    { induction n as [|n IHn]; intros Hn Hb; [discriminate|].
      destruct (match_here r (drop (S n) s)) as [gs'|] eqn:E.
      - injection Hb as <-. destruct (IH _ _ E) as [L F].
        split; [simpl; now rewrite L|].
        constructor; [now apply (run_nonempty k) | exact F].
      - apply IHn; [lia | exact Hb]. }
    apply (G (run k s)); [lia | exact H].
Qed.

Lemma search_groups (p : pattern) :
  forall s gs, search p s = Some gs ->
               List.length gs = groups_of p /\ Forall (fun g => g <> "") gs.
Proof.
  induction s as [|c s IH]; intros gs H; simpl in H.
  - destruct (match_here p "") eqn:E; [|discriminate].
    injection H as <-. now apply match_here_groups in E.
  - destruct (match_here p (String c s)) eqn:E.
    + injection H as <-. now apply match_here_groups in E.
    + now apply IH.
Qed.

End StringFacts.

(* ================================================================== *)
(** ** The classifier *)

Section ClassifierFacts.
Import PyStr Re Collect Samples.

Lemma url_type_is_webby (stmt : Statement) :
  property_type (process_property stmt) = "url" ->
  webby (get_or (st_object_label stmt) "") = true.
Proof.
  unfold process_property, webby.
  destruct (startswith "http://" (get_or (st_object_label stmt) "")
            || startswith "https://" (get_or (st_object_label stmt) ""));
    [reflexivity|].
  destruct (String.eqb (get_or (st_object_class stmt) "literal") "resource");
    cbn [property_type]; discriminate.
Qed.

(** C5: [process_property] assigns exactly one of url, resource and
    literal: url iff the value starts with [http://] or [https://];
    otherwise resource iff the object kind is resource; otherwise literal.
    The scheme test comes first, so a resource whose value starts with the
    scheme is a url. *)
Theorem process_property_classification (stmt : Statement) :
  let p := process_property stmt in
  let v := get_or (st_object_label stmt) "" in
  let kind := get_or (st_object_class stmt) "literal" in
  (property_type p = "url" \/ property_type p = "resource"
   \/ property_type p = "literal")
  /\ (property_type p = "url" <-> webby v = true)
  /\ (property_type p = "resource" <-> webby v = false /\ kind = "resource")
  /\ (property_type p = "literal" <-> webby v = false /\ kind <> "resource")
  /\ (kind = "resource" -> webby v = true -> property_type p = "url").
Proof.
  cbv zeta. unfold process_property, webby.
  destruct (startswith "http://" (get_or (st_object_label stmt) "")
            || startswith "https://" (get_or (st_object_label stmt) "")) eqn:U;
    [|destruct (String.eqb_spec (get_or (st_object_class stmt) "literal")
                                "resource") as [K|K]];
    cbn [property_type];
    repeat split; intros; try tauto; try discriminate; try congruence;
      try (destruct H; congruence).
Qed.

(** C6, counterexample: the url [https://github.com/foo/.git] matches the
    first pattern with name segment [.git], and the stored [repo_name] is
    the empty text. *)
Lemma repo_name_empty_for_dot_git :
  let p := process_property dot_git_statement in
  property_type p = "url"
  /\ first_match REPO_PATTERNS (value p) = Some ("github", ["foo"; ".git"])
  /\ is_repo_url p = true
  /\ repo_name p = Some "".
Proof. vm_compute. repeat split; reflexivity. Qed.

Lemma first_match_groups (pats : list (pattern * string)) (url ty : string)
      (gs : list string) :
  first_match pats url = Some (ty, gs) ->
  exists p, In (p, ty) pats /\ List.length gs = groups_of p
            /\ Forall (fun g => g <> "") gs.
Proof.
  induction pats as [|[p t] rest IH]; simpl; [discriminate|].
  destruct (search p url) as [gs'|] eqn:E.
  - intros H; injection H as <- <-. exists p.
    split; [now left | now apply search_groups in E].
  - intros H. destruct (IH H) as (q & I & R). exists q. split; [now right | exact R].
Qed.

(** The groups of a match of [REPO_PATTERNS]: one non-empty group for the
    archive patterns, two non-empty groups for the others. *)
Lemma repo_match_shape (url ty : string) (gs : list string) :
  first_match REPO_PATTERNS url = Some (ty, gs) ->
  (ty = "zenodo" /\ exists g1, gs = [g1] /\ g1 <> "")
  \/ (ty <> "zenodo" /\ exists g1 g2, gs = [g1; g2] /\ g1 <> "" /\ g2 <> "").
Proof.
  intros H. destruct (first_match_groups _ _ _ _ H) as (p & I & L & F).
  simpl in I.
  destruct I as [I|[I|[I|[I|[I|[I|[]]]]]]]; inversion I; subst; clear I; simpl in L.
  all: try (right; split; [discriminate|];
            destruct gs as [|g1 [|g2 [|? ?]]]; try discriminate L;
            exists g1, g2; inversion F as [|? ? F1 F']; inversion F' as [|? ? F2 ?];
            subst; now repeat split).
  all: left; split; [reflexivity|];
    destruct gs as [|g1 [|? ?]]; try discriminate L;
    exists g1; inversion F; subst; now split.
Qed.

(** C6, as amended: for a url property whose value matches a repository
    pattern (the first matching pattern decides), [is_repo_url] is true,
    [repo_owner] is non-empty, and [repo_name] is the matched name with a
    final [.git] removed; [repo_name] is empty exactly when the matched
    name is [.git] itself. *)
Theorem repo_fields_of_match (stmt : Statement) (ty : string) (gs : list string) :
  let p := process_property stmt in
  property_type p = "url" ->
  first_match REPO_PATTERNS (value p) = Some (ty, gs) ->
  is_repo_url p = true
  /\ repo_type p = Some ty
  /\ (exists o, repo_owner p = Some o /\ o <> ""
                /\ o = if String.eqb ty "zenodo" then "zenodo" else group 1 gs)
  /\ repo_name p
     = Some (if String.eqb ty "zenodo" then group 1 gs
             else sub_dot_git (group 2 gs))
  /\ (forall x, ty <> "zenodo" -> group 2 gs = x ++ ".git" -> repo_name p = Some x)
  /\ (repo_name p = Some "" <-> ty <> "zenodo" /\ group 2 gs = ".git").
Proof.
  cbv zeta. intros T M.
  pose proof (url_type_is_webby stmt T) as W.
  unfold webby in W.
  unfold process_property in *. rewrite W in *. cbn [value] in M.
  set (v := get_or (st_object_label stmt) "") in *.
  assert (NE : truthy v = true).
  { destruct v; [simpl in M; discriminate | reflexivity]. }
  unfold extract_repo_info. rewrite NE, M. cbn.
  destruct (repo_match_shape _ _ _ M) as [[-> (g1 & -> & N1)]
                                         |[Z (g1 & g2 & -> & N1 & N2)]].
  - unfold repo_tuple. cbn.
    split; [reflexivity|]. split; [reflexivity|].
    split; [exists "zenodo"; repeat split; discriminate|].
    split; [reflexivity|].
    split; [intros x Hx; now contradiction Hx|].
    split; [intros E; injection E as E; now contradiction N1
           | intros [Hx _]; now contradiction Hx].
  - unfold repo_tuple. apply String.eqb_neq in Z. rewrite Z. cbn.
    apply String.eqb_neq in Z.
    split; [reflexivity|]. split; [reflexivity|].
    split; [exists g1; now repeat split|].
    split; [reflexivity|].
    split; [intros x _ ->; now rewrite sub_dot_git_suffix|].
    split.
    + intros E. injection E as E. apply sub_dot_git_empty in E.
      destruct E as [E|E]; [now contradiction N2 | now split].
    + intros [_ ->]. reflexivity.
Qed.

Lemma repo_fields_of_match_witness :
  let p := process_property scores_statement in
  property_type p = "url"
  /\ first_match REPO_PATTERNS (value p) = Some ("github", ["orkg"; "scores.git"])
  /\ is_repo_url p = true
  /\ repo_name p = Some "scores".
Proof.
  assert (T : property_type (process_property scores_statement) = "url")
    by reflexivity.
  assert (M : first_match REPO_PATTERNS (value (process_property scores_statement))
              = Some ("github", ["orkg"; "scores.git"])) by (vm_compute; reflexivity).
  destruct (repo_fields_of_match scores_statement _ _ T M) as (R & _ & _ & N & _).
  cbv zeta. split; [exact T|]. split; [exact M|]. split; [exact R | exact N].
Defined.

End ClassifierFacts.

(* ================================================================== *)
(** ** The scorer *)

Section ScorerFacts.
Import PyStr Evaluate Samples.

Variable live : Live.
Variables cid pid ptitle : string.

(** What the availability test computes. *)
Lemma availability_as_coded (check_access check_lic : bool) (p : Collect.Property) :
  let e := fst (score_property live check_access check_lic cid pid ptitle p) in
  (has_value (Collect.value p) = true
   -> availability e = 100%Q /\ availability_reason e = "Valid: has value")
  /\ (has_value (Collect.value p) = false
      -> availability e = 0%Q /\ availability_reason e = "Not Valid: empty/null").
Proof.
  cbv zeta. unfold score_property.
  destruct (has_value (Collect.value p));
    destruct (String.eqb (Collect.property_type p) "url"), check_access,
             (check_url live (Collect.value p)) as [[|] ?],
             (String.eqb (Collect.property_type p) "resource"),
             (Collect.is_ontology_linked p), (Collect.is_repo_url p), check_lic,
             (check_license live (Collect.repo_type p) (Collect.repo_owner p)
                            (Collect.repo_name p)) as [[[[|] ?] ?] ?];
    cbn; split; intros; try discriminate; split; reflexivity.
Qed.

(** The empty value, a blank value and the three exact tokens score 0. *)
Lemma has_value_exact_tokens :
  has_value "" = false /\ has_value "   " = false /\ has_value "N/A" = false
  /\ has_value "none" = false /\ has_value "Null" = false.
Proof. vm_compute. repeat split; reflexivity. Qed.

(** C2, at the failing input: the value [ n/a] (one leading blank) trims to
    the token [n/a], yet it is scored 100 with reason [Valid: has value];
    the token test reads the untrimmed value. *)
Theorem availability_of_padded_null_token (check_access check_lic : bool) :
  let e := fst (score_property live check_access check_lic cid pid ptitle
                               padded_null_property) in
  strip (Collect.value padded_null_property) = "n/a"
  /\ in_list (lower (strip (Collect.value padded_null_property)))
             ["n/a"; "none"; "null"] = true
  /\ availability e = 100%Q
  /\ availability_reason e = "Valid: has value".
Proof.
  cbv zeta.
  split; [reflexivity|]. split; [reflexivity|].
  apply (availability_as_coded check_access check_lic padded_null_property).
  reflexivity.
Qed.

(** C4: a property that is not a url scores 100 on Accessibility with the
    fixed reason; one that is not a resource scores 100 on Linkability; one
    that is not a repository url scores 100 on License; whatever its value,
    the toggles and the answers of the services. *)
Theorem inapplicable_pillars_score_100 (check_access check_lic : bool)
        (p : Collect.Property) :
  let e := fst (score_property live check_access check_lic cid pid ptitle p) in
  (Collect.property_type p <> "url"
   -> accessibility e = 100%Q
      /\ accessibility_reason e = "Inapplicable (not URL)")
  /\ (Collect.property_type p <> "resource" -> linkability e = 100%Q)
  /\ (~ (Collect.property_type p = "url" /\ Collect.is_repo_url p = true)
      -> license e = 100%Q).
Proof.
  cbv zeta. unfold score_property.
  destruct (has_value (Collect.value p)),
           (String.eqb_spec (Collect.property_type p) "url"), check_access,
           (check_url live (Collect.value p)) as [[|] ?],
           (String.eqb_spec (Collect.property_type p) "resource"),
           (Collect.is_ontology_linked p), (Collect.is_repo_url p), check_lic,
           (check_license live (Collect.repo_type p) (Collect.repo_owner p)
                          (Collect.repo_name p)) as [[[[|] ?] ?] ?];
    cbn; (split; [|split]); intros H; try reflexivity; try (split; reflexivity);
      try congruence; try (exfalso; apply H; split; congruence); try tauto.
Qed.

(** With both toggles off no call is made and the services are not
    consulted. *)
Lemma score_property_offline (other : Live) (p : Collect.Property) :
  score_property live false false cid pid ptitle p
  = score_property other false false cid pid ptitle p
  /\ snd (score_property live false false cid pid ptitle p) = [].
Proof.
  unfold score_property.
  destruct (has_value (Collect.value p)),
           (String.eqb (Collect.property_type p) "url"),
           (String.eqb (Collect.property_type p) "resource"),
           (Collect.is_ontology_linked p), (Collect.is_repo_url p);
    cbn; split; reflexivity.
Qed.

(** C10: the value kept in the evaluation record is the first 150
    characters of the raw value, a prefix of it, while Availability is
    decided on the whole raw value; the detailed export writes the first 80
    characters. *)
Theorem stored_value_is_truncated (check_access check_lic : bool)
        (p : Collect.Property) :
  let e := fst (score_property live check_access check_lic cid pid ptitle p) in
  value e = take 150 (Collect.value p)
  /\ (String.length (value e) <= 150)%nat
  /\ Collect.value p = value e ++ drop 150 (Collect.value p)
  /\ availability e = (if has_value (Collect.value p) then 100%Q else 0%Q)
  /\ nth 7 (detailed_row e) "" = take 80 (Collect.value p)
  /\ (String.length (nth 7 (detailed_row e) "") <= 80)%nat.
Proof.
  cbv zeta.
  assert (V : value (fst (score_property live check_access check_lic cid pid
                                         ptitle p))
              = take 150 (Collect.value p)).
  { unfold score_property.
    destruct (has_value (Collect.value p)),
           (String.eqb (Collect.property_type p) "url"), check_access,
           (check_url live (Collect.value p)) as [[|] ?],
           (String.eqb (Collect.property_type p) "resource"),
           (Collect.is_ontology_linked p), (Collect.is_repo_url p), check_lic,
           (check_license live (Collect.repo_type p) (Collect.repo_owner p)
                          (Collect.repo_name p)) as [[[[|] ?] ?] ?];
      reflexivity. }
  split; [exact V|].
  split; [rewrite V; apply take_length_le|].
  split; [rewrite V; symmetry; apply take_drop|].
  split.
  { pose proof (availability_as_coded check_access check_lic p) as [A B].
    cbv zeta in A, B.
    destruct (has_value (Collect.value p));
      [apply A | apply B]; reflexivity. }
  unfold detailed_row. cbn [nth]. rewrite V.
  rewrite take_take by lia.
  split; [reflexivity | apply take_length_le].
Qed.

End ScorerFacts.

(** The whole value is scored, not the stored prefix: 150 blanks followed by
    a letter is available, its stored prefix alone would not be. *)
Lemma scoring_reads_whole_value :
  Evaluate.has_value Samples.late_text = true
  /\ Evaluate.has_value (PyStr.take 150 Samples.late_text) = false.
Proof. vm_compute. split; reflexivity. Qed.

Lemma inapplicable_pillars_score_100_witness :
  let e := fst (Evaluate.score_property Samples.online true true "C1" "P1" "T"
                                        Samples.literal_property) in
  Evaluate.accessibility e = 100%Q
  /\ Evaluate.accessibility_reason e = "Inapplicable (not URL)"
  /\ Evaluate.linkability e = 100%Q
  /\ Evaluate.license e = 100%Q.
Proof.
  destruct (inapplicable_pillars_score_100 Samples.online "C1" "P1" "T" true true
              Samples.literal_property) as (A & L & R).
  cbv zeta.
  split; [apply A; vm_compute; discriminate|].
  split; [apply A; vm_compute; discriminate|].
  split; [apply L; vm_compute; discriminate|].
  apply R. vm_compute. intros [H _]; discriminate H.
Defined.

(* ================================================================== *)
(** ** The aggregator *)

Section AggregatorFacts.
Import Evaluate TrimSpec.
Open Scope Q_scope.

Lemma sum_app (l1 l2 : list Q) : sum (l1 ++ l2) == sum l1 + sum l2.
Proof.
  unfold sum. induction l1 as [|a l1 IH]; simpl; [lra | rewrite IH; lra].
Qed.

Lemma sum_perm (l1 l2 : list Q) : Permutation l1 l2 -> sum l1 == sum l2.
Proof.
  unfold sum. induction 1; simpl; try lra.
Qed.

Lemma insert_perm (x : Q) (l : list Q) : Permutation (x :: l) (insert x l).
Proof.
  induction l as [|a l IH]; simpl; [reflexivity|].
  destruct (Qle_bool x a); [reflexivity|].
  rewrite perm_swap. now constructor.
Qed.

Lemma sorted_perm (l : list Q) : Permutation l (sorted l).
Proof.
  induction l as [|a l IH]; simpl; [constructor|].
  rewrite <- insert_perm. now constructor.
Qed.

Lemma sorted_length (l : list Q) : List.length (sorted l) = List.length l.
Proof. symmetry. apply Permutation_length, sorted_perm. Qed.

Lemma insert_ordered (x : Q) (l : list Q) :
  StronglySorted Qle l -> StronglySorted Qle (insert x l).
Proof.
  induction 1 as [|a l S IH F]; simpl.
  - repeat constructor.
  - destruct (Qle_bool x a) eqn:E.
    + apply Qle_bool_iff in E.
      constructor; [now constructor|].
      constructor; [exact E|].
      eapply Forall_impl; [|exact F]. intros y Hy. lra.
    + constructor; [exact IH|].
      apply (Permutation_Forall (insert_perm x l)).
      constructor; [|exact F].
      destruct (Qlt_le_dec a x) as [L|L]; [lra|].
      apply Qle_bool_iff in L. congruence.
Qed.

Lemma sorted_ordered (l : list Q) : StronglySorted Qle (sorted l).
Proof.
  induction l as [|a l IH]; simpl; [constructor | now apply insert_ordered].
Qed.

Lemma ordered_last (pre : list Q) (b : Q) :
  StronglySorted Qle (pre ++ [b]) -> Forall (fun y => y <= b) (pre ++ [b]).
Proof.
  induction pre as [|p pre IH]; simpl; intros S.
  - repeat constructor. lra.
  - inversion S as [|? ? S' F]; subst.
    constructor; [|now apply IH].
    rewrite Forall_app in F. destruct F as [_ F]. now inversion F.
Qed.

(** A sorted list of two or more elements: a least element, a middle part
    and a greatest element; the middle part is the slice [[1:-1]]. *)
Lemma sorted_ends (l : list Q) :
  (2 <= List.length l)%nat ->
  exists a mid b,
    sorted l = a :: mid ++ [b]
    /\ slice_1_m1 (sorted l) = mid
    /\ Forall (Qle a) l
    /\ Forall (fun y => y <= b) l.
Proof.
  intros L. pose proof (sorted_length l) as SL.
  pose proof (sorted_ordered l) as SO.
  pose proof (sorted_perm l) as SP.
  destruct (sorted l) as [|a rest] eqn:E; [simpl in SL; lia|].
  destruct rest as [|r rest'] eqn:R; [simpl in SL; lia|].
  rewrite <- R in *.
  assert (NN : rest <> []) by (rewrite R; discriminate).
  destruct (exists_last NN) as (mid & b & ->).
  exists a, mid, b. split; [reflexivity|]. split.
  - unfold slice_1_m1. cbn [List.length skipn].
    rewrite length_app. cbn [List.length].
    replace (S (List.length mid + 1) - 1 - 1)%nat with (List.length mid + 0)%nat
      by lia.
    rewrite firstn_app_2. cbn. apply app_nil_r.
  - inversion SO as [|? ? S' F]; subst. split.
    + apply (Permutation_Forall (Permutation_sym SP)).
      constructor; [lra | exact F].
    + apply (Permutation_Forall (Permutation_sym SP)).
      pose proof (ordered_last (a :: mid) b SO) as G. exact G.
Qed.

Lemma smaller_spec (x : Q) (r : list Q) :
  let m := fold_right smaller x r in
  In m (x :: r) /\ Forall (Qle m) (x :: r).
Proof.
  induction r as [|y r [I F]]; cbv zeta in *; cbn [fold_right].
  - split; [now left | repeat constructor; lra].
  - set (m := fold_right smaller x r) in *. unfold smaller.
    destruct (Qle_bool y m) eqn:E.
    + apply Qle_bool_iff in E. split; [right; now left|].
      inversion F as [|? ? Fx Fr]; subst.
      constructor; [lra|]. constructor; [lra|].
      eapply Forall_impl; [|exact Fr]. intros z Hz. simpl in Hz. lra.
    + assert (L : m <= y).
      { destruct (Qlt_le_dec m y) as [L|L]; [lra|].
        apply Qle_bool_iff in L. congruence. }
      split.
      * destruct I as [I|I]; [now left | right; now right].
      * inversion F as [|? ? Fx Fr]; subst.
        constructor; [exact Fx|]. constructor; [exact L | exact Fr].
Qed.

Lemma larger_spec (x : Q) (r : list Q) :
  let m := fold_right larger x r in
  In m (x :: r) /\ Forall (fun y => y <= m) (x :: r).
Proof.
  induction r as [|y r [I F]]; cbv zeta in *; cbn [fold_right].
  - split; [now left | repeat constructor; lra].
  - set (m := fold_right larger x r) in *. unfold larger.
    destruct (Qle_bool y m) eqn:E.
    + apply Qle_bool_iff in E. split.
      * destruct I as [I|I]; [now left | right; now right].
      * inversion F as [|? ? Fx Fr]; subst.
        constructor; [exact Fx|]. constructor; [exact E | exact Fr].
    + assert (L : m <= y).
      { destruct (Qlt_le_dec m y) as [L|L]; [lra|].
        apply Qle_bool_iff in L. congruence. }
      split; [right; now left|].
      inversion F as [|? ? Fx Fr]; subst.
      constructor; [lra|]. constructor; [lra|].
      eapply Forall_impl; [|exact Fr]. intros z Hz. simpl in Hz. lra.
Qed.

Lemma minimum_spec (l : list Q) :
  l <> [] -> In (minimum l) l /\ Forall (Qle (minimum l)) l.
Proof. destruct l as [|x r]; [congruence | intros _; apply smaller_spec]. Qed.

Lemma maximum_spec (l : list Q) :
  l <> [] -> In (maximum l) l /\ Forall (fun y => y <= maximum l) l.
Proof. destruct l as [|x r]; [congruence | intros _; apply larger_spec]. Qed.

Lemma remove_one_sum (x : Q) (l : list Q) :
  (exists y, In y l /\ x == y) ->
  sum (remove_one x l) == sum l - x
  /\ List.length l = S (List.length (remove_one x l)).
Proof.
  unfold sum. induction l as [|a l IH]; intros (y & I & E); [destruct I|].
  simpl. destruct (Qeq_bool x a) eqn:B.
  - apply Qeq_bool_iff in B. split; [lra | reflexivity].
  - destruct I as [->|I].
    + apply Qeq_bool_iff in E. congruence.
    + destruct IH as [S L]; [now exists y|]. simpl. split; [lra | now rewrite <- L].
Qed.

(** The slice [[1:-1]] of the sorted list against the list without one
    minimum and one maximum: same length, same sum. *)
Lemma trimmed_agrees (l : list Q) :
  (2 <= List.length l)%nat ->
  List.length (trimmed l) = List.length (slice_1_m1 (sorted l))
  /\ List.length l = S (S (List.length (trimmed l)))
  /\ sum (trimmed l) == sum (slice_1_m1 (sorted l)).
Proof.
  intros L.
  destruct (sorted_ends l L) as (a & mid & b & E & SL & Fa & Fb).
  assert (NE : l <> []) by (destruct l; [simpl in L; lia | discriminate]).
  destruct (minimum_spec l NE) as [Imin Fmin].
  destruct (maximum_spec l NE) as [Imax Fmax].
  pose proof (sorted_perm l) as SP.
  assert (Ia : In a l).
  { apply (Permutation_in a (Permutation_sym SP)). rewrite E. now left. }
  assert (Ib : In b l).
  { apply (Permutation_in b (Permutation_sym SP)). rewrite E.
    right. apply in_or_app. right. now left. }
  rewrite Forall_forall in Fa, Fb, Fmin, Fmax.
  assert (Ea : minimum l == a).
  { apply Qle_antisym; [now apply Fmin | now apply Fa]. }
  assert (Eb : maximum l == b).
  { apply Qle_antisym; [now apply Fb | now apply Fmax]. }
  unfold trimmed. rewrite SL, E. cbn [remove_one].
  apply Qeq_bool_iff in Ea. rewrite Ea.
  destruct (remove_one_sum (maximum l) (mid ++ [b])) as [S' L'].
  { exists b. split; [apply in_or_app; right; now left | exact Eb]. }
  rewrite length_app in L'. cbn [List.length] in L'.
  pose proof (Permutation_length SP) as PL. rewrite E in PL.
  cbn [List.length] in PL. rewrite length_app in PL. cbn [List.length] in PL.
  split; [lia|]. split; [lia|].
  rewrite S', sum_app. unfold sum at 2. cbn [fold_right]. lra.
Qed.

Lemma mean_some (l : list Q) :
  l <> [] -> mean l = Some (sum l / inject_Z (Z.of_nat (List.length l))).
Proof. destruct l; [congruence | reflexivity]. Qed.

Lemma sum_in_range (l : list Q) :
  Forall in_range l ->
  0 <= sum l /\ sum l <= 100 * inject_Z (Z.of_nat (List.length l)).
Proof.
  unfold sum. induction 1 as [|x l [Lo Hi] F [IHlo IHhi]].
  - split; [apply Qle_refl | vm_compute; discriminate].
  - cbn [fold_right List.length]. rewrite Nat2Z.inj_succ.
    unfold Z.succ. rewrite inject_Z_plus. change (inject_Z 1) with 1. lra.
Qed.

Lemma mean_in_range (l : list Q) (m : Q) :
  Forall in_range l -> mean l = Some m -> in_range m.
Proof.
  intros F M. destruct l as [|x l]; [discriminate|].
  rewrite mean_some in M by discriminate.
  assert (E : m = sum (x :: l) / inject_Z (Z.of_nat (List.length (x :: l))))
    by congruence.
  clear M. subst m.
  destruct (sum_in_range _ F) as [Lo Hi].
  set (n := inject_Z (Z.of_nat (List.length (x :: l)))) in *.
  assert (P : 0 < n).
  { unfold n. change 0 with (inject_Z 0). rewrite <- Zlt_Qlt.
    cbn [List.length]. lia. }
  clearbody n. split.
  - apply Qle_shift_div_l; [exact P | lra].
  - apply Qle_shift_div_r; [exact P | lra].
Qed.

Lemma calc_mean_nonempty (scores : list Q) :
  scores <> [] ->
  calc_mean scores
  = if (4 <=? Z.of_nat (List.length scores))%Z
    then mean (slice_1_m1 (sorted scores)) else mean scores.
Proof. destruct scores; [congruence | reflexivity]. Qed.

Lemma calc_mean_in_range (scores : list Q) :
  Forall in_range scores ->
  exists m, calc_mean scores = Some m /\ in_range m.
Proof.
  intros F. destruct scores as [|x r].
  - exists 100. split; [reflexivity | split; lra].
  - assert (NE : x :: r <> []) by discriminate.
    revert F NE. generalize (x :: r). intros scores F NE.
    rewrite (calc_mean_nonempty scores NE).
    destruct (4 <=? Z.of_nat (List.length scores))%Z eqn:C.
    + apply Z.leb_le in C.
      destruct (sorted_ends scores) as (a & mid & b & S & SL & _ & _); [lia|].
      pose proof (Permutation_length (sorted_perm scores)) as PL.
      rewrite S in PL. cbn [List.length] in PL. rewrite length_app in PL.
      cbn [List.length] in PL.
      assert (Fm : Forall in_range mid).
      { pose proof (Permutation_Forall (sorted_perm scores) F) as G.
        rewrite S in G. inversion G as [|? ? _ G']; subst.
        now apply Forall_app in G'. }
      rewrite SL.
      assert (NM : mid <> []) by (destruct mid; [simpl in PL; lia | discriminate]).
      eexists. split; [apply (mean_some mid NM)|].
      apply (mean_in_range mid); [exact Fm | apply (mean_some mid NM)].
    + eexists. split; [apply (mean_some scores NE)|].
      apply (mean_in_range scores); [exact F | apply (mean_some scores NE)].
Qed.

(** C1: on four or more scores [calc_mean] is the mean of the sorted list
    without one minimum and one maximum, one occurrence of each being
    removed also when the extreme values are repeated; on one to three
    scores it is the plain mean; on no score it is 100. *)
Theorem calc_mean_is_trimmed_mean (scores : list Q) :
  (scores = [] -> calc_mean scores = Some 100)
  /\ ((1 <= List.length scores <= 3)%nat -> calc_mean scores = mean scores)
  /\ ((4 <= List.length scores)%nat ->
      List.length scores = S (S (List.length (trimmed scores)))
      /\ exists m t, calc_mean scores = Some m
                     /\ trimmed_mean scores = Some t
                     /\ m == t).
Proof.
  split; [intros ->; reflexivity|]. split.
  - intros [Lo Hi]. destruct scores as [|x r]; [simpl in Lo; lia|].
    unfold calc_mean.
    destruct (4 <=? Z.of_nat (List.length (x :: r)))%Z eqn:C; [|reflexivity].
    apply Z.leb_le in C. lia.
  - intros L.
    destruct (trimmed_agrees scores) as (TL & TN & TS); [lia|].
    split; [exact TN|].
    assert (NT : trimmed scores <> []).
    { destruct (trimmed scores); [simpl in TN; lia | discriminate]. }
    assert (NS : slice_1_m1 (sorted scores) <> []).
    { destruct (slice_1_m1 (sorted scores)); [simpl in TL; lia | discriminate]. }
    exists (sum (slice_1_m1 (sorted scores))
            / inject_Z (Z.of_nat (List.length (slice_1_m1 (sorted scores))))),
           (sum (trimmed scores)
            / inject_Z (Z.of_nat (List.length (trimmed scores)))).
    split; [|split].
    + destruct scores as [|x r]; [simpl in L; lia|].
      unfold calc_mean.
      destruct (4 <=? Z.of_nat (List.length (x :: r)))%Z eqn:C.
      * now apply mean_some.
      * apply Z.leb_gt in C. lia.
    + unfold trimmed_mean. now apply mean_some.
    + rewrite TL, TS. reflexivity.
Qed.

End AggregatorFacts.

Lemma calc_mean_is_trimmed_mean_witness :
  Evaluate.calc_mean [] = Some 100%Q
  /\ Evaluate.calc_mean [0; 100; 100]%Q = Evaluate.mean [0; 100; 100]%Q
  /\ exists m t, Evaluate.calc_mean Samples.repeated_extremes = Some m
                 /\ TrimSpec.trimmed_mean Samples.repeated_extremes = Some t
                 /\ (m == t)%Q.
Proof.
  split; [apply (calc_mean_is_trimmed_mean []); reflexivity|].
  split; [apply (calc_mean_is_trimmed_mean [0; 100; 100]%Q); simpl; lia|].
  apply (calc_mean_is_trimmed_mean Samples.repeated_extremes). simpl; lia.
Defined.

(** Two of the three 100s and one of the two 0s stay: the mean is 200/3. *)
Example calc_mean_repeated_extremes :
  match Evaluate.calc_mean Samples.repeated_extremes with
  | Some m => Qeq_bool m (200 # 3)
  | None => false
  end = true.
Proof. vm_compute. reflexivity. Qed.

(* ================================================================== *)
(** ** The conversion to a double *)

Section FloatFacts.
Import Evaluate TrimSpec.
Open Scope Q_scope.

Lemma to_float_proper (x y : Q) : x == y -> to_float x = to_float y.
Proof. intros H. unfold to_float. now rewrite (Qred_complete x y H). Qed.

Lemma round_half_even_bounds (y : Q) (N : Z) :
  0 <= y -> y <= inject_Z N ->
  (0 <= round_half_even y <= N)%Z.
Proof.
  intros P H. unfold round_half_even.
  pose proof (Qfloor_le y) as F1.
  pose proof (Qlt_floor y) as F2.
  assert (F0 : (0 <= Qfloor y)%Z).
  { change 0%Z with (Qfloor 0). now apply Qfloor_resp_le. }
  assert (FN : (Qfloor y <= N)%Z).
  { rewrite <- (Qfloor_Z N). now apply Qfloor_resp_le. }
  assert (G : 1 # 2 <= y - inject_Z (Qfloor y) -> (Qfloor y + 1 <= N)%Z).
  { intros G. destruct (Z.eq_dec (Qfloor y) N) as [E|E]; [|lia].
    rewrite E in G. lra. }
  destruct (y - inject_Z (Qfloor y) ?= 1 # 2) eqn:C.
  - apply Qeq_alt in C. destruct (Z.even (Qfloor y)); [lia|].
    split; [lia|]. apply G. rewrite C. apply Qle_refl.
  - lia.
  - apply Qgt_alt in C. split; [lia|]. apply G. lra.
Qed.

Lemma pow2_pos (k : Z) : (0 <= k)%Z -> 0 < inject_Z (2 ^ k).
Proof.
  intros K. change 0 with (inject_Z 0). rewrite <- Zlt_Qlt.
  apply Z.pow_pos_nonneg; lia.
Qed.

Lemma exponent_small (x : Q) :
  (0 < Qnum x)%Z -> x <= 100 -> (exponent x <= 6)%Z.
Proof.
  intros P H. unfold exponent.
  set (n := Qnum x) in *. set (d := Z.pos (Qden x)).
  set (e0 := (Z.log2 n - Z.log2 d)%Z).
  assert (D : (0 < d)%Z) by (unfold d; lia).
  assert (X : (n <= 100 * d)%Z).
  { unfold Qle in H. cbn in H. fold n in H. fold d in H. lia. }
  destruct (Z.log2_spec n P) as [N1 N2].
  destruct (Z.log2_spec d D) as [D1 D2].
  pose proof (Z.log2_nonneg n) as Ln. pose proof (Z.log2_nonneg d) as Ld.
  assert (E0 : (e0 <= 7)%Z).
  { destruct (Z_le_gt_dec e0 7) as [L|L]; [exact L|]. exfalso.
    assert (A : (2 ^ (Z.log2 d + 8) <= 2 ^ Z.log2 n)%Z).
    { apply Z.pow_le_mono_r; unfold e0 in L; lia. }
    rewrite Z.pow_add_r in A by lia.
    change (2 ^ 8)%Z with 256%Z in A.
    rewrite Z.pow_succ_r in D2 by lia. nia. }
  destruct (Qle_bool (scale2 1 e0) x) eqn:T; [|lia].
  apply Qle_bool_iff in T.
  destruct (Z_le_gt_dec e0 6) as [L|L]; [exact L|]. exfalso.
  assert (e0 = 7%Z) by lia. clearbody e0. subst e0.
  change (scale2 1 7) with (1 * 128) in T. lra.
Qed.

Lemma nearest_double_range (x : Q) :
  (0 < Qnum x)%Z -> x <= 100 ->
  0 <= nearest_double x /\ nearest_double x <= 100.
Proof.
  intros P H. unfold nearest_double.
  pose proof (exponent_small x P H) as E.
  set (k := Z.min (52 - exponent x) 1074).
  assert (K : (0 < k)%Z) by (unfold k; lia).
  assert (X0 : 0 < x).
  { unfold Qlt. cbn. lia. }
  pose proof (pow2_pos k (Z.lt_le_incl _ _ K)) as PK.
  assert (S1 : scale2 x k == x * inject_Z (2 ^ k)).
  { unfold scale2. destruct (Z.leb_spec 0 k); [reflexivity | lia]. }
  destruct (round_half_even_bounds (scale2 x k) (100 * 2 ^ k)) as [R0 R1].
  { rewrite S1. apply Qmult_le_0_compat; lra. }
  { rewrite S1, inject_Z_mult. change (inject_Z 100) with 100.
    apply Qmult_le_compat_r; lra. }
  set (m := round_half_even (scale2 x k)) in *.
  assert (S2 : scale2 (inject_Z m) (- k) == inject_Z m / inject_Z (2 ^ k)).
  { unfold scale2. destruct (Z.leb_spec 0 (- k)); [lia|].
    now rewrite Z.opp_involutive. }
  rewrite S2. split.
  - apply Qle_shift_div_l; [exact PK|]. rewrite Qmult_0_l.
    change 0 with (inject_Z 0). rewrite <- Zle_Qle. exact R0.
  - apply Qle_shift_div_r; [exact PK|].
    change 100 with (inject_Z 100). rewrite <- inject_Z_mult, <- Zle_Qle.
    exact R1.
Qed.

Lemma to_float_range (x : Q) :
  0 <= x /\ x <= 100 -> 0 <= to_float x /\ to_float x <= 100.
Proof.
  intros [Lo Hi]. unfold to_float.
  pose proof (Qred_correct x) as R.
  destruct (Qnum (Qred x)) eqn:N.
  - split; lra.
  - apply nearest_double_range; [rewrite N; lia | now rewrite R].
  - exfalso. rewrite <- R in Lo. unfold Qle in Lo. cbn in Lo. rewrite N in Lo. lia.
Qed.

Lemma to_float_in_range (x : Q) : in_range x -> in_range (to_float x).
Proof. exact (to_float_range x). Qed.

(** Rounding to the nearest integer moves a number by at most one half. *)
Lemma round_half_even_near (y : Q) :
  y - (1 # 2) <= inject_Z (round_half_even y)
  /\ inject_Z (round_half_even y) <= y + (1 # 2).
Proof.
  unfold round_half_even.
  pose proof (Qfloor_le y) as F1.
  pose proof (Qlt_floor y) as F2.
  rewrite inject_Z_plus in F2. change (inject_Z 1) with 1 in F2.
  destruct (y - inject_Z (Qfloor y) ?= 1 # 2) eqn:C.
  - apply Qeq_alt in C.
    destruct (Z.even (Qfloor y));
      [|rewrite inject_Z_plus; change (inject_Z 1) with 1]; split; lra.
  - apply Qlt_alt in C. split; lra.
  - apply Qgt_alt in C. rewrite inject_Z_plus. change (inject_Z 1) with 1.
    split; lra.
Qed.

(** Below 128 the doubles are at most [2^-46] apart, so the conversion moves
    a score by at most [2^-47]. *)
Lemma nearest_double_error (x : Q) :
  (0 < Qnum x)%Z -> x <= 100 ->
  x - (1 # 140737488355328) <= nearest_double x
  /\ nearest_double x <= x + (1 # 140737488355328).
Proof.
  intros P H. unfold nearest_double.
  pose proof (exponent_small x P H) as E.
  set (k := Z.min (52 - exponent x) 1074).
  assert (K : (46 <= k)%Z) by (unfold k; lia).
  assert (K0 : (0 <= k)%Z) by lia.
  pose proof (pow2_pos k K0) as PK.
  assert (S1 : scale2 x k == x * inject_Z (2 ^ k)).
  { unfold scale2. destruct (Z.leb_spec 0 k); [reflexivity | lia]. }
  destruct (round_half_even_near (scale2 x k)) as [R0 R1].
  set (m := round_half_even (scale2 x k)) in *.
  assert (S2 : scale2 (inject_Z m) (- k) == inject_Z m / inject_Z (2 ^ k)).
  { unfold scale2. destruct (Z.leb_spec 0 (- k)); [lia|].
    now rewrite Z.opp_involutive. }
  rewrite S2. rewrite S1 in R0, R1.
  assert (B : inject_Z (2 ^ 46) <= inject_Z (2 ^ k)).
  { rewrite <- Zle_Qle. apply Z.pow_le_mono_r; lia. }
  change (inject_Z (2 ^ 46)) with (70368744177664 # 1) in B.
  set (p := inject_Z (2 ^ k)) in *.
  split.
  - apply Qle_shift_div_l; [exact PK|]. nra.
  - apply Qle_shift_div_r; [exact PK|]. nra.
Qed.

Lemma to_float_error (x : Q) :
  in_range x ->
  x - (1 # 140737488355328) <= to_float x
  /\ to_float x <= x + (1 # 140737488355328).
Proof.
  intros [Lo Hi]. unfold to_float.
  pose proof (Qred_correct x) as R.
  destruct (Qnum (Qred x)) eqn:N.
  - assert (Z0 : Qred x == 0) by (unfold Qeq; cbn; rewrite N; reflexivity).
    rewrite R in Z0. split; lra.
  - rewrite <- R at 1 4.
    apply nearest_double_error; [rewrite N; lia | now rewrite R].
  - exfalso. rewrite <- R in Lo. unfold Qle in Lo. cbn in Lo. rewrite N in Lo.
    lia.
Qed.

Lemma calc_mean_float_in_range (scores : list Q) :
  Forall in_range scores ->
  exists m, calc_mean_float scores = Some m /\ in_range m.
Proof.
  intros F. destruct (calc_mean_in_range scores F) as (m & M & R).
  exists (to_float m). unfold calc_mean_float. rewrite M.
  split; [reflexivity | now apply to_float_in_range].
Qed.

End FloatFacts.

(* ================================================================== *)
(** ** The pillar rules *)

Section PillarFacts.
Import PyStr Evaluate Pillars.

Variable live : Live.
Variables check_access check_lic : bool.
Variables cid pid ptitle : string.

Lemma score_property_assembled (p : Collect.Property) :
  score_property live check_access check_lic cid pid ptitle p
  = assemble live check_access check_lic cid pid ptitle p.
Proof. reflexivity. Qed.

(** The record and the calls of one iteration, field by field. *)
Lemma score_property_fields (p : Collect.Property) :
  let r := score_property live check_access check_lic cid pid ptitle p in
  availability (fst r) = fst (availability_part p)
  /\ availability_reason (fst r) = snd (availability_part p)
  /\ accessibility (fst r) = fst (fst (accessibility_part live check_access p))
  /\ accessibility_reason (fst r)
     = snd (fst (accessibility_part live check_access p))
  /\ linkability (fst r) = fst (linkability_part p)
  /\ linkability_reason (fst r) = snd (linkability_part p)
  /\ license (fst r) = fst (fst (fst (license_part live check_lic p)))
  /\ license_reason (fst r) = snd (fst (fst (license_part live check_lic p)))
  /\ license_name (fst r) = snd (fst (license_part live check_lic p))
  /\ snd r = (snd (accessibility_part live check_access p)
              ++ snd (license_part live check_lic p))%list.
Proof.
  cbv zeta. rewrite score_property_assembled. unfold assemble.
  destruct (availability_part p) as [a ar],
           (accessibility_part live check_access p) as [[x xr] c1],
           (linkability_part p) as [l lr],
           (license_part live check_lic p) as [[[y yr] yn] c2].
  cbn. repeat split.
Qed.

End PillarFacts.

(* ================================================================== *)
(** ** The evaluation of a contribution *)

Section EvaluationFacts.
Import PyStr Evaluate TrimSpec.

Variable live : Live.
Variables check_access check_lic : bool.
Variables cid pid ptitle : string.

Let body := loop_body live check_access check_lic cid pid ptitle.
Let score := fun p => fst (score_property live check_access check_lic cid pid ptitle p).

Lemma body_fields (a : Acc) (p : Collect.Property) :
  avail_scores (body a p) = (avail_scores a ++ [availability (score p)])%list
  /\ access_scores (body a p) = (access_scores a ++ [accessibility (score p)])%list
  /\ link_scores (body a p) = (link_scores a ++ [linkability (score p)])%list
  /\ lic_scores (body a p) = (lic_scores a ++ [license (score p)])%list
  /\ evals (body a p) = (evals a ++ [score p])%list.
Proof.
  unfold body, loop_body, score.
  destruct (score_property live check_access check_lic cid pid ptitle p)
    as [e cs].
  cbn. repeat split.
Qed.

(** The four score lists are the columns of the list of records. *)
Lemma loop_columns (props : list Collect.Property) (a : Acc) :
  let a' := fold_left body props a in
  avail_scores a' = (avail_scores a ++ map availability (map score props))%list
  /\ access_scores a' = (access_scores a ++ map accessibility (map score props))%list
  /\ link_scores a' = (link_scores a ++ map linkability (map score props))%list
  /\ lic_scores a' = (lic_scores a ++ map license (map score props))%list
  /\ evals a' = (evals a ++ map score props)%list.
Proof.
  revert a. induction props as [|p props IH]; intros a; cbv zeta.
  - simpl. now rewrite !app_nil_r.
  - cbn [fold_left map].
    destruct (IH (body a p)) as (A & B & C & D & E). cbv zeta in *.
    destruct (body_fields a p) as (A' & B' & C' & D' & E').
    rewrite A, B, C, D, E, A', B', C', D', E'.
    now rewrite <- !app_assoc.
Qed.

Lemma score_in_range (p : Collect.Property) :
  in_range (availability (score p)) /\ in_range (accessibility (score p))
  /\ in_range (linkability (score p)) /\ in_range (license (score p)).
Proof.
  unfold score.
  destruct (score_property_fields live check_access check_lic cid pid ptitle p)
    as (A & _ & B & _ & C & _ & D & _).
  cbv zeta in *. rewrite A, B, C, D. unfold in_range.
  split; [|split; [|split]].
  - unfold Pillars.availability_part.
    destruct (has_value (Collect.value p)); cbn; lra.
  - unfold Pillars.accessibility_part.
    destruct (String.eqb (Collect.property_type p) "url"), check_access,
             (check_url live (Collect.value p)) as [[|] ?]; cbn; lra.
  - unfold Pillars.linkability_part.
    destruct (String.eqb (Collect.property_type p) "resource"),
             (Collect.is_ontology_linked p); cbn; lra.
  - unfold Pillars.license_part.
    destruct (String.eqb (Collect.property_type p) "url"
              && Collect.is_repo_url p), check_lic,
             (check_license live (Collect.repo_type p) (Collect.repo_owner p)
                            (Collect.repo_name p)) as [[[[|] ?] ?] ?]; cbn; lra.
Qed.

Lemma column_in_range (f : PropertyEval -> Q) (props : list Collect.Property) :
  (forall p, in_range (f (score p))) ->
  Forall in_range (map f (map score props)).
Proof.
  intros H. induction props as [|p props IH]; simpl; constructor; auto.
Qed.

Lemma columns_in_range (props : list Collect.Property) :
  Forall in_range (map availability (map score props))
  /\ Forall in_range (map accessibility (map score props))
  /\ Forall in_range (map linkability (map score props))
  /\ Forall in_range (map license (map score props)).
Proof.
  repeat split; apply column_in_range; intros p; apply score_in_range.
Qed.

End EvaluationFacts.

(** C8: the evaluation of a contribution returns a record whose pillar
    scores are the means of the four score columns as [calc_mean] returns
    them, and whose overall score is the unweighted mean of these four as
    [statistics.mean] returns it: the double nearest to a quarter of their
    sum, at most [2^-47] away from it; the overall score lies between 0 and
    100. *)
Theorem overall_is_mean_of_pillar_means (live : Evaluate.Live)
        (contrib : Collect.Contribution) (check_access check_lic : bool) :
  exists r,
    fst (Evaluate.evaluate_contribution live contrib check_access check_lic)
    = Some r
    /\ Evaluate.calc_mean_float
         (map Evaluate.availability (Evaluate.properties r))
       = Some (Evaluate.ce_availability r)
    /\ Evaluate.calc_mean_float
         (map Evaluate.accessibility (Evaluate.properties r))
       = Some (Evaluate.ce_accessibility r)
    /\ Evaluate.calc_mean_float
         (map Evaluate.linkability (Evaluate.properties r))
       = Some (Evaluate.ce_linkability r)
    /\ Evaluate.calc_mean_float
         (map Evaluate.license (Evaluate.properties r))
       = Some (Evaluate.ce_license r)
    /\ Evaluate.mean_float
         [Evaluate.ce_availability r; Evaluate.ce_accessibility r;
          Evaluate.ce_linkability r; Evaluate.ce_license r]
       = Some (Evaluate.overall r)
    /\ (Evaluate.overall r
        == Evaluate.to_float
             ((Evaluate.ce_availability r + Evaluate.ce_accessibility r
               + Evaluate.ce_linkability r + Evaluate.ce_license r) / 4))%Q
    /\ ((Evaluate.ce_availability r + Evaluate.ce_accessibility r
          + Evaluate.ce_linkability r + Evaluate.ce_license r) / 4
         - (1 # 140737488355328) <= Evaluate.overall r
        /\ Evaluate.overall r
            <= (Evaluate.ce_availability r + Evaluate.ce_accessibility r
                + Evaluate.ce_linkability r + Evaluate.ce_license r) / 4
               + (1 # 140737488355328))%Q
    /\ (0 <= Evaluate.overall r /\ Evaluate.overall r <= 100)%Q.
Proof.
  unfold Evaluate.evaluate_contribution. cbv zeta.
  set (cid := Collect.contribution_id contrib).
  set (pid := Collect.paper_id contrib).
  set (ptitle := Collect.paper_title contrib).
  destruct (loop_columns live check_access check_lic cid pid ptitle
              (Collect.reproducibility_properties contrib) Evaluate.acc0)
    as (A & B & C & D & E).
  cbv zeta in *.
  cbn [Evaluate.acc0 Evaluate.avail_scores Evaluate.access_scores
       Evaluate.link_scores Evaluate.lic_scores Evaluate.evals app] in *.
  rewrite A, B, C, D, E. clear A B C D E.
  destruct (columns_in_range live check_access check_lic cid pid ptitle
              (Collect.reproducibility_properties contrib))
    as (F1 & F2 & F3 & F4).
  destruct (calc_mean_float_in_range _ F1) as (m1 & M1 & R1).
  destruct (calc_mean_float_in_range _ F2) as (m2 & M2 & R2).
  destruct (calc_mean_float_in_range _ F3) as (m3 & M3 & R3).
  destruct (calc_mean_float_in_range _ F4) as (m4 & M4 & R4).
  rewrite M1, M2, M3, M4.
  cbn [Evaluate.bind fst Evaluate.mean Evaluate.mean_float option_map].
  eexists. split; [reflexivity|].
  cbn [Evaluate.properties Evaluate.ce_availability Evaluate.ce_accessibility
       Evaluate.ce_linkability Evaluate.ce_license Evaluate.overall].
  split; [exact M1|]. split; [exact M2|]. split; [exact M3|].
  split; [exact M4|]. split; [reflexivity|].
  assert (Q4 : (inject_Z (Z.of_nat (List.length [m1; m2; m3; m4])) == 4)%Q)
    by reflexivity.
  assert (S4 : (Evaluate.sum [m1; m2; m3; m4] == m1 + m2 + m3 + m4)%Q)
    by (unfold Evaluate.sum; cbn [fold_right]; lra).
  assert (E4 : (Evaluate.sum [m1; m2; m3; m4]
                / inject_Z (Z.of_nat (List.length [m1; m2; m3; m4]))
                == (m1 + m2 + m3 + m4) / 4)%Q)
    by (rewrite Q4, S4; reflexivity).
  assert (R : TrimSpec.in_range ((m1 + m2 + m3 + m4) / 4)).
  { destruct R1, R2, R3, R4. split.
    - apply Qle_shift_div_l; lra.
    - apply Qle_shift_div_r; lra. }
  rewrite (to_float_proper _ _ E4).
  split; [reflexivity|].
  split; [exact (to_float_error _ R)|].
  exact (to_float_in_range _ R).
Qed.

Section OfflineFacts.
Import Evaluate.

Variables cid pid ptitle : string.

Lemma offline_loop (live other : Live) (props : list Collect.Property) (a : Acc) :
  fold_left (loop_body live false false cid pid ptitle) props a
  = fold_left (loop_body other false false cid pid ptitle) props a
  /\ log (fold_left (loop_body live false false cid pid ptitle) props a) = log a.
Proof.
  revert a. induction props as [|p props IH]; intros a; [now split|].
  cbn [fold_left].
  assert (B : loop_body live false false cid pid ptitle a p
              = loop_body other false false cid pid ptitle a p).
  { unfold loop_body.
    now rewrite (proj1 (score_property_offline live cid pid ptitle other p)). }
  destruct (IH (loop_body live false false cid pid ptitle a p)) as [F L].
  split; [now rewrite F, B|].
  rewrite L. unfold loop_body.
  pose proof (proj2 (score_property_offline live cid pid ptitle other p)) as N.
  destruct (score_property live false false cid pid ptitle p) as [e cs].
  cbn in N. subst cs. cbn. apply app_nil_r.
Qed.

End OfflineFacts.

(** C9: with both live checks disabled the evaluation of a contribution
    makes no call (no probe, no lookup, no pause) and its whole result,
    scores, reasons, overall score and tier, is determined by the
    contribution record alone: any two environments give the same result. *)
Theorem evaluate_offline_is_pure (live other : Evaluate.Live)
        (contrib : Collect.Contribution) :
  Evaluate.evaluate_contribution live contrib false false
  = Evaluate.evaluate_contribution other contrib false false
  /\ snd (Evaluate.evaluate_contribution live contrib false false) = [].
Proof.
  unfold Evaluate.evaluate_contribution. cbv zeta.
  destruct (offline_loop (Collect.contribution_id contrib)
              (Collect.paper_id contrib) (Collect.paper_title contrib)
              live other (Collect.reproducibility_properties contrib)
              Evaluate.acc0) as [F L].
  rewrite F. split; [reflexivity|].
  cbn [snd]. rewrite <- F. exact L.
Qed.

(* ================================================================== *)
(** ** The balanced collector *)

Section CollectorFacts.
Import Collect.

Variable w : World.
Variables min_per_type max_contributions : Z.

Let cap : Z := Z.max 0 max_contributions.

Local Abbreviation visit' := (visit w min_per_type).
Local Abbreviation scan_contribs' := (scan_contribs w min_per_type max_contributions).
Local Abbreviation scan_papers' := (scan_papers w min_per_type max_contributions).
Local Abbreviation while_loop' := (while_loop w min_per_type max_contributions).
Local Abbreviation must_stop' := (must_stop min_per_type max_contributions).

Lemma len_snoc {A} (l : list A) (x : A) : len (l ++ [x]) = len l + 1.
Proof. unfold len. rewrite length_app. simpl. lia. Qed.

Lemma page_requests_snoc (l : list Request) (r : Request) :
  page_requests (l ++ [r])
  = (page_requests l + if is_page_request r then 1 else 0)%nat.
Proof.
  unfold page_requests. rewrite filter_app, length_app. simpl.
  destruct (is_page_request r); reflexivity.
Qed.

(** One visit: at most one contribution more, the page untouched, one
    bundle request sent. *)
Lemma visit_effect (paper : Paper) (c : ContribRef) (st : State) :
  len (contributions st) <= len (contributions (visit' paper c st))
                         <= len (contributions st) + 1
  /\ page (visit' paper c st) = page st
  /\ requests (visit' paper c st)
     = (requests st ++ [BundleRequest (ref_id c)])%list.
Proof.
  unfold visit.
  set (st1 := sent (BundleRequest (ref_id c)) st).
  assert (B : len (contributions st) <= len (contributions st1)
                                     <= len (contributions st) + 1
              /\ page st1 = page st
              /\ requests st1 = (requests st ++ [BundleRequest (ref_id c)])%list).
  { unfold st1, sent. cbn [contributions page requests]. repeat split; lia. }
  destruct (get_bundle w (ref_id c)) as [[|s ss]|]; try exact B.
  destruct (filter reproducibility_relevant (map process_property (s :: ss)))
    as [|q qs]; try exact B.
  destruct (negb _ && negb _ && _); try exact B.
  unfold accept, st1, sent. cbn [contributions page requests].
  rewrite len_snoc. repeat split; lia.
Qed.

Lemma not_stopped_below_cap (st : State) :
  must_stop' st = false -> len (contributions st) < max_contributions.
Proof.
  unfold must_stop. intros H. apply orb_false_iff in H. destruct H as [_ H].
  now apply Z.leb_gt in H.
Qed.

Lemma scan_contribs_effect (paper : Paper) (cs : list ContribRef) :
  forall st,
    len (contributions st) <= cap ->
    len (contributions (scan_contribs' paper cs st)) <= cap
    /\ page (scan_contribs' paper cs st) = page st
    /\ page_requests (requests (scan_contribs' paper cs st))
       = page_requests (requests st).
Proof.
  induction cs as [|c cs IH]; intros st C; cbn [scan_contribs];
    [now repeat split|].
  destruct (must_stop' st) eqn:M; [now repeat split|].
  apply not_stopped_below_cap in M.
  destruct (visit_effect paper c st) as (L & P & R).
  destruct (IH (visit' paper c st)) as (C' & P' & R'); [unfold cap in *; lia|].
  split; [exact C'|]. split; [congruence|].
  rewrite R', R, page_requests_snoc. simpl. lia.
Qed.

Lemma scan_papers_effect (papers : list Paper) :
  forall st,
    len (contributions st) <= cap ->
    len (contributions (scan_papers' papers st)) <= cap
    /\ page (scan_papers' papers st) = page st
    /\ page_requests (requests (scan_papers' papers st))
       = page_requests (requests st).
Proof.
  induction papers as [|p papers IH]; intros st C; cbn [scan_papers];
    [now repeat split|].
  destruct (must_stop' st) eqn:M; [now repeat split|].
  destruct (scan_contribs_effect p (paper_contributions p) st C) as (C1 & P1 & R1).
  destruct (IH _ C1) as (C2 & P2 & R2).
  split; [exact C2|]. split; congruence.
Qed.

(** The loop from any state: the cap holds at the end, the fuel is not
    exhausted when it covers the pages left, and at most one page request
    is sent per unit of fuel. *)
Lemma while_loop_effect (fuel : nat) :
  forall st,
    len (contributions st) <= cap ->
    0 <= page st ->
    max_pages <= page st + Z.of_nat fuel ->
    let r := while_loop' fuel st in
    len (contributions (fst r)) <= cap
    /\ snd r <> OutOfFuel
    /\ (page_requests (requests (fst r))
        <= page_requests (requests st) + fuel)%nat
    /\ page st <= page (fst r) <= Z.max (page st) max_pages.
Proof.
  induction fuel as [|fuel IH]; intros st C P0 F; cbv zeta; cbn [while_loop].
  - destruct (while_condition min_per_type max_contributions st) eqn:W.
    + exfalso. unfold while_condition in W.
      apply andb_true_iff in W. destruct W as [W _].
      apply andb_true_iff in W. destruct W as [_ W].
      apply Z.ltb_lt in W. lia.
    + cbn. repeat split; try assumption; try discriminate; lia.
  - destruct (while_condition min_per_type max_contributions st) eqn:W;
      [|cbn; repeat split; try assumption; try discriminate; lia].
    assert (PL : page st < max_pages).
    { unfold while_condition in W.
      apply andb_true_iff in W. destruct W as [W _].
      apply andb_true_iff in W. destruct W as [_ W].
      now apply Z.ltb_lt in W. }
    cbn [sent page].
    set (st1 := sent (PageRequest (page st)) st).
    assert (R1 : page_requests (requests st1)
                 = (page_requests (requests st) + 1)%nat).
    { unfold st1, sent. cbn [requests]. now rewrite page_requests_snoc. }
    assert (C1 : len (contributions st1) <= cap) by exact C.
    assert (P1 : page st1 = page st) by reflexivity.
    destruct (get_page w (page st)) as [[|p papers]|].
    + cbn [fst snd]. rewrite R1, P1.
      split; [exact C1|]. split; [discriminate|]. split; lia.
    + destruct (scan_papers_effect (p :: papers) st1 C1) as (C2 & P2 & R2).
      specialize (IH (next_page (scan_papers' (p :: papers) st1))).
      cbv zeta in IH. cbn [next_page contributions page requests] in IH.
      rewrite P2, P1, R2, R1 in IH.
      destruct IH as (C3 & E3 & R3 & P3); [exact C2 | lia | lia |].
      split; [exact C3|]. split; [exact E3|]. split; lia.
    + cbn [fst snd]. rewrite R1, P1.
      split; [exact C1|]. split; [discriminate|]. split; lia.
Qed.

End CollectorFacts.

(** C7: the list of accepted contributions never exceeds the cap: it holds
    at most [max_contributions] entries for every cap that is not negative,
    and nothing is ever appended for a negative cap; and the loop ends by its
    own condition or by a [break] after at most 1000 page iterations, for
    every environment and every configuration, whether or not the target can
    be reached. *)
Theorem collect_within_cap_and_terminates (w : Collect.World)
        (min_per_type max_contributions : Z) :
  let r := Collect.run_collect w min_per_type max_contributions in
  let result := Collect.collect_contributions w min_per_type max_contributions in
  (0 <= max_contributions -> Collect.len result <= max_contributions)
  /\ (max_contributions < 0 -> result = [])
  /\ Collect.len result <= Z.max 0 max_contributions
  /\ snd r <> Collect.OutOfFuel
  /\ (Collect.page_requests (Collect.requests (fst r)) <= 1000)%nat
  /\ 0 <= Collect.page (fst r) <= 1000.
Proof.
  cbv zeta. unfold Collect.collect_contributions, Collect.run_collect.
  destruct (while_loop_effect w min_per_type max_contributions
              (Z.to_nat Collect.max_pages) (Collect.init))
    as (C & E & R & P).
  - cbn. lia.
  - cbn. lia.
  - rewrite Z2Nat.id by (unfold Collect.max_pages; lia). cbn. lia.
  - split; [intros H; lia|]. split.
    { intros H.
      destruct (Collect.contributions
                  (fst (Collect.while_loop w min_per_type max_contributions
                          (Z.to_nat Collect.max_pages) Collect.init)))
        as [|c cs]; [reflexivity|].
      unfold Collect.len in C. cbn [List.length] in C. lia. }
    split; [exact C|]. split; [exact E|]. split.
    + change (Z.to_nat Collect.max_pages) with 1000%nat in R at 2.
      cbn [Collect.init Collect.requests Collect.page_requests filter List.length]
        in R.
      exact R.
    + cbn [Collect.init Collect.page] in P.
      change (Z.max 0 Collect.max_pages) with 1000 in P. exact P.
Qed.

Lemma collect_within_cap_and_terminates_witness :
  Collect.len (Collect.collect_contributions Samples.one_page_world 1 10) <= 10
  /\ Collect.collect_contributions Samples.one_page_world 1 (-1) = [].
Proof.
  assert (P : 0 <= 10) by lia.
  assert (N : -1 < 0) by lia.
  split.
  - exact (proj1 (collect_within_cap_and_terminates
                    Samples.one_page_world 1 10) P).
  - exact (proj1 (proj2 (collect_within_cap_and_terminates
                           Samples.one_page_world 1 (-1))) N).
Defined.

(** C3, counterexample: the fetch of page 0 fails while page 1 holds a paper
    whose contribution is accepted when its page is served; the loop is left
    after the single request for page 0 and nothing is collected. *)
Lemma failed_page_ends_collection :
  Collect.get_page Samples.failing_first_page_world 0 = None
  /\ Collect.get_page Samples.failing_first_page_world 1
     = Some [Samples.paper_one]
  /\ Collect.run_collect Samples.failing_first_page_world 1 10
     = ({| Collect.contributions := [];
           Collect.type_counts := Collect.zero_counts;
           Collect.page := 0;
           Collect.requests := [Collect.PageRequest 0] |},
        Collect.FailedPage)
  /\ List.length (Collect.collect_contributions Samples.one_page_world 1 10)
     = 1%nat.
Proof. vm_compute. repeat split; reflexivity. Qed.

(** C3, as amended: a failed bundle fetch costs that one contribution only,
    the state keeps its contributions and counts and the scan goes on with
    the contributions that follow; a failed page fetch leaves the loop, with
    the contributions accepted so far. *)
Theorem transport_failures_as_coded (w : Collect.World)
        (min_per_type max_contributions : Z) (paper : Collect.Paper)
        (c : Collect.ContribRef) (rest : list Collect.ContribRef)
        (st : Collect.State) (fuel : nat) :
  (Collect.must_stop min_per_type max_contributions st = false ->
   Collect.get_bundle w (Collect.ref_id c) = None ->
   Collect.scan_contribs w min_per_type max_contributions paper (c :: rest) st
   = Collect.scan_contribs w min_per_type max_contributions paper rest
       (Collect.sent (Collect.BundleRequest (Collect.ref_id c)) st))
  /\ (Collect.while_condition min_per_type max_contributions st = true ->
      Collect.get_page w (Collect.page st) = None ->
      Collect.while_loop w min_per_type max_contributions (S fuel) st
      = (Collect.sent (Collect.PageRequest (Collect.page st)) st,
         Collect.FailedPage)
      /\ Collect.contributions
           (Collect.sent (Collect.PageRequest (Collect.page st)) st)
         = Collect.contributions st).
Proof.
  split.
  - intros M B. cbn [Collect.scan_contribs]. rewrite M.
    unfold Collect.visit. rewrite B. reflexivity.
  - intros W G. cbn [Collect.while_loop]. rewrite W.
    cbn [Collect.sent Collect.page]. rewrite G. split; reflexivity.
Qed.

Lemma transport_failures_as_coded_witness :
  Collect.scan_contribs Samples.one_page_world 1 10 Samples.paper_one
    (Collect.paper_contributions Samples.paper_one) Collect.init
  = Collect.scan_contribs Samples.one_page_world 1 10 Samples.paper_one
      [ {| Collect.ref_id := "C-good"; Collect.ref_label := None |} ]
      (Collect.sent (Collect.BundleRequest "C-lost") Collect.init)
  /\ Collect.while_loop Samples.failing_first_page_world 1 10 1 Collect.init
     = (Collect.sent (Collect.PageRequest 0) Collect.init, Collect.FailedPage).
Proof.
  split.
  - apply (transport_failures_as_coded Samples.one_page_world 1 10
             Samples.paper_one
             {| Collect.ref_id := "C-lost";
                Collect.ref_label := Some "Contribution 1" |}
             [ {| Collect.ref_id := "C-good"; Collect.ref_label := None |} ]
             Collect.init 0); reflexivity.
  - apply (transport_failures_as_coded Samples.failing_first_page_world 1 10
             Samples.paper_one
             {| Collect.ref_id := "C-lost";
                Collect.ref_label := Some "Contribution 1" |}
             [] Collect.init 0); reflexivity.
Defined.

(** The sample contribution with all services answering: Linkability is the
    double nearest to 200/3, printed as 66.66666666666667, the overall score
    is the double nearest to the mean of 100, 100, that double and 100,
    printed as 91.66666666666667, and the tier is Excellent. *)
Example sample_contribution_online :
  match fst (Evaluate.evaluate_contribution Samples.online
               Samples.sample_contribution true true) with
  | Some r =>
      Qeq_bool (Evaluate.ce_linkability r) (4691249611844267 # 70368744177664)
      && Qeq_bool (Evaluate.overall r) (6450468216285867 # 70368744177664)
      && String.eqb (Evaluate.tier r) "Excellent"
  | None => false
  end = true.
Proof. vm_compute. reflexivity. Qed.

(** The calls made for the sample contribution: one probe and one lookup
    followed by the pause. *)
Example sample_contribution_calls :
  snd (Evaluate.evaluate_contribution Samples.online
         Samples.sample_contribution true true)
  = [ Evaluate.HttpProbe "https://github.com/orkg/orkg-backend";
      Evaluate.GithubLookup "orkg" "orkg-backend";
      Evaluate.Sleep ].
Proof. vm_compute. reflexivity. Qed.

(** A contribution at the boundary of a tier, with the services failing.
    The trimmed columns hold 15, 23, 23 and 23 scores of 100 among 35, so the
    pillar scores are the doubles nearest to 300/7 and 460/7, printed as
    42.857142857142854 and 65.71428571428571; the overall score is the double
    nearest to their mean, [60 - 2^-47], printed as 59.99999999999999, and
    the tier is Fair. *)
Example boundary_contribution_offline :
  match fst (Evaluate.evaluate_contribution Samples.offline
               Samples.boundary_contribution true true) with
  | Some r =>
      Qeq_bool (Evaluate.ce_availability r)
               (6031606643799771 # 140737488355328)
      && Qeq_bool (Evaluate.ce_accessibility r)
                  (4624231760246491 # 70368744177664)
      && Qeq_bool (Evaluate.ce_linkability r)
                  (4624231760246491 # 70368744177664)
      && Qeq_bool (Evaluate.ce_license r)
                  (4624231760246491 # 70368744177664)
      && Qeq_bool (Evaluate.overall r) (60 - (1 # 140737488355328))
      && String.eqb (Evaluate.tier r) "Fair"
  | None => false
  end = true.
Proof. vm_compute. reflexivity. Qed.

(** The same columns averaged without rounding: the trimmed means are 300/7
    and 460/7 and their mean is 60, the lower bound of the tier Good. *)
Example boundary_contribution_exact :
  match fst (Evaluate.evaluate_contribution Samples.offline
               Samples.boundary_contribution true true) with
  | Some r =>
      match Evaluate.calc_mean (map Evaluate.availability (Evaluate.properties r)),
            Evaluate.calc_mean (map Evaluate.accessibility (Evaluate.properties r)),
            Evaluate.calc_mean (map Evaluate.linkability (Evaluate.properties r)),
            Evaluate.calc_mean (map Evaluate.license (Evaluate.properties r)) with
      | Some a, Some b, Some c, Some d =>
          Qeq_bool a (300 # 7) && Qeq_bool b (460 # 7)
          && Qeq_bool c (460 # 7) && Qeq_bool d (460 # 7)
          && Qeq_bool ((a + b + c + d) / 4) 60
          && String.eqb (Evaluate.get_tier ((a + b + c + d) / 4)) "Good"
      | _, _, _, _ => false
      end
  | None => false
  end = true.
Proof. vm_compute. reflexivity. Qed.

(* ================================================================== *)
(** ** Further facts about the classifier *)

Section ClassifierShape.
Import PyStr Re Collect Samples Shape.

(** The three type flags of a property agree with [property_type], and
    exactly one of them is set. *)
Theorem type_flags_agree (stmt : Statement) :
  let p := process_property stmt in
  (is_url p = true <-> property_type p = "url")
  /\ (is_resource p = true <-> property_type p = "resource")
  /\ (is_literal p = true <-> property_type p = "literal")
  /\ ((is_url p, is_resource p, is_literal p) = (true, false, false)
      \/ (is_url p, is_resource p, is_literal p) = (false, true, false)
      \/ (is_url p, is_resource p, is_literal p) = (false, false, true)).
Proof.
  cbv zeta. unfold process_property.
  destruct (startswith "http://" (get_or (st_object_label stmt) "")
            || startswith "https://" (get_or (st_object_label stmt) ""));
    [|destruct (String.eqb (get_or (st_object_class stmt) "literal") "resource")];
    cbn; repeat split; intros; try discriminate; try reflexivity; tauto.
Qed.

(** The optional fields go with their flags: the three repository fields are
    all present when [is_repo_url] is set and all absent otherwise, and only
    a url can be a repository url; [ontology_source] is present exactly when
    [is_ontology_linked] is set, and only a resource can be linked. *)
Theorem optional_fields_follow_flags (stmt : Statement) :
  let p := process_property stmt in
  (if is_repo_url p
   then property_type p = "url"
        /\ exists t o n, repo_type p = Some t /\ repo_owner p = Some o
                         /\ repo_name p = Some n
   else repo_type p = None /\ repo_owner p = None /\ repo_name p = None)
  /\ (if is_ontology_linked p
      then property_type p = "resource"
           /\ exists s, ontology_source p = Some s
      else ontology_source p = None).
Proof.
  cbv zeta. unfold process_property.
  destruct (startswith "http://" (get_or (st_object_label stmt) "")
            || startswith "https://" (get_or (st_object_label stmt) "")).
  - destruct (extract_repo_info (get_or (st_object_label stmt) ""))
      as [[[t o] n]|]; cbn.
    + split; [|reflexivity]. split; [reflexivity|].
      exists t, o, n. repeat split.
    + repeat split.
  - destruct (String.eqb (get_or (st_object_class stmt) "literal") "resource").
    + destruct (get_ontology_source (get_or (st_object_id stmt) "")
                                    (get_or (st_object_label stmt) ""))
        as [src|]; cbn.
      * split; [repeat split|]. split; [reflexivity|]. now exists src.
      * repeat split.
    + cbn. repeat split.
Qed.

Lemma all_chars_take (f : ascii -> bool) (k : cls) :
  (forall c, in_cls k c = true -> f c = true) ->
  forall n s, (n <= run k s)%nat -> all_chars f (take n s) = true.
Proof.
  intros H. induction n as [|n IH]; intros s L; [reflexivity|].
  destruct s as [|c s]; [reflexivity|]. simpl in L.
  destruct (in_cls k c) eqn:E; [|lia].
  simpl. rewrite (H c E). apply IH. lia.
Qed.

Lemma match_here_classes (p : pattern) :
  forall s gs, match_here p s = Some gs -> groups_in p gs.
Proof.
  induction p as [|[l|k] r IH]; intros s gs H; simpl in H.
  - injection H as <-. exact I.
  - destruct (lit_matches l s); [|discriminate]. exact (IH _ _ H).
  - assert (G : forall n, (n <= run k s)%nat ->
                (fix back (n : nat) : option (list string) :=
                   match n with
                   | O => None
                   | S n' =>
                       match match_here r (drop n s) with
                       | Some gs => Some (take n s :: gs)
                       | None => back n'
                       end
                   end) n = Some gs ->
                groups_in (Grp k :: r) gs).
    { induction n as [|n IHn]; intros Hn Hb; [discriminate|].
      destruct (match_here r (drop (S n) s)) as [gs'|] eqn:E.
      - injection Hb as <-. split; [|exact (IH _ _ E)].
        exact (all_chars_take (in_cls k) k (fun c H => H) (S n) s Hn).
      - apply IHn; [lia | exact Hb]. }
    apply (G (run k s)); [lia | exact H].
Qed.

Lemma search_classes (p : pattern) :
  forall s gs, search p s = Some gs -> groups_in p gs.
Proof.
  induction s as [|c s IH]; intros gs H; simpl in H.
  - destruct (match_here p "") eqn:E; [|discriminate].
    injection H as <-. now apply match_here_classes in E.
  - destruct (match_here p (String c s)) eqn:E.
    + injection H as <-. now apply match_here_classes in E.
    + now apply IH.
Qed.

Lemma first_match_classes (pats : list (pattern * string)) (url ty : string)
      (gs : list string) :
  first_match pats url = Some (ty, gs) ->
  exists p, In (p, ty) pats /\ groups_in p gs.
Proof.
  induction pats as [|[p t] rest IH]; simpl; [discriminate|].
  destruct (search p url) as [gs'|] eqn:E.
  - intros H; injection H as <- <-. exists p.
    split; [now left | now apply search_classes in E].
  - intros H. destruct (IH H) as (q & In' & R). exists q. split; [now right | exact R].
Qed.

Lemma sub_dot_git_chars (f : ascii -> bool) (s : string) :
  all_chars f s = true -> all_chars f (sub_dot_git s) = true.
Proof.
  induction s as [|c s IH]; [reflexivity|]. intros A.
  cbn [sub_dot_git].
  destruct (String.eqb (String c s) ".git"); [reflexivity|].
  destruct (String.eqb_spec (String c s) (".git" ++ String nl "")) as [E|_].
  - rewrite E in A. cbn in A. cbn.
    do 4 (apply andb_true_iff in A; destruct A as [_ A]). exact A.
  - cbn in A |- *. apply andb_true_iff in A. destruct A as [A1 A2].
    rewrite A1. now apply IH.
Qed.

Lemma digit_is_name_char (c : ascii) :
  in_cls Digit c = true -> in_cls NameChar c = true.
Proof.
  destruct c as [[] [] [] [] [] [] [] []]; vm_compute; intros H;
    first [reflexivity | discriminate H].
Qed.

Lemma all_chars_weaken (f g : ascii -> bool) (s : string) :
  (forall c, f c = true -> g c = true) ->
  all_chars f s = true -> all_chars g s = true.
Proof.
  intros H. induction s as [|c s IH]; [reflexivity|]. cbn.
  intros A. apply andb_true_iff in A. destruct A as [A1 A2].
  now rewrite (H c A1), IH.
Qed.

Lemma repo_match_classes (url ty : string) (gs : list string) :
  first_match REPO_PATTERNS url = Some (ty, gs) ->
  In ty repo_kinds
  /\ ((ty = "zenodo"
       /\ exists g1, gs = [g1] /\ g1 <> ""
                     /\ all_chars (in_cls Digit) g1 = true)
      \/ (ty <> "zenodo"
          /\ exists g1 g2, gs = [g1; g2] /\ g1 <> "" /\ g2 <> ""
                           /\ all_chars (in_cls NotSlash) g1 = true
                           /\ all_chars (in_cls NameChar) g2 = true)).
Proof.
  intros H.
  destruct (first_match_classes _ _ _ _ H) as (p & I & G).
  destruct (repo_match_shape _ _ _ H) as [[Z (g1 & -> & N1)]
                                         |[Z (g1 & g2 & -> & N1 & N2)]].
  - subst ty. split; [cbn; tauto|]. left. split; [reflexivity|].
    exists g1. split; [reflexivity|]. split; [exact N1|].
    simpl in I.
    destruct I as [I|[I|[I|[I|[I|[I|[]]]]]]]; inversion I; subst; clear I;
      cbn in G; tauto.
  - simpl in I.
    destruct I as [I|[I|[I|[I|[I|[I|[]]]]]]]; inversion I; subst; clear I;
      try (now contradiction Z); cbn in G;
      (split; [cbn; tauto|]); right; (split; [exact Z|]);
      exists g1, g2; repeat split; try assumption; tauto.
Qed.

(** A repository url carries a known host kind, a non-empty owner without a
    slash and a name without slash, blank, question mark or hash, so that
    both fit into one path segment; for the archive kind the owner is the
    fixed text and the name is a non-empty record number. *)
Theorem repo_fields_shape (stmt : Statement) :
  let p := process_property stmt in
  is_repo_url p = true ->
  exists t o n,
    repo_type p = Some t /\ repo_owner p = Some o /\ repo_name p = Some n
    /\ In t repo_kinds
    /\ o <> ""
    /\ all_chars (in_cls NotSlash) o = true
    /\ all_chars (in_cls NameChar) n = true
    /\ (t = "zenodo" ->
        o = "zenodo" /\ n <> "" /\ all_chars (in_cls Digit) n = true).
Proof.
  cbv zeta. unfold process_property.
  destruct (startswith "http://" (get_or (st_object_label stmt) "")
            || startswith "https://" (get_or (st_object_label stmt) ""));
    [|destruct (String.eqb (get_or (st_object_class stmt) "literal") "resource");
      cbn; discriminate].
  set (v := get_or (st_object_label stmt) "").
  unfold extract_repo_info.
  destruct (negb (truthy v)); [cbn; discriminate|].
  destruct (first_match REPO_PATTERNS v) as [[ty gs]|] eqn:M; [|cbn; discriminate].
  cbn. intros _.
  destruct (repo_match_classes _ _ _ M)
    as [K [[-> (g1 & -> & N1 & D1)]|[Z (g1 & g2 & -> & N1 & N2 & S1 & S2)]]].
  - exists "zenodo", "zenodo", g1. unfold repo_tuple. cbn.
    repeat split; try assumption; try discriminate.
    now apply (all_chars_weaken (in_cls Digit) _ g1 digit_is_name_char).
  - exists ty, g1, (sub_dot_git g2). unfold repo_tuple.
    apply String.eqb_neq in Z. rewrite Z. cbn. apply String.eqb_neq in Z.
    repeat split; try assumption; try contradiction.
    now apply sub_dot_git_chars.
Qed.

Lemma repo_fields_shape_witness :
  exists t o n,
    repo_type (process_property scores_statement) = Some t
    /\ repo_owner (process_property scores_statement) = Some o
    /\ repo_name (process_property scores_statement) = Some n
    /\ In t repo_kinds /\ o <> "".
Proof.
  destruct (repo_fields_shape scores_statement) as (t & o & n & A & B & C & D & E & _).
  - vm_compute. reflexivity.
  - exists t, o, n. now repeat split.
Defined.

Lemma process_property_types (stmt : Statement) :
  property_type (process_property stmt) = "url"
  \/ property_type (process_property stmt) = "resource"
  \/ property_type (process_property stmt) = "literal".
Proof.
  unfold process_property.
  destruct (startswith "http://" (get_or (st_object_label stmt) "")
            || startswith "https://" (get_or (st_object_label stmt) ""));
    [|destruct (String.eqb (get_or (st_object_class stmt) "literal") "resource")];
    cbn; tauto.
Qed.

End ClassifierShape.

(* ================================================================== *)
(** ** Substring tests of the classifier *)

Section SubstringFacts.
Import PyStr Collect.

Lemma lower_char_idem (c : ascii) : lower_char (lower_char c) = lower_char c.
Proof. destruct c as [[] [] [] [] [] [] [] []]; vm_compute; reflexivity. Qed.

Lemma lower_idem (s : string) : lower (lower s) = lower s.
Proof.
  induction s as [|c s IH]; [reflexivity|]. cbn. now rewrite lower_char_idem, IH.
Qed.

Lemma lower_app (a b : string) : lower (a ++ b) = lower a ++ lower b.
Proof. induction a as [|c a IH]; [reflexivity|]. cbn. now rewrite IH. Qed.

Lemma startswith_app (n post : string) : startswith n (n ++ post) = true.
Proof.
  induction n as [|c n IH]; [reflexivity|]. cbn. now rewrite Ascii.eqb_refl, IH.
Qed.

Lemma contains_inside (n pre post : string) :
  contains n (pre ++ n ++ post) = true.
Proof.
  induction pre as [|c pre IH].
  - cbn [append]. destruct (n ++ post) eqn:E; cbn [contains];
      rewrite <- E, startswith_app; reflexivity.
  - cbn [append contains]. rewrite IH. apply orb_true_r.
Qed.

Lemma ontology_from_sym (prefixes : list (string * string)) (a b : string) :
  get_ontology_source_from prefixes a b = get_ontology_source_from prefixes b a.
Proof.
  induction prefixes as [|[p src] rest IH]; [reflexivity|].
  cbn. rewrite IH.
  now rewrite (orb_comm (contains (lower p) (lower a))).
Qed.

Lemma ontology_from_lower (prefixes : list (string * string)) (a b : string) :
  get_ontology_source_from prefixes (lower a) (lower b)
  = get_ontology_source_from prefixes a b.
Proof.
  induction prefixes as [|[p src] rest IH]; [reflexivity|].
  cbn. now rewrite IH, !lower_idem.
Qed.

Lemma ontology_from_range (prefixes : list (string * string)) (a b s : string) :
  get_ontology_source_from prefixes a b = Some s -> In s (map snd prefixes).
Proof.
  induction prefixes as [|[p src] rest IH]; [discriminate|].
  cbn. destruct (_ || _).
  - intros H; injection H as <-. now left.
  - intros H. right. now apply IH.
Qed.

Lemma ontology_from_hit (prefixes : list (string * string))
      (p src a b : string) :
  In (p, src) prefixes ->
  contains (lower p) (lower b) = true ->
  get_ontology_source_from prefixes a b <> None.
Proof.
  induction prefixes as [|[q s] rest IH]; intros I C; [destruct I|].
  cbn. destruct (contains (lower q) (lower a) || contains (lower q) (lower b))
    eqn:E; [discriminate|].
  destruct I as [I|I]; [|now apply IH].
  injection I as -> ->. rewrite C, orb_true_r in E. discriminate.
Qed.

(** The ontology test does not tell the object id from the value, ignores
    letter case, and answers only with a source of the table. *)
Theorem ontology_source_is_symmetric_and_caseless (obj_id value : string) :
  get_ontology_source obj_id value = get_ontology_source value obj_id
  /\ get_ontology_source (lower obj_id) (lower value)
     = get_ontology_source obj_id value
  /\ (forall s, get_ontology_source obj_id value = Some s ->
                In s ["wikidata"; "purl"; "w3"; "schema.org"; "dbpedia";
                      "doi"; "orcid"]).
Proof.
  unfold get_ontology_source.
  split; [apply ontology_from_sym|]. split; [apply ontology_from_lower|].
  intros s H. apply ontology_from_range in H. cbn in H. cbn. tauto.
Qed.

(** The ontology test is not anchored: a prefix of the table occurring
    anywhere in the value, in any letter case of the value, makes the
    resource linked. *)
Theorem ontology_prefix_anywhere (prefix src obj_id pre post : string) :
  In (prefix, src) ONTOLOGY_PREFIXES ->
  get_ontology_source obj_id (pre ++ prefix ++ post) <> None.
Proof.
  intros I. apply (ontology_from_hit _ prefix src); [exact I|].
  rewrite !lower_app. apply contains_inside.
Qed.

Lemma ontology_prefix_anywhere_witness :
  get_ontology_source "R77" "crowd: a survey" <> None.
Proof.
  assert (I : In ("wd:", "wikidata") ONTOLOGY_PREFIXES)
    by (unfold ONTOLOGY_PREFIXES; right; left; reflexivity).
  exact (ontology_prefix_anywhere "wd:" "wikidata" "R77" "cro" " a survey" I).
Defined.

Lemma keyword_hit (kws : list string) (kw label : string) :
  In kw kws -> contains kw (lower label) = true ->
  existsb (fun k => contains k (lower label)) kws = true.
Proof.
  intros I C. apply existsb_exists. now exists kw.
Qed.

Lemma keywords_are_lower :
  forallb (fun kw => String.eqb (lower kw) kw) REPRO_KEYWORDS = true.
Proof. vm_compute. reflexivity. Qed.

(** A predicate label is relevant as soon as a keyword occurs anywhere in
    it, whatever the letter case of the label; and relevance does not depend
    on letter case. *)
Theorem keyword_anywhere_is_relevant (kw pre post : string) :
  In kw REPRO_KEYWORDS ->
  is_repro_relevant (pre ++ kw ++ post) = true
  /\ is_repro_relevant (lower (pre ++ kw ++ post)) = true
  /\ forall label, is_repro_relevant (lower label) = is_repro_relevant label.
Proof.
  intros I.
  assert (L : lower kw = kw).
  { pose proof keywords_are_lower as F. rewrite forallb_forall in F.
    apply String.eqb_eq. now apply F. }
  assert (A : is_repro_relevant (pre ++ kw ++ post) = true).
  { unfold is_repro_relevant. apply (keyword_hit _ kw); [exact I|].
    rewrite !lower_app, L. apply contains_inside. }
  assert (C : forall label, is_repro_relevant (lower label) = is_repro_relevant label).
  { intros label. unfold is_repro_relevant. now rewrite lower_idem. }
  split; [exact A|]. split; [now rewrite C | exact C].
Qed.

Lemma keyword_anywhere_is_relevant_witness :
  is_repro_relevant "Metadata standard" = true.
Proof.
  assert (I : In "data" REPRO_KEYWORDS)
    by (unfold REPRO_KEYWORDS; do 6 right; left; reflexivity).
  exact (proj1 (keyword_anywhere_is_relevant "data" "Meta" " standard" I)).
Defined.

End SubstringFacts.

(* ================================================================== *)
(** ** Invariants of the collection loop *)

Section LoopInvariant.
Import Collect.

Variable w : World.
Variables min_per_type max_contributions : Z.

(** A property of the state kept by every step of the loop. *)
Variable Inv : State -> Prop.

Hypothesis Inv_sent : forall r st, Inv st -> Inv (sent r st).
Hypothesis Inv_next : forall st, Inv st -> Inv (next_page st).
Hypothesis Inv_accept :
  forall paper c statements st,
    must_stop min_per_type max_contributions st = false ->
    get_bundle w (ref_id c) = Some statements ->
    statements <> [] ->
    filter reproducibility_relevant (map process_property statements) <> [] ->
    Inv st ->
    Inv (accept w paper c (map process_property statements)
           (filter reproducibility_relevant (map process_property statements))
           (count_contribution_types
              (filter reproducibility_relevant (map process_property statements)))
           st).

Lemma must_stop_sent (r : Request) (st : State) :
  must_stop min_per_type max_contributions (sent r st)
  = must_stop min_per_type max_contributions st.
Proof. reflexivity. Qed.

Lemma visit_keeps (paper : Paper) (c : ContribRef) (st : State) :
  must_stop min_per_type max_contributions st = false ->
  Inv st -> Inv (visit w min_per_type paper c st).
Proof.
  intros M H. unfold visit.
  pose proof (Inv_sent (BundleRequest (ref_id c)) st H) as H1.
  destruct (get_bundle w (ref_id c)) as [[|s ss]|] eqn:B; try exact H1.
  destruct (filter reproducibility_relevant (map process_property (s :: ss)))
    as [|q qs] eqn:F; try exact H1.
  destruct (negb _ && negb _ && _); try exact H1.
  rewrite <- F. apply Inv_accept; try assumption.
  - discriminate.
  - rewrite F. discriminate.
Qed.

Lemma scan_contribs_keeps (paper : Paper) (cs : list ContribRef) :
  forall st, Inv st ->
             Inv (scan_contribs w min_per_type max_contributions paper cs st).
Proof.
  induction cs as [|c cs IH]; intros st H; cbn [scan_contribs]; [exact H|].
  destruct (must_stop min_per_type max_contributions st) eqn:M; [exact H|].
  apply IH. now apply visit_keeps.
Qed.

Lemma scan_papers_keeps (papers : list Paper) :
  forall st, Inv st ->
             Inv (scan_papers w min_per_type max_contributions papers st).
Proof.
  induction papers as [|p papers IH]; intros st H; cbn [scan_papers]; [exact H|].
  destruct (must_stop min_per_type max_contributions st); [exact H|].
  apply IH. now apply scan_contribs_keeps.
Qed.

Lemma while_loop_keeps (fuel : nat) :
  forall st, Inv st ->
             Inv (fst (while_loop w min_per_type max_contributions fuel st)).
Proof.
  induction fuel as [|fuel IH]; intros st H; cbn [while_loop].
  - destruct (while_condition min_per_type max_contributions st); exact H.
  - destruct (while_condition min_per_type max_contributions st); [|exact H].
    pose proof (Inv_sent (PageRequest (page st)) st H) as H1.
    cbn [sent page].
    destruct (get_page w (page st)) as [[|p papers]|]; try exact H1.
    apply IH. apply Inv_next. now apply scan_papers_keeps.
Qed.

End LoopInvariant.

(* ================================================================== *)
(** ** The category counters *)

Section CounterFacts.
Import Collect Shape.

Lemma add_count_keys (c : string) (n : Z) (tc : Counts) :
  map fst (add_count c n tc) = map fst tc.
Proof.
  induction tc as [|[k v] rest IH]; [reflexivity|]. cbn.
  destruct (String.eqb k c); cbn; [reflexivity | now rewrite IH].
Qed.

Lemma get_count_add (k c : string) (n : Z) (tc : Counts) :
  In c (map fst tc) ->
  get_count k (add_count c n tc)
  = get_count k tc + (if String.eqb k c then n else 0).
Proof.
  induction tc as [|[k0 v] rest IH]; intros I; [destruct I|]. cbn.
  destruct (String.eqb_spec k0 c) as [E|E]; cbn.
  - subst k0. destruct (String.eqb_spec c k) as [E'|E'].
    + subst k. rewrite String.eqb_refl. reflexivity.
    + destruct (String.eqb_spec k c); [congruence | lia].
  - destruct I as [I|I]; [cbn in I; congruence|].
    destruct (String.eqb_spec k0 k) as [E'|E'].
    + subst k0. destruct (String.eqb_spec k c); [congruence | lia].
    + now apply IH.
Qed.

Lemma total_add (c : string) (n : Z) (tc : Counts) :
  In c (map fst tc) ->
  Save.total_of (add_count c n tc) = Save.total_of tc + n.
Proof.
  unfold Save.total_of.
  induction tc as [|[k0 v] rest IH]; intros I; [destruct I|]. cbn.
  destruct (String.eqb_spec k0 c) as [E|E]; cbn; [lia|].
  destruct I as [I|I]; [cbn in I; congruence|].
  rewrite IH by assumption. lia.
Qed.

Lemma get_count_absent (k : string) (tc : Counts) :
  ~ In k (map fst tc) -> get_count k tc = 0.
Proof.
  induction tc as [|[k0 v] rest IH]; intros N; [reflexivity|]. cbn.
  destruct (String.eqb_spec k0 k) as [E|E].
  - exfalso. apply N. now left.
  - apply IH. intros I. apply N. now right.
Qed.

(** Two dictionaries with the same distinct keys in the same order and the
    same values are equal. *)
Lemma counts_ext (a : Counts) :
  forall b, map fst a = map fst b -> NoDup (map fst a) ->
            (forall k, In k (map fst a) -> get_count k a = get_count k b) ->
            a = b.
Proof.
  induction a as [|[k v] a IH]; intros [|[k' v'] b] K D G; try discriminate;
    [reflexivity|].
  cbn in K. injection K as <- K. inversion D as [|? ? NI D']; subst.
  assert (V : v = v').
  { specialize (G k (or_introl eq_refl)). cbn in G.
    now rewrite String.eqb_refl in G. }
  subst v'. f_equal. apply IH; try assumption.
  intros k0 I. specialize (G k0 (or_intror I)). cbn in G.
  destruct (String.eqb_spec k k0) as [E|E]; [|exact G].
  subst k0. contradiction.
Qed.

Lemma category_is_key (p : Property) : In (get_property_category p) category_keys.
Proof.
  unfold get_property_category.
  destruct (String.eqb (property_type p) "url"), (is_repo_url p),
           (String.eqb (property_type p) "resource"), (is_ontology_linked p);
    cbn; tauto.
Qed.

Lemma category_count_cons (k : string) (p : Property) (props : list Property) :
  category_count k (p :: props)
  = (if String.eqb k (get_property_category p) then 1 else 0)
    + category_count k props.
Proof.
  unfold category_count. cbn [filter]. rewrite (String.eqb_sym k).
  destruct (String.eqb (get_property_category p) k); cbn [List.length]; lia.
Qed.

(** Counting property by property. *)
Lemma fold_step (props : list Property) :
  forall tc,
    map fst tc = category_keys ->
    let tc' := fold_left step props tc in
    map fst tc' = category_keys
    /\ (forall k, get_count k tc' = get_count k tc + category_count k props)
    /\ Save.total_of tc' = Save.total_of tc + len props.
Proof.
  induction props as [|p props IH]; intros tc K; cbv zeta.
  - cbn [fold_left]. split; [exact K|]. split.
    + intros k. unfold category_count. cbn. lia.
    + unfold len. cbn. lia.
  - cbn [fold_left].
    assert (I : In (get_property_category p) (map fst tc))
      by (rewrite K; apply category_is_key).
    destruct (IH (step tc p)) as (K' & G' & T').
    { unfold step. now rewrite add_count_keys. }
    split; [exact K'|]. split.
    + intros k. rewrite G'. unfold step. rewrite get_count_add by exact I.
      rewrite category_count_cons. lia.
    + rewrite T'. unfold step. rewrite total_add by exact I.
      unfold len. cbn [List.length]. lia.
Qed.

(** Adding the tally of one contribution, entry by entry. *)
Lemma fold_items (ct : Counts) :
  forall tc,
    NoDup (map fst ct) -> incl (map fst ct) (map fst tc) ->
    let tc' := fold_left (fun t kv => add_count (fst kv) (snd kv) t) ct tc in
    map fst tc' = map fst tc
    /\ forall k, get_count k tc' = get_count k tc + get_count k ct.
Proof.
  induction ct as [|[c n] ct IH]; intros tc D S; cbv zeta.
  - cbn. split; [reflexivity | intros; lia].
  - cbn [fold_left fst snd]. inversion D as [|? ? NI D']; subst.
    assert (I : In c (map fst tc)) by (apply S; now left).
    destruct (IH (add_count c n tc) D') as (K' & G').
    { rewrite add_count_keys. intros x Hx. apply S. now right. }
    rewrite add_count_keys in K'. split; [exact K'|].
    intros k. rewrite G', get_count_add by exact I. cbn [get_count].
    rewrite (String.eqb_sym k c).
    destruct (String.eqb_spec c k) as [E|E]; [|lia].
    subst k. rewrite (get_count_absent c ct NI). lia.
Qed.

Lemma keys_nodup : NoDup category_keys.
Proof.
  unfold category_keys.
  repeat (constructor; [cbn; intros H; repeat destruct H as [H|H];
                        try discriminate H; try contradiction|]).
  constructor.
Qed.

Lemma count_types_spec (repro_props : list Property) :
  map fst (count_contribution_types repro_props) = category_keys
  /\ (forall k, get_count k (count_contribution_types repro_props)
                = category_count k repro_props)
  /\ Save.total_of (count_contribution_types repro_props) = len repro_props.
Proof.
  change (count_contribution_types repro_props)
    with (fold_left step repro_props zero_counts).
  destruct (fold_step repro_props zero_counts eq_refl) as (K & G & T).
  cbv zeta in *.
  split; [exact K|]. split.
  - intros k. rewrite G. unfold zero_counts. cbn [get_count].
    repeat match goal with |- context [String.eqb ?a ?b] =>
                             destruct (String.eqb a b) end; lia.
  - rewrite T. reflexivity.
Qed.

(** The tally of a contribution holds, for each of the five categories in
    their fixed order, the number of its properties of that category; the
    counts add up to the number of properties. *)
Theorem contribution_types_count_each_property (repro_props : list Property) :
  map fst (count_contribution_types repro_props) = category_keys
  /\ (forall k, get_count k (count_contribution_types repro_props)
                = category_count k repro_props)
  /\ Save.total_of (count_contribution_types repro_props) = len repro_props.
Proof. exact (count_types_spec repro_props). Qed.

(** Accepting a contribution adds its tally to the running counters, which
    is the same as counting its properties one by one. *)
Lemma accept_counts (repro : list Property) (tc : Counts) :
  map fst tc = category_keys ->
  fold_left (fun t kv => add_count (fst kv) (snd kv) t)
            (count_contribution_types repro) tc
  = fold_left step repro tc.
Proof.
  intros K.
  destruct (count_types_spec repro) as (K1 & G1 & _).
  destruct (fold_items (count_contribution_types repro) tc) as (K2 & G2).
  { rewrite K1. apply keys_nodup. }
  { rewrite K1, K. apply incl_refl. }
  destruct (fold_step repro tc K) as (K3 & G3 & _). cbv zeta in *.
  apply counts_ext.
  - now rewrite K2, K3.
  - rewrite K2, K. apply keys_nodup.
  - intros k _. now rewrite G2, G3, G1.
Qed.

End CounterFacts.

(* ================================================================== *)
(** ** What the collector returns *)

Section CollectedFacts.
Import Collect Shape.

Variable w : World.
Variables min_per_type max_contributions : Z.

Lemma collected_snoc (cs : list Contribution) (c : Contribution) :
  collected_properties (cs ++ [c])
  = (collected_properties cs ++ reproducibility_properties c)%list.
Proof.
  unfold collected_properties. rewrite flat_map_app. cbn. now rewrite app_nil_r.
Qed.

Lemma zero_counts_get (k : string) : get_count k zero_counts = 0.
Proof.
  unfold zero_counts. cbn [get_count].
  repeat match goal with |- context [String.eqb ?a ?b] =>
                           destruct (String.eqb a b) end; reflexivity.
Qed.

Lemma counters_agree_kept (fuel : nat) (st : State) :
  counters_agree st ->
  counters_agree (fst (while_loop w min_per_type max_contributions fuel st)).
Proof.
  apply (while_loop_keeps w min_per_type max_contributions counters_agree);
    try (intros; assumption).
  intros paper c statements st0 _ _ _ _ H.
  unfold counters_agree in *. unfold accept. cbn [type_counts contributions].
  rewrite collected_snoc. cbn [reproducibility_properties].
  rewrite fold_left_app, <- H.
  apply accept_counts.
  rewrite H.
  exact (proj1 (fold_step (collected_properties (contributions st0))
                          zero_counts eq_refl)).
Qed.

Lemma well_collected_kept (fuel : nat) (st : State) :
  Forall (well_collected w) (contributions st) ->
  Forall (well_collected w)
         (contributions (fst (while_loop w min_per_type max_contributions fuel st))).
Proof.
  apply (while_loop_keeps w min_per_type max_contributions
           (fun st => Forall (well_collected w) (contributions st)));
    try (intros; assumption).
  intros paper c statements st0 _ B NS NR H.
  unfold accept. cbn [contributions].
  apply Forall_app. split; [exact H|].
  constructor; [|constructor].
  exists statements. cbn. repeat split; assumption.
Qed.

Lemma extension_kept (base : list Contribution) (fuel : nat) (st : State) :
  (exists ext, contributions st = (base ++ ext)%list) ->
  exists ext,
    contributions (fst (while_loop w min_per_type max_contributions fuel st))
    = (base ++ ext)%list.
Proof.
  apply (while_loop_keeps w min_per_type max_contributions
           (fun st => exists ext, contributions st = (base ++ ext)%list));
    try (intros; assumption).
  intros paper c statements st0 _ _ _ _ [ext H].
  unfold accept. cbn [contributions]. rewrite H.
  eexists. rewrite <- app_assoc. reflexivity.
Qed.

End CollectedFacts.

(** Every collected contribution classifies a non-empty bundle that was
    served for its id, keeps as reproducibility properties exactly the
    relevant ones among all its properties, and has at least one of them. *)
Theorem collected_contributions_are_well_formed (w : Collect.World)
        (min_per_type max_contributions : Z) :
  Forall (Shape.well_collected w)
         (Collect.collect_contributions w min_per_type max_contributions).
Proof.
  unfold Collect.collect_contributions, Collect.run_collect.
  apply well_collected_kept. constructor.
Qed.

(** The loop only appends: from any state, the contributions at the end of
    the loop extend the contributions at its start, which are neither
    dropped nor reordered. *)
Theorem collection_only_appends (w : Collect.World)
        (min_per_type max_contributions : Z) (fuel : nat) (st : Collect.State) :
  exists ext,
    Collect.contributions
      (fst (Collect.while_loop w min_per_type max_contributions fuel st))
    = (Collect.contributions st ++ ext)%list.
Proof.
  apply extension_kept. exists []. now rewrite app_nil_r.
Qed.

Lemma tally_property_counts (props : list Collect.Property) :
  forall t, Save.t_type_counts (fold_left Save.tally_property props t)
            = fold_left Shape.step props (Save.t_type_counts t).
Proof.
  induction props as [|p props IH]; intros t; [reflexivity|].
  cbn [fold_left]. now rewrite IH.
Qed.

Lemma tally_counts (cs : list Collect.Contribution) :
  forall t, Save.t_type_counts (fold_left Save.tally_contribution cs t)
            = fold_left Shape.step (Shape.collected_properties cs)
                        (Save.t_type_counts t).
Proof.
  induction cs as [|c cs IH]; intros t; [reflexivity|].
  cbn [fold_left Shape.collected_properties flat_map].
  rewrite IH, fold_left_app. unfold Save.tally_contribution.
  now rewrite tally_property_counts.
Qed.

(** The distribution recomputed by [save_contributions] from the collected
    contributions is the dictionary of counters the collector ended with;
    each counter is the number of collected reproducibility properties of
    its category and the total is their number. *)
Theorem saved_distribution_matches_counters (w : Collect.World)
        (min_per_type max_contributions : Z) (round1 : Q -> Q) (now : string) :
  let st := fst (Collect.run_collect w min_per_type max_contributions) in
  let m := fst (Save.save_contributions round1 now (Collect.contributions st)) in
  Save.property_distribution m = Collect.type_counts st
  /\ (forall k, Collect.get_count k (Collect.type_counts st)
                = Shape.category_count k
                    (Shape.collected_properties (Collect.contributions st)))
  /\ Save.total_properties m
     = Collect.len (Shape.collected_properties (Collect.contributions st))
  /\ Save.total_contributions m
     = Collect.len (Collect.collect_contributions w min_per_type max_contributions).
Proof.
  cbv zeta. unfold Collect.run_collect.
  pose proof (counters_agree_kept w min_per_type max_contributions
                (Z.to_nat Collect.max_pages) Collect.init eq_refl) as A.
  unfold Shape.counters_agree in A.
  set (st := fst (Collect.while_loop w min_per_type max_contributions
                    (Z.to_nat Collect.max_pages) Collect.init)) in *.
  destruct (fold_step (Shape.collected_properties (Collect.contributions st))
                      Collect.zero_counts eq_refl) as (K & G & T).
  cbv zeta in *. rewrite <- A in *.
  unfold Save.save_contributions. cbn [fst Save.property_distribution
    Save.total_properties Save.total_contributions].
  assert (E : Save.t_type_counts (Save.tally (Collect.contributions st))
              = Collect.type_counts st).
  { unfold Save.tally. rewrite tally_counts. cbn [Save.t_type_counts].
    now rewrite A. }
  rewrite E. split; [reflexivity|]. split.
  - intros k. rewrite G, zero_counts_get. lia.
  - split; [rewrite T; reflexivity | reflexivity].
Qed.

(* ================================================================== *)
(** ** The balance test and the acceptance policy *)

Section BalanceFacts.
Import Collect Shape Samples.

(** The collection is balanced exactly when no category is still needed,
    and then no contribution helps. *)
Theorem balanced_iff_nothing_needed (type_counts contrib_types : Counts)
        (min_per_type : Z) :
  (is_balanced type_counts min_per_type = true
   <-> get_needed_types type_counts min_per_type = [])
  /\ (is_balanced type_counts min_per_type = true ->
      contribution_helps_balance contrib_types type_counts min_per_type = false).
Proof.
  assert (A : is_balanced type_counts min_per_type = true
              <-> get_needed_types type_counts min_per_type = []).
  { unfold is_balanced, get_needed_types.
    induction type_counts as [|[k v] rest IH]; cbn; [tauto|].
    destruct (Z.leb_spec min_per_type v) as [L|L];
      destruct (Z.ltb_spec v min_per_type) as [L'|L']; try lia; cbn.
    - exact IH.
    - split; discriminate. }
  split; [exact A|].
  intros B. apply A in B. unfold contribution_helps_balance. now rewrite B.
Qed.

Lemma balanced_iff_nothing_needed_witness :
  contribution_helps_balance [("literal", 3)] [("literal", 40); ("url_repo", 41)] 40
  = false.
Proof.
  apply (balanced_iff_nothing_needed [("literal", 40); ("url_repo", 41)]
                                     [("literal", 3)] 40).
  reflexivity.
Defined.

(** With a target or a cap that is not positive the loop is not entered:
    nothing is requested and nothing is collected. *)
Theorem nothing_requested_without_target (w : World)
        (min_per_type max_contributions : Z) :
  min_per_type <= 0 \/ max_contributions <= 0 ->
  run_collect w min_per_type max_contributions = (init, ConditionFalse).
Proof.
  intros H. unfold run_collect.
  assert (C : while_condition min_per_type max_contributions init = false).
  { unfold while_condition, init, is_balanced, zero_counts.
    cbn [type_counts contributions page forallb snd len List.length].
    destruct (Z.leb_spec min_per_type 0) as [L|L]; cbn.
    - reflexivity.
    - apply Z.ltb_ge. lia. }
  generalize (Z.to_nat max_pages). intros fuel.
  destruct fuel; cbn [while_loop]; now rewrite C.
Qed.

Lemma nothing_requested_without_target_witness :
  requests (fst (run_collect one_page_world 0 500)) = []
  /\ collect_contributions one_page_world 40 0 = [].
Proof.
  split.
  - rewrite (nothing_requested_without_target one_page_world 0 500);
      [reflexivity | lia].
  - unfold collect_contributions.
    rewrite (nothing_requested_without_target one_page_world 40 0);
      [reflexivity | lia].
Defined.

Lemma get_count_of_entry (tc : Counts) (t : string) (v : Z) :
  NoDup (map fst tc) -> In (t, v) tc -> get_count t tc = v.
Proof.
  induction tc as [|[k x] rest IH]; intros D I; [destruct I|].
  inversion D as [|? ? NI D']; subst. cbn.
  destruct I as [I|I].
  - injection I as -> ->. now rewrite String.eqb_refl.
  - destruct (String.eqb_spec k t) as [E|E]; [|now apply IH].
    subst k. exfalso. apply NI. apply in_map_iff. now exists (t, v).
Qed.

(** Past the bootstrap threshold of 50 contributions, a contribution is only
    accepted when it raises the counter of a category that is below the
    target. *)
Theorem late_acceptance_fills_a_gap (w : World)
        (min_per_type max_contributions : Z) (paper : Paper) (c : ContribRef)
        (st : State) :
  map fst (type_counts st) = category_keys ->
  must_stop min_per_type max_contributions st = false ->
  50 < len (contributions st) ->
  contributions (visit w min_per_type paper c st) <> contributions st ->
  exists t,
    get_count t (type_counts st) < min_per_type
    /\ get_count t (type_counts st)
       < get_count t (type_counts (visit w min_per_type paper c st)).
Proof.
  intros K M L A. unfold visit in *.
  destruct (get_bundle w (ref_id c)) as [[|s ss]|];
    try (exfalso; apply A; reflexivity).
  destruct (filter reproducibility_relevant (map process_property (s :: ss)))
    as [|q qs] eqn:F; [exfalso; apply A; reflexivity|].
  rewrite <- F in *. clear F.
  set (repro := filter reproducibility_relevant
                       (map process_property (s :: ss))) in *.
  unfold must_stop in M. apply orb_false_iff in M. destruct M as [B _].
  cbn [sent type_counts contributions] in *. rewrite B in *.
  apply Z.ltb_lt in L. rewrite L in *. cbn [negb andb] in *.
  destruct (contribution_helps_balance (count_contribution_types repro)
                                       (type_counts st) min_per_type) eqn:H;
    cbn [negb] in *; [|exfalso; apply A; reflexivity].
  unfold contribution_helps_balance in H. apply existsb_exists in H.
  destruct H as (t & N & P). apply Z.ltb_lt in P.
  unfold get_needed_types in N. apply in_map_iff in N.
  destruct N as ([t' v] & <- & N). apply filter_In in N.
  destruct N as [N V]. cbn [fst snd] in *. apply Z.ltb_lt in V.
  assert (G : get_count t' (type_counts st) = v).
  { apply get_count_of_entry; [rewrite K; apply keys_nodup | exact N]. }
  exists t'. split; [lia|].
  unfold accept. cbn [type_counts].
  destruct (count_types_spec repro) as (K1 & _ & _).
  destruct (fold_items (count_contribution_types repro) (type_counts st))
    as (_ & G2).
  { rewrite K1. apply keys_nodup. }
  { rewrite K1, K. apply incl_refl. }
  cbv zeta in G2. rewrite G2. lia.
Qed.

Lemma late_acceptance_fills_a_gap_witness :
  exists t,
    get_count t (type_counts late_state) < 40
    /\ get_count t (type_counts late_state)
       < get_count t (type_counts
                        (visit one_page_world 40 paper_one
                               {| ref_id := "C-good"; ref_label := None |}
                               late_state)).
Proof.
  apply (late_acceptance_fills_a_gap one_page_world 40 500).
  - reflexivity.
  - reflexivity.
  - vm_compute. reflexivity.
  - vm_compute. intros H. discriminate H.
Defined.

End BalanceFacts.

(* ================================================================== *)
(** ** The scorer, pillar by pillar *)

Section PillarRules.
Import PyStr Evaluate Pillars Samples.

Variable live : Live.
Variables cid pid ptitle : string.

Local Abbreviation score_of ca cl p :=
  (score_property live ca cl cid pid ptitle p) (only parsing).

Lemma binary_scores (check_access check_lic : bool) (p : Collect.Property) :
  let e := fst (score_of check_access check_lic p) in
  (availability e = 0%Q \/ availability e = 100%Q)
  /\ (accessibility e = 0%Q \/ accessibility e = 100%Q)
  /\ (linkability e = 0%Q \/ linkability e = 100%Q)
  /\ (license e = 0%Q \/ license e = 100%Q).
Proof.
  destruct (score_property_fields live check_access check_lic cid pid ptitle p)
    as (A & _ & B & _ & C & _ & D & _).
  cbv zeta in *. rewrite A, B, C, D.
  split; [|split; [|split]].
  - unfold availability_part.
    destruct (has_value (Collect.value p)); cbn; tauto.
  - unfold accessibility_part.
    destruct (String.eqb (Collect.property_type p) "url"), check_access,
             (check_url live (Collect.value p)) as [[|] ?]; cbn; tauto.
  - unfold linkability_part.
    destruct (String.eqb (Collect.property_type p) "resource"),
             (Collect.is_ontology_linked p); cbn; tauto.
  - unfold license_part.
    destruct (String.eqb (Collect.property_type p) "url"
              && Collect.is_repo_url p), check_lic,
             (check_license live (Collect.repo_type p) (Collect.repo_owner p)
                            (Collect.repo_name p)) as [[[[|] ?] ?] ?]; cbn; tauto.
Qed.

(** Every score of a property is exactly 0 or exactly 100. *)
Theorem scores_are_binary (check_access check_lic : bool) (p : Collect.Property) :
  let e := fst (score_of check_access check_lic p) in
  (availability e = 0%Q \/ availability e = 100%Q)
  /\ (accessibility e = 0%Q \/ accessibility e = 100%Q)
  /\ (linkability e = 0%Q \/ linkability e = 100%Q)
  /\ (license e = 0%Q \/ license e = 100%Q).
Proof. exact (binary_scores check_access check_lic p). Qed.

(** A disabled check is a pass: without the access check every url scores
    100 on Accessibility with reason [Skipped], and without the license
    check every repository url scores 100 on License with reason [Skipped]
    and no license name; neither makes a call. *)
Theorem disabled_checks_pass (check_access check_lic : bool)
        (p : Collect.Property) :
  Collect.property_type p = "url" ->
  (let r := score_of false check_lic p in
   accessibility (fst r) = 100%Q /\ accessibility_reason (fst r) = "Skipped"
   /\ forall u, ~ In (HttpProbe u) (snd r))
  /\ (Collect.is_repo_url p = true ->
      let r := score_of check_access false p in
      license (fst r) = 100%Q /\ license_reason (fst r) = "Skipped"
      /\ license_name (fst r) = ""
      /\ forall c, In c (snd r) -> exists u, c = HttpProbe u).
Proof.
  intros U. apply String.eqb_eq in U. split.
  - destruct (score_property_fields live false check_lic cid pid ptitle p)
      as (_ & _ & B & B' & _ & _ & _ & _ & _ & L).
    cbv zeta in *. rewrite B, B', L. unfold accessibility_part. rewrite U. cbn.
    repeat split. intros u I. unfold license_part in I.
    destruct (String.eqb (Collect.property_type p) "url"
              && Collect.is_repo_url p), check_lic; cbn in I; try tauto.
    unfold check_license in I.
    destruct (eqb_opt (Collect.repo_type p) "github"),
             (eqb_opt (Collect.repo_type p) "zenodo");
      cbn in I;
      repeat match goal with
             | H : context [check_github ?a ?b ?c] |- _ =>
                 destruct (check_github a b c) as [[? ?] ?]
             | H : context [check_zenodo ?a ?b] |- _ =>
                 destruct (check_zenodo a b) as [[? ?] ?]
             end; cbn in I;
      repeat destruct I as [I|I]; try discriminate I; try contradiction.
  - intros R.
    destruct (score_property_fields live check_access false cid pid ptitle p)
      as (_ & _ & _ & _ & _ & _ & D & D' & D'' & L).
    cbv zeta in *. rewrite D, D', D'', L. unfold license_part. rewrite U, R. cbn.
    repeat split. rewrite app_nil_r. unfold accessibility_part. rewrite U.
    intros c I. destruct check_access; [|destruct I].
    destruct (check_url live (Collect.value p)) as [ok reason]. cbn in I.
    destruct I as [<-|[]]. eauto.
Qed.

(** With the access check enabled, the Accessibility of a url is decided by
    the probe of the whole raw value: 100 with [Valid: reason] when the
    probe succeeds, 0 with [Not Valid: reason] otherwise; the probe is the
    first call. *)
Theorem enabled_access_check_decides (check_lic : bool) (p : Collect.Property) :
  Collect.property_type p = "url" ->
  let r := score_of true check_lic p in
  let ok := fst (check_url live (Collect.value p)) in
  let reason := snd (check_url live (Collect.value p)) in
  accessibility (fst r) = (if ok then 100%Q else 0%Q)
  /\ accessibility_reason (fst r)
     = (if ok then "Valid: " ++ reason else "Not Valid: " ++ reason)
  /\ exists rest, snd r = HttpProbe (Collect.value p) :: rest.
Proof.
  intros U. apply String.eqb_eq in U.
  destruct (score_property_fields live true check_lic cid pid ptitle p)
    as (_ & _ & B & B' & _ & _ & _ & _ & _ & L).
  cbv zeta in *. rewrite B, B', L. unfold accessibility_part. rewrite U.
  destruct (check_url live (Collect.value p)) as [ok reason]. cbn.
  repeat split. eauto.
Qed.

End PillarRules.

Lemma disabled_checks_pass_witness :
  Evaluate.accessibility_reason
    (fst (Evaluate.score_property Samples.online false false "C" "P" "T"
                                  Samples.repo_property)) = "Skipped"
  /\ Evaluate.license_reason
       (fst (Evaluate.score_property Samples.online false false "C" "P" "T"
                                     Samples.repo_property)) = "Skipped".
Proof.
  destruct (disabled_checks_pass Samples.online "C" "P" "T" false false
              Samples.repo_property) as [A L]; [reflexivity|].
  split; [apply A | apply L; reflexivity].
Defined.

Lemma enabled_access_check_decides_witness :
  Evaluate.accessibility
    (fst (Evaluate.score_property Samples.offline true true "C" "P" "T"
                                  Samples.repo_property)) = 0%Q.
Proof.
  apply (enabled_access_check_decides Samples.offline "C" "P" "T" true
           Samples.repo_property).
  reflexivity.
Defined.

Section PillarRulesTwo.
Import PyStr Evaluate Pillars.

Variable live : Live.
Variables check_access check_lic : bool.
Variables cid pid ptitle : string.

(** For a classified resource, Linkability is 100 exactly when an ontology
    prefix occurs in its object id or value, and the reason then names the
    source found; otherwise it is 0 and the reason cites the object id. *)
Theorem linkability_of_a_resource (stmt : Collect.Statement) :
  let p := Collect.process_property stmt in
  let e := fst (score_property live check_access check_lic cid pid ptitle p) in
  Collect.property_type p = "resource" ->
  match Collect.get_ontology_source (Collect.object_id p) (Collect.value p) with
  | Some src =>
      linkability e = 100%Q
      /\ linkability_reason e = "Valid: linked to " ++ src
  | None =>
      linkability e = 0%Q
      /\ linkability_reason e
         = "Not Valid: internal ORKG resource " ++ Collect.object_id p
  end.
Proof.
  cbv zeta. intros R.
  destruct (score_property_fields live check_access check_lic cid pid ptitle
              (Collect.process_property stmt))
    as (_ & _ & _ & _ & C & C' & _).
  cbv zeta in *. rewrite C, C'. unfold linkability_part.
  revert R. unfold Collect.process_property.
  destruct (startswith "http://" (Collect.get_or (Collect.st_object_label stmt) "")
            || startswith "https://"
                          (Collect.get_or (Collect.st_object_label stmt) ""));
    [cbn; discriminate|].
  destruct (String.eqb (Collect.get_or (Collect.st_object_class stmt) "literal")
                       "resource"); [|cbn; discriminate].
  cbn [Collect.property_type Collect.is_ontology_linked Collect.ontology_source
       Collect.object_id Collect.value].
  intros _.
  destruct (Collect.get_ontology_source
              (Collect.get_or (Collect.st_object_id stmt) "")
              (Collect.get_or (Collect.st_object_label stmt) ""));
    simpl; split; reflexivity.
Qed.

(** With the license check enabled, a repository url of kind github is
    decided by the repository lookup for its owner and name, one of kind
    zenodo by the record lookup for its name; any other kind scores 0 with
    reason [Unsupported] and no lookup is made.  A pause follows in each
    case. *)
Theorem enabled_license_check_decides (p : Collect.Property)
        (kind owner name : string) :
  Collect.property_type p = "url" ->
  Collect.is_repo_url p = true ->
  Collect.repo_type p = Some kind ->
  Collect.repo_owner p = Some owner ->
  Collect.repo_name p = Some name ->
  let r := score_property live check_access true cid pid ptitle p in
  let outcome :=
    if String.eqb kind "github" then
      (check_github live owner name, [GithubLookup owner name; Sleep])
    else if String.eqb kind "zenodo" then
      (check_zenodo live name, [ZenodoLookup name; Sleep])
    else ((false, "", "Unsupported: " ++ kind), [Sleep]) in
  let has_lic := fst (fst (fst outcome)) in
  license (fst r) = (if has_lic then 100%Q else 0%Q)
  /\ license_reason (fst r)
     = (if has_lic then "Valid: " else "Not Valid: ") ++ snd (fst outcome)
  /\ license_name (fst r) = snd (fst (fst outcome))
  /\ snd r = (snd (accessibility_part live check_access p) ++ snd outcome)%list.
Proof.
  intros U R K O N. cbv zeta. apply String.eqb_eq in U.
  destruct (score_property_fields live check_access true cid pid ptitle p)
    as (_ & _ & _ & _ & _ & _ & D & D' & D'' & L).
  cbv zeta in *. rewrite D, D', D'', L. unfold license_part.
  rewrite U, R, K, O, N. cbn [andb]. unfold check_license, eqb_opt, str_of.
  destruct (String.eqb kind "github").
  - destruct (check_github live owner name) as [[[|] nm] rs]; cbn; repeat split.
  - destruct (String.eqb kind "zenodo").
    + destruct (check_zenodo live name) as [[[|] nm] rs]; cbn; repeat split.
    + cbn. repeat split.
Qed.

End PillarRulesTwo.

Lemma linkability_of_a_resource_witness :
  Evaluate.linkability_reason
    (fst (Evaluate.score_property Samples.online true true "C" "P" "T"
            Samples.wikidata_resource))
  = "Valid: linked to wikidata".
Proof.
  pose proof (linkability_of_a_resource Samples.online true true "C" "P" "T"
                {| Collect.st_predicate_id := Some "P31";
                   Collect.st_predicate_label := Some "method";
                   Collect.st_object_label := Some "Transformer";
                   Collect.st_object_id := Some "wikidata:Q85810444";
                   Collect.st_object_class := Some "resource" |} eq_refl) as H.
  exact (proj2 H).
Defined.

Lemma enabled_license_check_decides_witness :
  Evaluate.license
    (fst (Evaluate.score_property Samples.online true true "C" "P" "T"
            Samples.gitlab_property)) = 0%Q
  /\ Evaluate.license_reason
       (fst (Evaluate.score_property Samples.online true true "C" "P" "T"
               Samples.gitlab_property))
     = "Not Valid: Unsupported: gitlab".
Proof.
  destruct (enabled_license_check_decides Samples.online true "C" "P" "T"
              Samples.gitlab_property "gitlab" "orkg" "orkg-frontend"
              eq_refl eq_refl eq_refl eq_refl eq_refl) as (A & B & _).
  split; [exact A | exact B].
Defined.

(* ================================================================== *)
(** ** Tiers *)

Section TierFacts.
Import Evaluate Shape.
Open Scope Q_scope.

Lemma get_tier_cases (s : Q) :
  (80 <= s /\ get_tier s = "Excellent")
  \/ (60 <= s /\ s < 80 /\ get_tier s = "Good")
  \/ (40 <= s /\ s < 60 /\ get_tier s = "Fair")
  \/ (s < 40 /\ get_tier s = "Poor").
Proof.
  unfold get_tier.
  destruct (Qle_bool 80 s) eqn:A;
    [apply Qle_bool_iff in A; left; now split|].
  assert (A' : s < 80).
  { destruct (Qlt_le_dec s 80) as [L|L]; [exact L|].
    apply Qle_bool_iff in L. congruence. }
  destruct (Qle_bool 60 s) eqn:B;
    [apply Qle_bool_iff in B; right; left; now repeat split|].
  assert (B' : s < 60).
  { destruct (Qlt_le_dec s 60) as [L|L]; [exact L|].
    apply Qle_bool_iff in L. congruence. }
  destruct (Qle_bool 40 s) eqn:C;
    [apply Qle_bool_iff in C; right; right; left; now repeat split|].
  assert (C' : s < 40).
  { destruct (Qlt_le_dec s 40) as [L|L]; [exact L|].
    apply Qle_bool_iff in L. congruence. }
  right; right; right. now split.
Qed.

(** The tier has inclusive lower bounds at 80, 60 and 40 and never goes
    down when the score goes up. *)
Theorem tier_bounds_and_monotonicity (s t : Q) :
  (get_tier s = "Excellent" <-> 80 <= s)
  /\ (get_tier s = "Good" <-> 60 <= s /\ s < 80)
  /\ (get_tier s = "Fair" <-> 40 <= s /\ s < 60)
  /\ (get_tier s = "Poor" <-> s < 40)
  /\ (s <= t -> (tier_rank (get_tier s) <= tier_rank (get_tier t))%Z).
Proof.
  destruct (get_tier_cases s) as [[A E]|[(A & A' & E)|[(A & A' & E)|[A E]]]];
    rewrite E;
    (split; [split; intros; try discriminate; try reflexivity; lra|]);
    (split; [split; intros; try discriminate; try reflexivity;
             try (split; lra); lra|]);
    (split; [split; intros; try discriminate; try reflexivity;
             try (split; lra); lra|]);
    (split; [split; intros; try discriminate; try reflexivity; lra|]);
    intros L;
    destruct (get_tier_cases t) as [[B F]|[(B & B' & F)|[(B & B' & F)|[B F]]]];
    rewrite F; cbn; try lia; lra.
Qed.

Lemma tier_bounds_and_monotonicity_witness :
  (tier_rank (get_tier (799 # 10)) <= tier_rank (get_tier 80))%Z.
Proof.
  apply (tier_bounds_and_monotonicity (799 # 10) 80). lra.
Defined.

End TierFacts.

(* ================================================================== *)
(** ** The record returned for a contribution *)

Section ResultFacts.
Import PyStr Evaluate Pillars.

Variable live : Live.
Variables check_access check_lic : bool.

Lemma loop_log (cid pid ptitle : string) (props : list Collect.Property) :
  forall a,
    log (fold_left (loop_body live check_access check_lic cid pid ptitle) props a)
    = (log a
       ++ flat_map (fun p => snd (score_property live check_access check_lic
                                                 cid pid ptitle p)) props)%list.
Proof.
  induction props as [|p props IH]; intros a; cbn [fold_left flat_map].
  - now rewrite app_nil_r.
  - rewrite IH. unfold loop_body.
    destruct (score_property live check_access check_lic cid pid ptitle p)
      as [e cs].
    cbn [log snd]. now rewrite app_assoc.
Qed.

(** The evaluation of a contribution written out. *)
Lemma evaluate_result (contrib : Collect.Contribution) :
  let cid := Collect.contribution_id contrib in
  let pid := Collect.paper_id contrib in
  let ptitle := Collect.paper_title contrib in
  let props := Collect.reproducibility_properties contrib in
  let scored := map (score_property live check_access check_lic cid pid ptitle)
                    props in
  exists m1 m2 m3 m4 o,
    mean_float [m1; m2; m3; m4] = Some o
    /\ evaluate_contribution live contrib check_access check_lic
       = (Some {| ce_contribution_id := cid; ce_paper_id := pid;
                  ce_paper_title := ptitle;
                  num_properties := Z.of_nat (List.length props);
                  ce_availability := m1; ce_accessibility := m2;
                  ce_linkability := m3; ce_license := m4;
                  overall := o; tier := get_tier o;
                  properties := map fst scored |},
          flat_map snd scored).
Proof.
  cbv zeta. unfold evaluate_contribution. cbv zeta.
  set (cid := Collect.contribution_id contrib).
  set (pid := Collect.paper_id contrib).
  set (ptitle := Collect.paper_title contrib).
  set (props := Collect.reproducibility_properties contrib).
  destruct (loop_columns live check_access check_lic cid pid ptitle props acc0)
    as (A & B & C & D & E).
  pose proof (loop_log cid pid ptitle props acc0) as L.
  cbv zeta in *.
  cbn [acc0 avail_scores access_scores link_scores lic_scores evals log app] in *.
  rewrite A, B, C, D, E, L. clear A B C D E L.
  destruct (columns_in_range live check_access check_lic cid pid ptitle props)
    as (F1 & F2 & F3 & F4).
  destruct (calc_mean_float_in_range _ F1) as (m1 & M1 & _).
  destruct (calc_mean_float_in_range _ F2) as (m2 & M2 & _).
  destruct (calc_mean_float_in_range _ F3) as (m3 & M3 & _).
  destruct (calc_mean_float_in_range _ F4) as (m4 & M4 & _).
  rewrite M1, M2, M3, M4. cbn [bind].
  exists m1, m2, m3, m4. eexists. split; [reflexivity|].
  cbn [mean_float mean option_map bind].
  assert (P : map fst (map (score_property live check_access check_lic cid pid
                                           ptitle) props)
              = map (fun p => fst (score_property live check_access check_lic
                                                  cid pid ptitle p)) props)
    by apply map_map.
  assert (R : flat_map snd (map (score_property live check_access check_lic cid
                                                pid ptitle) props)
              = flat_map (fun p => snd (score_property live check_access
                                          check_lic cid pid ptitle p)) props).
  { clear. induction props as [|p props IH]; cbn; [reflexivity | now rewrite IH]. }
  rewrite P, R. reflexivity.
Qed.

(** The evaluation keeps the order of the properties: the result holds one
    record per reproducibility property, in the order of the input, with the
    identifiers of the contribution, and the calls made are those of the
    properties one after the other, in the same order. *)
Theorem evaluation_keeps_order (contrib : Collect.Contribution) :
  let cid := Collect.contribution_id contrib in
  let pid := Collect.paper_id contrib in
  let ptitle := Collect.paper_title contrib in
  let props := Collect.reproducibility_properties contrib in
  let run := evaluate_contribution live contrib check_access check_lic in
  let one := score_property live check_access check_lic cid pid ptitle in
  exists r,
    fst run = Some r
    /\ properties r = map (fun p => fst (one p)) props
    /\ num_properties r = Collect.len props
    /\ num_properties r = Collect.len (properties r)
    /\ ce_contribution_id r = cid /\ ce_paper_id r = pid
    /\ ce_paper_title r = ptitle
    /\ map predicate_id (properties r) = map Collect.predicate_id props
    /\ map object_id (properties r) = map Collect.object_id props
    /\ snd run = flat_map (fun p => snd (one p)) props.
Proof.
  cbv zeta.
  destruct (evaluate_result contrib) as (m1 & m2 & m3 & m4 & o & _ & E).
  cbv zeta in E. rewrite E. cbn [fst snd].
  eexists. split; [reflexivity|].
  cbn [properties num_properties ce_contribution_id ce_paper_id ce_paper_title].
  rewrite !map_map.
  split; [reflexivity|]. split; [reflexivity|].
  split; [unfold Collect.len; now rewrite length_map|].
  split; [reflexivity|]. split; [reflexivity|]. split; [reflexivity|].
  split; [|split].
  - apply map_ext. intros p. rewrite score_property_assembled. unfold assemble.
    destruct (availability_part p) as [a ar],
             (accessibility_part live check_access p) as [[x xr] c1],
             (linkability_part p) as [l lr],
             (license_part live check_lic p) as [[[y yr] yn] c2].
    reflexivity.
  - apply map_ext. intros p. rewrite score_property_assembled. unfold assemble.
    destruct (availability_part p) as [a ar],
             (accessibility_part live check_access p) as [[x xr] c1],
             (linkability_part p) as [l lr],
             (license_part live check_lic p) as [[[y yr] yn] c2].
    reflexivity.
  - rewrite flat_map_concat_map, map_map, <- flat_map_concat_map. reflexivity.
Qed.

Lemma no_url_no_call_list (cid pid ptitle : string)
      (props : list Collect.Property) :
  Forall (fun p => Collect.property_type p <> "url") props ->
  flat_map snd (map (score_property live check_access check_lic cid pid ptitle)
                    props) = [].
Proof.
  induction 1 as [|p props N F IH]; [reflexivity|].
  cbn [map flat_map]. rewrite IH, app_nil_r.
  destruct (score_property_fields live check_access check_lic cid pid ptitle p)
    as (_ & _ & _ & _ & _ & _ & _ & _ & _ & L).
  cbv zeta in L. rewrite L.
  unfold accessibility_part, license_part.
  apply String.eqb_neq in N. rewrite N. reflexivity.
Qed.

(** A contribution without url properties is evaluated without any call,
    whatever the toggles. *)
Theorem no_url_no_call (contrib : Collect.Contribution) :
  Forall (fun p => Collect.property_type p <> "url")
         (Collect.reproducibility_properties contrib) ->
  snd (evaluate_contribution live contrib check_access check_lic) = [].
Proof.
  intros F.
  destruct (evaluate_result contrib) as (m1 & m2 & m3 & m4 & o & _ & E).
  cbv zeta in E. rewrite E. cbn [snd].
  now apply no_url_no_call_list.
Qed.

End ResultFacts.

Lemma no_url_no_call_witness :
  snd (Evaluate.evaluate_contribution Samples.online
         Samples.offline_contribution true true) = [].
Proof.
  apply (no_url_no_call Samples.online true true Samples.offline_contribution).
  repeat constructor; vm_compute; discriminate.
Defined.

(* ================================================================== *)
(** ** Further facts about the trimmed mean *)

Section TrimFacts.
Import Evaluate TrimSpec.
Open Scope Q_scope.

(** On four or more scores: the least and the greatest element that are
    left out, and the part that is averaged. *)
Lemma calc_mean_ends (l : list Q) :
  (4 <= List.length l)%nat ->
  exists a b mid,
    calc_mean l = Some (sum mid / inject_Z (Z.of_nat (List.length mid)))
    /\ List.length l = S (S (List.length mid))
    /\ In a l /\ In b l
    /\ Forall (Qle a) l /\ Forall (fun y => y <= b) l
    /\ sum l == a + sum mid + b.
Proof.
  intros L.
  destruct (sorted_ends l) as (a & mid & b & E & SL & Fa & Fb); [lia|].
  pose proof (sorted_perm l) as SP.
  pose proof (Permutation_length SP) as PL. rewrite E in PL.
  cbn [List.length] in PL. rewrite length_app in PL. cbn [List.length] in PL.
  exists a, b, mid.
  assert (NE : l <> []) by (destruct l; [simpl in L; lia | discriminate]).
  assert (NM : mid <> []) by (destruct mid; [simpl in PL; lia | discriminate]).
  split.
  { rewrite (calc_mean_nonempty l NE).
    destruct (4 <=? Z.of_nat (List.length l))%Z eqn:C;
      [|apply Z.leb_gt in C; lia].
    rewrite SL. now apply mean_some. }
  split; [lia|].
  split; [apply (Permutation_in a (Permutation_sym SP)); rewrite E; now left|].
  split.
  { apply (Permutation_in b (Permutation_sym SP)). rewrite E.
    right. apply in_or_app. right. now left. }
  split; [exact Fa|]. split; [exact Fb|].
  rewrite (sum_perm _ _ SP), E.
  change (sum (a :: mid ++ [b])) with (a + sum (mid ++ [b])).
  rewrite sum_app. unfold sum at 2. cbn [fold_right]. lra.
Qed.

Lemma calc_mean_perm (l l' : list Q) :
  Permutation l l' ->
  exists m m', calc_mean l = Some m /\ calc_mean l' = Some m' /\ m == m'.
Proof.
  intros P. pose proof (Permutation_length P) as PL.
  pose proof (sum_perm _ _ P) as PS.
  destruct (le_lt_dec 4 (List.length l)) as [L|L].
  - destruct (calc_mean_ends l L) as (a & b & mid & M & N & Ia & Ib & Fa & Fb & S).
    destruct (calc_mean_ends l') as (a' & b' & mid' & M' & N' & Ia' & Ib' & Fa' & Fb' & S');
      [lia|].
    rewrite Forall_forall in Fa, Fb, Fa', Fb'.
    assert (Ea : a == a').
    { apply Qle_antisym.
      - apply Fa. apply (Permutation_in a' (Permutation_sym P)), Ia'.
      - apply Fa'. apply (Permutation_in a P), Ia. }
    assert (Eb : b == b').
    { apply Qle_antisym.
      - apply Fb'. apply (Permutation_in b P), Ib.
      - apply Fb. apply (Permutation_in b' (Permutation_sym P)), Ib'. }
    assert (LM : List.length mid = List.length mid') by lia.
    assert (SM : sum mid == sum mid') by lra.
    eexists. eexists. split; [exact M|]. split; [exact M'|].
    rewrite LM, SM. reflexivity.
  - destruct l as [|x r].
    + apply Permutation_nil in P. subst l'.
      exists 100, 100. split; [reflexivity|]. split; reflexivity.
    + assert (NE : x :: r <> []) by discriminate.
      assert (NE' : l' <> []).
      { destruct l'; [simpl in PL; lia | discriminate]. }
      rewrite (calc_mean_nonempty _ NE), (calc_mean_nonempty _ NE').
      rewrite <- PL.
      destruct (4 <=? Z.of_nat (List.length (x :: r)))%Z eqn:C;
        [apply Z.leb_le in C; lia|].
      eexists. eexists.
      split; [apply (mean_some _ NE)|]. split; [apply (mean_some _ NE')|].
      rewrite <- PL, PS. reflexivity.
Qed.

(** The pillar mean does not depend on the order of the properties. *)
Theorem calc_mean_ignores_order (l l' : list Q) :
  Permutation l l' ->
  exists m m', calc_mean l = Some m /\ calc_mean l' = Some m' /\ m == m'.
Proof. exact (calc_mean_perm l l'). Qed.

Lemma sum_repeat (v : Q) (k : nat) :
  sum (repeat v k) == inject_Z (Z.of_nat k) * v.
Proof.
  unfold sum. induction k as [|k IH].
  - cbn [repeat fold_right Z.of_nat]. change (inject_Z 0) with 0. lra.
  - cbn [repeat fold_right]. rewrite IH, Nat2Z.inj_succ. unfold Z.succ.
    rewrite inject_Z_plus. change (inject_Z 1) with 1. lra.
Qed.

(** A single deviating score among four or more is left out altogether:
    when all scores but one equal [v], the pillar mean is [v]. *)
Theorem lone_outlier_is_trimmed (l : list Q) (x v : Q) (k : nat) :
  (3 <= k)%nat ->
  Permutation l (x :: repeat v k) ->
  exists m, calc_mean l = Some m /\ m == v.
Proof.
  intros K P. pose proof (Permutation_length P) as PL.
  cbn [List.length] in PL. rewrite repeat_length in PL.
  destruct (calc_mean_ends l) as (a & b & mid & M & N & Ia & Ib & Fa & Fb & Hs);
    [lia|].
  eexists. split; [exact M|].
  assert (LM : List.length mid = (k - 1)%nat) by lia.
  rewrite (sum_perm _ _ P) in Hs.
  change (sum (x :: repeat v k)) with (x + sum (repeat v k)) in Hs.
  rewrite sum_repeat in Hs.
  assert (Ix : In x l) by (apply (Permutation_in x (Permutation_sym P)); now left).
  assert (Iv : In v l).
  { apply (Permutation_in v (Permutation_sym P)). right.
    destruct k; [lia | now left]. }
  rewrite Forall_forall in Fa, Fb.
  assert (AB : a + b == x + v).
  { apply (Permutation_in a P) in Ia. apply (Permutation_in b P) in Ib.
    pose proof (Fa x Ix). pose proof (Fa v Iv).
    pose proof (Fb x Ix). pose proof (Fb v Iv).
    destruct Ia as [<-|Ia]; [|apply repeat_spec in Ia; subst a];
      (destruct Ib as [<-|Ib]; [|apply repeat_spec in Ib; subst b]); lra. }
  assert (KK : inject_Z (Z.of_nat k)
               == inject_Z (Z.of_nat (List.length mid)) + 1).
  { rewrite LM. replace k with (Datatypes.S (k - 1)%nat) at 1 by lia.
    rewrite Nat2Z.inj_succ. unfold Z.succ. rewrite inject_Z_plus.
    reflexivity. }
  set (c := inject_Z (Z.of_nat (List.length mid))) in *.
  assert (C : 0 < c).
  { unfold c. change 0 with (inject_Z 0). rewrite <- Zlt_Qlt. lia. }
  assert (SM : sum mid == v * c).
  { rewrite KK in Hs. lra. }
  rewrite SM. apply Qdiv_mult_l. lra.
Qed.

End TrimFacts.

Lemma calc_mean_ignores_order_witness :
  exists m m', Evaluate.calc_mean [0; 100; 100; 100]%Q = Some m
               /\ Evaluate.calc_mean [100; 100; 100; 0]%Q = Some m'
               /\ (m == m')%Q.
Proof.
  apply (calc_mean_ignores_order [0; 100; 100; 100]%Q [100; 100; 100; 0]%Q).
  apply (Permutation_cons_append [100; 100; 100]%Q 0%Q).
Defined.

Lemma lone_outlier_is_trimmed_witness :
  exists m, Evaluate.calc_mean [100; 0; 100; 100]%Q = Some m /\ (m == 100)%Q.
Proof.
  apply (lone_outlier_is_trimmed [100; 0; 100; 100]%Q 0%Q 100%Q 3).
  - lia.
  - apply perm_swap.
Defined.

(* ================================================================== *)
(** ** The run over a dataset and its statistics *)

Section StatsFacts.
Import PyStr Evaluate Stats Shape.

Variable round1 : Q -> Q.
Variable stdev : list Q -> Q.
Variable now : string.
Variable live : Live.
Variables check_access check_lic : bool.

Lemma stats_defined (vals : list Q) :
  stats round1 stdev vals = None <-> vals = [].
Proof.
  split; [|intros ->; reflexivity].
  destruct vals as [|x r]; [reflexivity|]. intros H. exfalso.
  unfold stats in H. cbn [mean_float mean option_map bind] in H.
  unfold median in H.
  pose proof (Permutation_length (sorted_perm (x :: r))) as L.
  destruct (List.length (sorted (x :: r))) as [|n] eqn:E;
    [cbn in L; discriminate|].
  destruct (Nat.odd (Datatypes.S n)); cbn [bind py_min py_max] in H;
    discriminate.
Qed.

Lemma calc_stats_defined (results : list ContributionEval) :
  calc_stats round1 stdev now results = None <-> results = [].
Proof.
  split; [|intros ->; reflexivity].
  destruct results as [|r rs]; [reflexivity|]. intros H. exfalso.
  unfold calc_stats in H. cbv zeta in H.
  destruct (stats round1 stdev (map ce_availability (r :: rs))) eqn:S1;
    [|apply stats_defined in S1; discriminate].
  destruct (stats round1 stdev (map ce_accessibility (r :: rs))) eqn:S2;
    [|apply stats_defined in S2; discriminate].
  destruct (stats round1 stdev (map ce_linkability (r :: rs))) eqn:S3;
    [|apply stats_defined in S3; discriminate].
  destruct (stats round1 stdev (map ce_license (r :: rs))) eqn:S4;
    [|apply stats_defined in S4; discriminate].
  destruct (stats round1 stdev (map overall (r :: rs))) eqn:S5;
    [|apply stats_defined in S5; discriminate].
  cbn [bind] in H. discriminate.
Qed.

(** The loop of the run never fails: one result per contribution, each the
    evaluation of its contribution, and the calls in order. *)
Lemma evaluate_all_spec (contribs : list Collect.Contribution) :
  exists rs,
    evaluate_all live contribs check_access check_lic
    = (Some rs,
       flat_map (fun c => snd (evaluate_contribution live c check_access
                                                     check_lic)) contribs)
    /\ Forall2 (fun c r => fst (evaluate_contribution live c check_access
                                                      check_lic) = Some r)
               contribs rs.
Proof.
  induction contribs as [|c cs (rs & E & F)].
  - exists []. split; [reflexivity | constructor].
  - destruct (evaluate_result live check_access check_lic c)
      as (m1 & m2 & m3 & m4 & o & _ & R).
    cbv zeta in R. cbn [evaluate_all flat_map]. rewrite R, E. cbn [snd option_map].
    eexists. split; [reflexivity|]. constructor; [now rewrite R | exact F].
Qed.

Lemma run_evaluation_inv (contribs : list Collect.Contribution)
      (rs : list ContributionEval) (st : Statistics) :
  fst (run_evaluation round1 stdev now live contribs check_access check_lic)
  = Some (rs, st) ->
  Forall2 (fun c r => fst (evaluate_contribution live c check_access check_lic)
                      = Some r) contribs rs
  /\ calc_stats round1 stdev now rs = Some st.
Proof.
  unfold run_evaluation.
  destruct (evaluate_all_spec contribs) as (rs0 & E & F). rewrite E.
  cbn [fst bind].
  destruct (calc_stats round1 stdev now rs0) as [s|] eqn:C; cbn [bind];
    [|discriminate].
  intros H. injection H as <- <-. now split.
Qed.

(** What [calc_stats] counts. *)
Lemma calc_stats_counts (results : list ContributionEval) (st : Statistics) :
  calc_stats round1 stdev now results = Some st ->
  let all_props := flat_map properties results in
  let urls := filter (has_type "url") all_props in
  let repos := filter has_repo_type urls in
  Stats.total_contributions st = Collect.len results
  /\ t_excellent st = count (has_tier "Excellent") results
  /\ t_good st = count (has_tier "Good") results
  /\ t_fair st = count (has_tier "Fair") results
  /\ t_poor st = count (has_tier "Poor") results
  /\ n_total st = Collect.len all_props
  /\ n_urls st = Collect.len urls
  /\ n_resources st = Collect.len (filter (has_type "resource") all_props)
  /\ n_literals st = Collect.len (filter (has_type "literal") all_props)
  /\ n_repos st = Collect.len repos
  /\ r_total (url_accessibility st) = Collect.len urls
  /\ r_passed (url_accessibility st)
     = count (fun p => is_100 (accessibility p)) urls
  /\ r_total (repo_license st) = Collect.len repos
  /\ r_passed (repo_license st) = count (fun p => is_100 (license p)) repos.
Proof.
  unfold calc_stats. cbv zeta.
  destruct (stats round1 stdev (map ce_availability results)); [|discriminate].
  destruct (stats round1 stdev (map ce_accessibility results)); [|discriminate].
  destruct (stats round1 stdev (map ce_linkability results)); [|discriminate].
  destruct (stats round1 stdev (map ce_license results)); [|discriminate].
  destruct (stats round1 stdev (map overall results)); [|discriminate].
  cbn [bind]. intros H. injection H as <-. cbn. repeat split.
Qed.

Lemma result_tier (c : Collect.Contribution) (r : ContributionEval) :
  fst (evaluate_contribution live c check_access check_lic) = Some r ->
  tier r = get_tier (overall r)
  /\ properties r
     = map (fun p => fst (score_property live check_access check_lic
                            (Collect.contribution_id c) (Collect.paper_id c)
                            (Collect.paper_title c) p))
           (Collect.reproducibility_properties c).
Proof.
  destruct (evaluate_result live check_access check_lic c)
    as (m1 & m2 & m3 & m4 & o & _ & R).
  cbv zeta in R. rewrite R. cbn [fst]. intros H. injection H as <-.
  cbn [tier overall properties]. split; [reflexivity | apply map_map].
Qed.

Lemma count_tiers (rs : list ContributionEval) :
  Forall (fun r => tier r = get_tier (overall r)) rs ->
  count (has_tier "Excellent") rs + count (has_tier "Good") rs
  + count (has_tier "Fair") rs + count (has_tier "Poor") rs
  = Collect.len rs.
Proof.
  unfold count, Collect.len.
  induction 1 as [|r rs T F IH]; [reflexivity|].
  assert (Hh : forall name,
             has_tier name r = String.eqb (get_tier (overall r)) name)
    by (intros name; unfold has_tier; now rewrite T).
  cbn [filter]. rewrite !Hh.
  destruct (get_tier_cases (overall r))
    as [[_ E]|[(_ & _ & E)|[(_ & _ & E)|[_ E]]]];
    rewrite E; cbn [String.eqb Ascii.eqb Bool.eqb]; cbn [List.length]; lia.
Qed.

(** The run raises on an empty dataset, because the statistics take the mean
    of an empty list, and only then: on a non-empty dataset it returns one
    result per contribution, each the evaluation of its contribution, with
    the statistics of these results. *)
Theorem run_evaluation_needs_a_contribution
        (contribs : list Collect.Contribution) :
  let run := run_evaluation round1 stdev now live contribs check_access
                            check_lic in
  match contribs with
  | [] => run = (None, [])
  | _ :: _ =>
      exists rs st,
        fst run = Some (rs, st)
        /\ Forall2 (fun c r => fst (evaluate_contribution live c check_access
                                      check_lic) = Some r) contribs rs
        /\ Stats.total_contributions st = Collect.len contribs
  end.
Proof.
  cbv zeta. destruct contribs as [|c cs]; [reflexivity|].
  unfold run_evaluation.
  destruct (evaluate_all_spec (c :: cs)) as (rs & E & F). rewrite E.
  cbn [fst bind].
  destruct (calc_stats round1 stdev now rs) as [st|] eqn:C.
  - exists rs, st. cbn [bind]. split; [reflexivity|]. split; [exact F|].
    destruct (calc_stats_counts rs st C) as (T & _). cbv zeta in T. rewrite T.
    unfold Collect.len. now rewrite (Forall2_length F).
  - apply calc_stats_defined in C. subst rs. inversion F.
Qed.

(** The four tier counts of a run add up to the number of contributions. *)
Theorem tier_counts_partition (contribs : list Collect.Contribution)
        (rs : list ContributionEval) (st : Statistics) :
  fst (run_evaluation round1 stdev now live contribs check_access check_lic)
  = Some (rs, st) ->
  t_excellent st + t_good st + t_fair st + t_poor st
  = Stats.total_contributions st
  /\ Stats.total_contributions st = Collect.len contribs.
Proof.
  intros H. destruct (run_evaluation_inv contribs rs st H) as [F C].
  destruct (calc_stats_counts rs st C) as (T & A & B & D & E & _).
  cbv zeta in *. rewrite T, A, B, D, E. split.
  - apply count_tiers. clear - F.
    induction F as [|c r cs rs H F IH]; constructor; [|exact IH].
    exact (proj1 (result_tier c r H)).
  - unfold Collect.len. now rewrite (Forall2_length F).
Qed.

End StatsFacts.

Lemma tier_counts_partition_witness :
  exists st,
    (Stats.t_excellent st + Stats.t_good st + Stats.t_fair st + Stats.t_poor st
     = Stats.total_contributions st).
Proof.
  destruct (fst (Stats.run_evaluation (fun x => x) (fun _ => 0%Q) "now"
                   Samples.online [Samples.sample_contribution] true true))
    as [[rs st]|] eqn:E.
  - exists st.
    exact (proj1 (tier_counts_partition (fun x => x) (fun _ => 0%Q) "now"
                    Samples.online true true [Samples.sample_contribution]
                    rs st E)).
  - vm_compute in E. discriminate E.
Defined.

(* ================================================================== *)
(** ** From the collected dataset to the statistics and the export *)

Section PipelineFacts.
Import PyStr Evaluate Stats Shape.

Variable round1 : Q -> Q.
Variable stdev : list Q -> Q.
Variable now : string.
Variable live : Live.
Variables check_access check_lic : bool.

Lemma filter_all {A} (f : A -> bool) (l : list A) :
  Forall (fun x => f x = true) l -> filter f l = l.
Proof.
  induction 1 as [|x l H F IH]; [reflexivity|]. cbn. now rewrite H, IH.
Qed.

Lemma filter_keeps {A} (P : A -> Prop) (f : A -> bool) (l : list A) :
  Forall P l -> Forall P (filter f l).
Proof.
  induction 1 as [|x l H F IH]; cbn; [constructor|].
  destruct (f x); [now constructor | exact IH].
Qed.

(** The records of a run, against the properties they were made from. *)
Lemma run_records (contribs : list Collect.Contribution)
      (rs : list ContributionEval) :
  Forall2 (fun c r => fst (evaluate_contribution live c check_access check_lic)
                      = Some r) contribs rs ->
  Forall2 (fun p e => exists cid pid ptitle,
                        e = fst (score_property live check_access check_lic
                                                cid pid ptitle p))
          (collected_properties contribs) (flat_map properties rs).
Proof.
  induction 1 as [|c r cs rs H F IH]; [constructor|].
  cbn [collected_properties flat_map]. apply Forall2_app; [|exact IH].
  rewrite (proj2 (result_tier live check_access check_lic c r H)).
  clear. induction (Collect.reproducibility_properties c) as [|p ps IHp];
    cbn [map]; constructor; [|exact IHp].
  now exists (Collect.contribution_id c), (Collect.paper_id c),
             (Collect.paper_title c).
Qed.

Lemma carried_type (cid pid ptitle : string) (p : Collect.Property) :
  property_type (fst (score_property live check_access check_lic cid pid
                                     ptitle p))
  = Collect.property_type p.
Proof.
  rewrite score_property_assembled. unfold Pillars.assemble.
  destruct (Pillars.availability_part p) as [a ar],
           (Pillars.accessibility_part live check_access p) as [[x xr] c1],
           (Pillars.linkability_part p) as [l lr],
           (Pillars.license_part live check_lic p) as [[[y yr] yn] c2].
  reflexivity.
Qed.

Lemma typed_records (props : list Collect.Property) (es : list PropertyEval) :
  Forall2 (fun p e => exists cid pid ptitle,
                        e = fst (score_property live check_access check_lic
                                                cid pid ptitle p)) props es ->
  Forall classified props ->
  List.length es = List.length props
  /\ (List.length (filter (has_type "url") es)
      + List.length (filter (has_type "resource") es)
      + List.length (filter (has_type "literal") es))%nat
     = List.length es.
Proof.
  induction 1 as [|p e ps es (cid & pid & ptitle & ->) F IH]; intros C;
    [split; reflexivity|].
  inversion C as [|? ? [stmt Hp] C']; subst.
  destruct (IH C') as [L T]. cbn [List.length]. split; [now rewrite L|].
  assert (Hh : forall t,
             has_type t (fst (score_property live check_access check_lic cid
                                pid ptitle (Collect.process_property stmt)))
             = String.eqb (Collect.property_type
                             (Collect.process_property stmt)) t)
    by (intros t; unfold has_type; now rewrite carried_type).
  cbn [filter]. rewrite !Hh.
  destruct (process_property_types stmt) as [E|[E|E]]; rewrite E;
    cbn [String.eqb Ascii.eqb Bool.eqb]; cbn [List.length]; lia.
Qed.

End PipelineFacts.

Section PipelineTheorems.
Import PyStr Evaluate Stats Shape.

Variable round1 : Q -> Q.
Variable stdev : list Q -> Q.
Variable now : string.
Variable live : Live.

Lemma well_collected_classified (w : Collect.World)
      (cs : list Collect.Contribution) :
  Forall (well_collected w) cs -> Forall classified (collected_properties cs).
Proof.
  induction 1 as [|c cs (stmts & _ & _ & A & R & _) F IH]; [constructor|].
  cbn [collected_properties flat_map]. apply Forall_app. split; [|exact IH].
  rewrite R, A. apply filter_keeps.
  clear. induction stmts as [|s stmts IHs]; cbn [map]; constructor; [|exact IHs].
  now exists s.
Qed.

Lemma tally_total (cs : list Collect.Contribution) :
  Save.total_of (Save.t_type_counts (Save.tally cs))
  = Collect.len (collected_properties cs).
Proof.
  unfold Save.tally. rewrite tally_counts. cbn [Save.t_type_counts].
  destruct (fold_step (collected_properties cs) Collect.zero_counts eq_refl)
    as (_ & _ & T).
  cbv zeta in T. rewrite T. reflexivity.
Qed.

(** Collected, saved and evaluated: the statistics of a run over the
    collected dataset count as many properties as the saved metadata, every
    one of them as a url, a resource or a literal, and as many contributions
    as were saved. *)
Theorem statistics_cover_the_collected_dataset (w : Collect.World)
        (min_per_type max_contributions : Z) (check_access check_lic : bool)
        (round1' : Q -> Q) (now' : string)
        (rs : list ContributionEval) (st : Statistics) :
  let contribs := Collect.collect_contributions w min_per_type max_contributions in
  let meta := fst (Save.save_contributions round1' now' contribs) in
  fst (run_evaluation round1 stdev now live contribs check_access check_lic)
  = Some (rs, st) ->
  n_total st = Save.total_properties meta
  /\ n_urls st + n_resources st + n_literals st = n_total st
  /\ Stats.total_contributions st = Save.total_contributions meta.
Proof.
  cbv zeta. intros H.
  set (contribs := Collect.collect_contributions w min_per_type
                                                 max_contributions) in *.
  destruct (run_evaluation_inv round1 stdev now live check_access check_lic
              contribs rs st H) as [F C].
  destruct (calc_stats_counts round1 stdev now rs st C)
    as (T & _ & _ & _ & _ & N & U & R & L & _).
  cbv zeta in *.
  assert (W : Forall (well_collected w) contribs).
  { unfold contribs, Collect.collect_contributions, Collect.run_collect.
    apply well_collected_kept. constructor. }
  destruct (typed_records live check_access check_lic _ _
              (run_records live check_access check_lic contribs rs F)
              (well_collected_classified w contribs W)) as [LE TP].
  unfold Save.save_contributions.
  cbn [fst Save.total_properties Save.total_contributions].
  rewrite tally_total, N, U, R, L, T. unfold Collect.len.
  split; [now rewrite LE|]. split; [lia|].
  now rewrite (Forall2_length F).
Qed.

(** With both live checks disabled, the statistics count every url as
    accessible and every repository as licensed. *)
Theorem disabled_checks_give_full_pass_counts
        (contribs : list Collect.Contribution)
        (rs : list ContributionEval) (st : Statistics) :
  fst (run_evaluation round1 stdev now live contribs false false)
  = Some (rs, st) ->
  r_passed (url_accessibility st) = r_total (url_accessibility st)
  /\ r_passed (repo_license st) = r_total (repo_license st).
Proof.
  intros H.
  destruct (run_evaluation_inv round1 stdev now live false false
              contribs rs st H) as [F C].
  destruct (calc_stats_counts round1 stdev now rs st C)
    as (_ & _ & _ & _ & _ & _ & _ & _ & _ & _ & UT & UP & RT & RP).
  cbv zeta in *. rewrite UT, UP, RT, RP. unfold count, Collect.len.
  assert (A : Forall (fun e => is_100 (accessibility e) = true
                               /\ is_100 (license e) = true)
                     (flat_map properties rs)).
  { pose proof (run_records live false false contribs rs F) as R.
    clear - R.
    set (es := flat_map properties rs) in *.
    set (ps := collected_properties contribs) in *.
    clearbody es ps.
    induction R as [|p e ps es (cid & pid & ptitle & ->) R IH];
      constructor; [|exact IH].
    destruct (score_property_fields live false false cid pid ptitle p)
      as (_ & _ & B & _ & _ & _ & D & _).
    cbv zeta in *. rewrite B, D.
    unfold Pillars.accessibility_part, Pillars.license_part.
    destruct (String.eqb (Collect.property_type p) "url"),
             (Collect.is_repo_url p); cbn; split; reflexivity. }
  split.
  - rewrite filter_all; [reflexivity|]. apply filter_keeps.
    eapply Forall_impl; [|exact A]. intros e [X _]. exact X.
  - rewrite filter_all; [reflexivity|]. do 2 apply filter_keeps.
    eapply Forall_impl; [|exact A]. intros e [_ X]. exact X.
Qed.

End PipelineTheorems.

Lemma statistics_cover_the_collected_dataset_witness :
  exists st,
    Stats.n_total st = 1
    /\ Stats.n_urls st + Stats.n_resources st + Stats.n_literals st
       = Stats.n_total st.
Proof.
  destruct (fst (Stats.run_evaluation (fun x => x) (fun _ => 0%Q) "now"
                   Samples.online
                   (Collect.collect_contributions Samples.one_page_world 1 10)
                   true true)) as [[rs st]|] eqn:E.
  - exists st.
    destruct (statistics_cover_the_collected_dataset
                (fun x => x) (fun _ => 0%Q) "now" Samples.online
                Samples.one_page_world 1 10 true true (fun x => x) "then"
                rs st E) as (A & B & _).
    split; [rewrite A; vm_compute; reflexivity | exact B].
  - vm_compute in E. discriminate E.
Defined.

Lemma disabled_checks_give_full_pass_counts_witness :
  exists st,
    Stats.r_passed (Stats.url_accessibility st)
    = Stats.r_total (Stats.url_accessibility st).
Proof.
  destruct (fst (Stats.run_evaluation (fun x => x) (fun _ => 0%Q) "now"
                   Samples.offline [Samples.sample_contribution] false false))
    as [[rs st]|] eqn:E.
  - exists st.
    exact (proj1 (disabled_checks_give_full_pass_counts
                    (fun x => x) (fun _ => 0%Q) "now" Samples.offline
                    [Samples.sample_contribution] rs st E)).
  - vm_compute in E. discriminate E.
Defined.

(* ================================================================== *)
(** ** The detailed export *)

Section ExportFacts.
Import PyStr Evaluate Stats Shape.

Variable round1 : Q -> Q.
Variable stdev : list Q -> Q.
Variable now : string.
Variable live : Live.
Variables check_access check_lic : bool.

Lemma fmt_0f_binary : fmt_0f 0 = "0" /\ fmt_0f 100 = "100".
Proof. vm_compute. split; reflexivity. Qed.

Lemma export_rows (rs : list ContributionEval) :
  export_detailed rs = map detailed_row (flat_map properties rs).
Proof.
  unfold export_detailed. induction rs as [|r rs IH]; [reflexivity|].
  cbn [flat_map]. now rewrite map_app, IH.
Qed.

(** The detailed table of a run has one row per evaluated property, each
    with as many cells as the header; the four score cells read [0] or
    [100], the title cell has at most 50 characters and the value cell at
    most 80. *)
Theorem detailed_export_shape (contribs : list Collect.Contribution)
        (rs : list ContributionEval) (st : Statistics) :
  fst (run_evaluation round1 stdev now live contribs check_access check_lic)
  = Some (rs, st) ->
  Collect.len (export_detailed rs) = n_total st
  /\ Forall (fun row =>
               List.length row = List.length detailed_header
               /\ In (nth 8 row "") ["0"; "100"]
               /\ In (nth 10 row "") ["0"; "100"]
               /\ In (nth 12 row "") ["0"; "100"]
               /\ In (nth 14 row "") ["0"; "100"]
               /\ (String.length (nth 2 row "") <= 50)%nat
               /\ (String.length (nth 7 row "") <= 80)%nat)
            (export_detailed rs).
Proof.
  intros H.
  destruct (run_evaluation_inv round1 stdev now live check_access check_lic
              contribs rs st H) as [F C].
  destruct (calc_stats_counts round1 stdev now rs st C)
    as (_ & _ & _ & _ & _ & N & _).
  cbv zeta in N. rewrite N, export_rows. unfold Collect.len.
  split; [now rewrite length_map|].
  pose proof (run_records live check_access check_lic contribs rs F) as R.
  clear - R.
  set (es := flat_map properties rs) in *.
  set (ps := collected_properties contribs) in *.
  clearbody es ps.
  induction R as [|p e ps es (cid & pid & ptitle & ->) R IH];
    cbn [map]; constructor; [|exact IH].
  destruct (binary_scores live cid pid ptitle check_access check_lic p)
    as (A & B & D & E).
  cbv zeta in A, B, D, E.
  destruct fmt_0f_binary as [Z0 Z100].
  unfold detailed_row. cbn [nth List.length].
  split; [reflexivity|].
  split; [destruct A as [-> | ->]; rewrite ?Z0, ?Z100; cbn; tauto|].
  split; [destruct B as [-> | ->]; rewrite ?Z0, ?Z100; cbn; tauto|].
  split; [destruct D as [-> | ->]; rewrite ?Z0, ?Z100; cbn; tauto|].
  split; [destruct E as [-> | ->]; rewrite ?Z0, ?Z100; cbn; tauto|].
  split; apply take_length_le.
Qed.

End ExportFacts.

Lemma detailed_export_shape_witness :
  exists rs,
    Forall (fun row => List.length row = 19%nat) (Evaluate.export_detailed rs)
    /\ List.length (Evaluate.export_detailed rs) = 3%nat.
Proof.
  destruct (fst (Stats.run_evaluation (fun x => x) (fun _ => 0%Q) "now"
                   Samples.online [Samples.sample_contribution] true true))
    as [[rs st]|] eqn:E.
  - exists rs.
    destruct (detailed_export_shape (fun x => x) (fun _ => 0%Q) "now"
                Samples.online true true [Samples.sample_contribution]
                rs st E) as [L F].
    split.
    + eapply Forall_impl; [|exact F]. intros row (X & _). exact X.
    + vm_compute in E. injection E as <- _. reflexivity.
  - vm_compute in E. discriminate E.
Defined.
